(** * GitHub webhook receiver: signature gate, event normalisation, event store

    A shallow embedding of the two Flask applications of the repository,
    [run.py] (push / pull_request / merge events, document class
    [GitHubEvent]) and [app/app.py] (push events only, document class
    [PushEvent] of [Models.py]), together with the properties that the
    specification states about them.

    Layout:
    - [SHA256], [HMAC]: the digest that [hmac.new(..., hashlib.sha256)]
      computes, over 32-bit words held in [Z];
    - [Py]: the fragment of Python's object model the handlers rely on
      (truthiness, subscripting, [dict.get], [str.replace], exceptions);
    - [Flask]: requests, responses, [abort];
    - [Mongo]: the document collection with [save] and the ordered,
      limited query;
    - [Run], [App]: the two applications;
    - the theorems, claim by claim. *)

From Stdlib Require Import ZArith List String Ascii Bool Lia.
From Stdlib Require Import Floats.SpecFloat DecimalString.
From stdpp Require Import base option list sorting strings gmap.

Import ListNotations.
Set Warnings "-register-all".
Local Open Scope string_scope.
Local Open Scope Z_scope.

(* ===================================================================== *)
(** ** SHA-256 (FIPS 180-4) on 32-bit words *)
(* ===================================================================== *)

Module SHA256.

Definition wrap32 (x : Z) : Z := x mod 2 ^ 32.
Definition add32 (x y : Z) : Z := wrap32 (x + y).
Definition rotr (n x : Z) : Z :=
  Z.lor (Z.shiftr x n) (wrap32 (Z.shiftl x (32 - n))).
Definition not32 (x : Z) : Z := Z.lxor x 0xffffffff.

Definition Ch (x y z : Z) : Z := Z.lxor (Z.land x y) (Z.land (not32 x) z).
Definition Maj (x y z : Z) : Z :=
  Z.lxor (Z.lxor (Z.land x y) (Z.land x z)) (Z.land y z).
Definition Sig0 (x : Z) : Z := Z.lxor (Z.lxor (rotr 2 x) (rotr 13 x)) (rotr 22 x).
Definition Sig1 (x : Z) : Z := Z.lxor (Z.lxor (rotr 6 x) (rotr 11 x)) (rotr 25 x).
Definition sig0 (x : Z) : Z := Z.lxor (Z.lxor (rotr 7 x) (rotr 18 x)) (Z.shiftr x 3).
Definition sig1 (x : Z) : Z := Z.lxor (Z.lxor (rotr 17 x) (rotr 19 x)) (Z.shiftr x 10).

(** The first 64 primes. *)
Definition is_prime (n : Z) : bool :=
  List.forallb (fun d => negb (n mod Z.of_nat d =? 0)) (List.seq 2 (Z.to_nat n - 2)).

Definition primes : list Z :=
  List.filter is_prime (List.map Z.of_nat (List.seq 2 310)).

(** The integer cube root, bit by bit from bit [bits - 1] down. *)
Fixpoint root3 (bits : nat) (n r : Z) : Z :=
  match bits with
  | O => r
  | S k =>
      let c := r + 2 ^ Z.of_nat k in
      root3 k n (if c * c * c <=? n then c else r)
  end.

(** Section 4.2.2: the first 32 bits of the fractional parts of the cube
    roots of the first 64 primes. *)
Definition round_constants : list Z :=
  List.map (fun p => wrap32 (root3 40 (p * 2 ^ 96) 0)) primes.

(** Section 5.3.3: the first 32 bits of the fractional parts of the square
    roots of the first 8 primes. *)
Definition initial_hash : list Z :=
  List.map (fun p => wrap32 (Z.sqrt (p * 2 ^ 64))) (List.firstn 8 primes).

(** Big-endian encoding of [x] on [n] bytes. *)
Fixpoint be_bytes (n : nat) (x : Z) : list Z :=
  match n with
  | O => []
  | S k => Z.shiftr x (8 * Z.of_nat k) mod 256 :: be_bytes k x
  end.

(** Padding: a 1 bit, zeros up to 56 mod 64 bytes, the bit length on 64 bits. *)
Definition pad (msg : list Z) : list Z :=
  let len := Z.of_nat (List.length msg) in
  let zeros := Z.to_nat ((55 - len) mod 64) in
  msg ++ 0x80 :: List.repeat 0 zeros ++ be_bytes 8 (8 * len).

(** Bytes to big-endian 32-bit words; a trailing incomplete group is dropped
    (there is none after [pad]). *)
Fixpoint words (bs : list Z) : list Z :=
  match bs with
  | a :: b :: c :: d :: rest =>
      (Z.shiftl a 24 + Z.shiftl b 16 + Z.shiftl c 8 + d) :: words rest
  | _ => []
  end.

(** Message schedule: [ws] holds W_0 .. W_(t-1); append [n] more words. *)
Fixpoint schedule (n : nat) (ws : list Z) : list Z :=
  match n with
  | O => ws
  | S k =>
      let t := List.length ws in
      let w i := List.nth (t - i) ws 0 in
      schedule k (ws ++ [add32 (add32 (sig1 (w 2%nat)) (w 7%nat))
                               (add32 (sig0 (w 15%nat)) (w 16%nat))])
  end.

Record regs := Regs { ra : Z; rb : Z; rc : Z; rd : Z; re : Z; rf : Z; rg : Z; rh : Z }.

Definition round (s : regs) (kw : Z * Z) : regs :=
  let '(k, w) := kw in
  let t1 := add32 (add32 (add32 (add32 (rh s) (Sig1 (re s))) (Ch (re s) (rf s) (rg s))) k) w in
  let t2 := add32 (Sig0 (ra s)) (Maj (ra s) (rb s) (rc s)) in
  Regs (add32 t1 t2) (ra s) (rb s) (rc s) (add32 (rd s) t1) (re s) (rf s) (rg s).

Definition regs_of (h : list Z) : regs :=
  let n i := List.nth i h 0 in
  Regs (n 0%nat) (n 1%nat) (n 2%nat) (n 3%nat) (n 4%nat) (n 5%nat) (n 6%nat) (n 7%nat).

Definition list_of (s : regs) : list Z :=
  [ra s; rb s; rc s; rd s; re s; rf s; rg s; rh s].

Definition compress (h : list Z) (block : list Z) : list Z :=
  let w := schedule 48 block in
  let s := List.fold_left round (List.combine round_constants w) (regs_of h) in
  List.map (fun p => add32 (fst p) (snd p)) (List.combine h (list_of s)).

(** The message as 16-word blocks. [n] bounds the number of blocks. *)
Fixpoint blocks (n : nat) (ws : list Z) : list (list Z) :=
  match n with
  | O => []
  | S k =>
      match ws with
      | [] => []
      | _ => List.firstn 16 ws :: blocks k (List.skipn 16 ws)
      end
  end.

Definition digest_words (msg : list Z) : list Z :=
  let ws := words (pad msg) in
  List.fold_left compress (blocks (List.length ws) ws) initial_hash.

Definition digest (msg : list Z) : list Z :=
  List.concat (List.map (be_bytes 4) (digest_words msg)).

End SHA256.

(* ===================================================================== *)
(** ** HMAC (RFC 2104) with SHA-256, and [hexdigest] *)
(* ===================================================================== *)

Module HMAC.

Definition block_size : nat := 64.

Definition block_key (key : list Z) : list Z :=
  let k := if (block_size <? List.length key)%nat then SHA256.digest key else key in
  k ++ List.repeat 0 (block_size - List.length k).

Definition digest (key msg : list Z) : list Z :=
  let k := block_key key in
  let ipad := List.map (Z.lxor 0x36) k in
  let opad := List.map (Z.lxor 0x5c) k in
  SHA256.digest (opad ++ SHA256.digest (ipad ++ msg)).

Definition hex_digit (n : Z) : ascii :=
  ascii_of_nat (Z.to_nat (if n <? 10 then 48 + n else 87 + n)).

Fixpoint hex (bs : list Z) : string :=
  match bs with
  | [] => EmptyString
  | b :: rest => String (hex_digit (b / 16)) (String (hex_digit (b mod 16)) (hex rest))
  end.

Definition bytes_of (bs : list Byte.byte) : list Z :=
  List.map (fun b => Z.of_N (Byte.to_N b)) bs.

(** [hmac.new(key, msg=msg, digestmod=hashlib.sha256).hexdigest()] *)
Definition hexdigest (key msg : list Byte.byte) : string :=
  hex (digest (bytes_of key) (bytes_of msg)).

End HMAC.

Definition utf8 (s : string) : list Byte.byte := list_byte_of_string s.

#[global] Arguments HMAC.hexdigest : simpl never.

(* ===================================================================== *)
(** ** The fragment of Python the handlers rely on *)
(* ===================================================================== *)

Module Py.

(** Exceptions that the handlers can meet. [HTTPException] is what
    [flask.abort] raises; it is not a [ValueError] nor a [KeyError], so the
    narrow [except] clauses of the handlers let it through. *)
Inductive exc : Type :=
| KeyError (key : string)
| TypeError
| AttributeError
| ValueError
| OverflowError
| ValidationError
| ConnectionFailure
| HTTPException (code : Z) (description : string).

(** Whether an exception is an [abort]. *)
Definition is_abort (e : exc) : bool :=
  match e with
  | HTTPException _ _ => true
  | _ => false
  end.

Inductive result (A : Type) : Type :=
| Ok (a : A)
| Raise (e : exc).
Arguments Ok {A} a.
Arguments Raise {A} e.

Definition bind {A B} (m : result A) (k : A -> result B) : result B :=
  match m with
  | Ok a => k a
  | Raise e => Raise e
  end.

(** [try: m  except ValueError: h] *)
Definition except_ValueError {A} (m : result A) (h : result A) : result A :=
  match m with
  | Raise ValueError => h
  | other => other
  end.

(** [try: m  except KeyError as e: h e] *)
Definition except_KeyError {A} (m : result A) (h : string -> result A) : result A :=
  match m with
  | Raise (KeyError k) => h k
  | other => other
  end.

(** [try: m  except Exception: h]; every exception of this model derives
    from [Exception]. *)
Definition except_Exception {A} (m : result A) (h : result A) : result A :=
  match m with
  | Raise _ => h
  | other => other
  end.

(** Values produced by [json.loads]: [None], [bool], [int], [float],
    [str], [list], [dict]. A [dict] keeps its insertion order; [lookup]
    below takes the first binding of a key. Strings are held as their
    UTF-8 bytes. *)
Inductive json : Type :=
| JNull
| JBool (b : bool)
| JInt (n : Z)
| JFloat (f : spec_float)
| JStr (s : string)
| JArr (items : list json)
| JObj (members : list (string * json)).

Fixpoint assoc (k : string) (kv : list (string * json)) : option json :=
  match kv with
  | [] => None
  | (k', v) :: rest => if String.eqb k k' then Some v else assoc k rest
  end.

(** [bool(x)] *)
Definition truthy (x : json) : bool :=
  match x with
  | JNull => false
  | JBool b => b
  | JInt n => negb (n =? 0)
  | JFloat (S754_zero _) => false
  | JFloat _ => true
  | JStr s => negb (String.eqb s "")
  | JArr l => match l with [] => false | _ => true end
  | JObj kv => match kv with [] => false | _ => true end
  end.

Definition float_one : spec_float := S754_finite false 4503599627370496 (-52).

(** [x == True]: [True], [1] and [1.0] compare equal to [True]. *)
Definition eq_True (x : json) : bool :=
  match x with
  | JBool b => b
  | JInt n => n =? 1
  | JFloat f => SFeqb f float_one
  | _ => false
  end.

(** [x == "literal"] *)
Definition eq_str (x : json) (s : string) : bool :=
  match x with
  | JStr t => String.eqb t s
  | _ => false
  end.

(** [x[k]] for a string key [k]. *)
Definition getitem (x : json) (k : string) : result json :=
  match x with
  | JObj kv => match assoc k kv with
               | Some v => Ok v
               | None => Raise (KeyError k)
               end
  | _ => Raise TypeError
  end.

(** [x.get(k, default)]; only a [dict] has the method. *)
Definition get (x : json) (k : string) (default : json) : result json :=
  match x with
  | JObj kv => match assoc k kv with
               | Some v => Ok v
               | None => Ok default
               end
  | _ => Raise AttributeError
  end.

(** [for c in x]: the items of a list, the keys of a dict, the characters
    of a string; the other values are not iterable. *)
Definition iter (x : json) : result (list json) :=
  match x with
  | JArr l => Ok l
  | JObj kv => Ok (List.map (fun p => JStr (fst p)) kv)
  | JStr s => Ok (List.map (fun c => JStr (String c EmptyString)) (list_ascii_of_string s))
  | _ => Raise TypeError
  end.

(** [s.replace(old, new, count)] for a non-empty [old]; [count = None]
    replaces every occurrence. [skip] counts the characters of a matched
    occurrence that are still to be dropped. *)
Fixpoint replace_from (old new : string) (count : option nat) (skip : nat)
         (s : string) : string :=
  match s with
  | EmptyString => EmptyString
  | String c rest =>
      match skip with
      | S k => replace_from old new count k rest
      | O =>
          let allowed := match count with Some O => false | _ => true end in
          if allowed && String.prefix old s
          then new +:+ replace_from old new (Nat.pred <$> count)
                                    (String.length old - 1)%nat rest
          else String c (replace_from old new count O rest)
      end
  end.

Definition str_replace (s old new : string) (count : option nat) : string :=
  replace_from old new count O s.

(** [x.replace(old, new, count)]: only [str] has the method. *)
Definition replace (x : json) (old new : string) (count : option nat) : result string :=
  match x with
  | JStr s => Ok (str_replace s old new count)
  | _ => Raise AttributeError
  end.

(** [x.startswith(p)] *)
Definition startswith (x : json) (p : string) : result bool :=
  match x with
  | JStr s => Ok (String.prefix p s)
  | _ => Raise AttributeError
  end.

(** [s.split(sep, 1)] for a one-character separator: [[s]] when [sep] does
    not occur, else the text before and after its first occurrence. *)
Fixpoint split1 (sep : ascii) (s : string) : list string :=
  match s with
  | EmptyString => [EmptyString]
  | String c rest =>
      if Ascii.eqb c sep then [EmptyString; rest]
      else match split1 sep rest with
           | h :: t => String c h :: t
           | [] => [String c EmptyString]
           end
  end.

(** Whether [c] occurs in [s]; the text before and after its first
    occurrence. *)
Definition contains (c : ascii) (s : string) : bool :=
  List.existsb (fun a => Ascii.eqb a c) (list_ascii_of_string s).

Fixpoint before (c : ascii) (s : string) : string :=
  match s with
  | EmptyString => EmptyString
  | String a rest => if Ascii.eqb a c then EmptyString else String a (before c rest)
  end.

Fixpoint after (c : ascii) (s : string) : string :=
  match s with
  | EmptyString => EmptyString
  | String a rest => if Ascii.eqb a c then rest else after c rest
  end.

(** [a, b = parts] *)
Definition unpack2 (parts : list string) : result (string * string) :=
  match parts with
  | [a; b] => Ok (a, b)
  | _ => Raise ValueError
  end.

Definition is_ascii (s : string) : bool :=
  List.forallb (fun c => (nat_of_ascii c <? 128)%nat) (list_ascii_of_string s).

(** [hmac.compare_digest(a, b)] on two [str]: both must be ASCII. *)
Definition compare_digest (a b : string) : result bool :=
  if is_ascii a && is_ascii b then Ok (String.eqb a b) else Raise TypeError.

(** [s[:n]] *)
Definition take (n : nat) (s : string) : string := String.substring 0 n s.

End Py.

Import Py.

#[export] Instance result_bind : MBind result := fun A B k m => Py.bind m k.
#[export] Instance result_ret : MRet result := fun A a => Ok a.

(** Instants, as microseconds since the Unix epoch. *)
Definition datetime : Type := Z.

(** The library functions whose exact behaviour depends on the installed
    interpreter and packages. [None] stands for the [ValueError] the
    function raises. *)
Class Runtime : Type := {
  (** [datetime.fromisoformat] *)
  fromisoformat : string -> option datetime;
  (** [datetime.isoformat] *)
  isoformat : datetime -> string;
  (** [json.dumps] *)
  json_dumps : json -> string;
  (** [str(x)] for a value that is not a [str] *)
  py_repr : json -> string;
  (** [int(s)] on a string *)
  py_int : string -> option Z;
  (** the pattern of mongoengine's [URLField] *)
  url_ok : string -> bool;
  (** how many documents a cursor limited by [n <= 0] yields; [None] for all *)
  limit_nonpositive : Z -> option nat;
}.

(** [str(x)], as an f-string field formats [x]. *)
Definition py_str `{Runtime} (x : json) : string :=
  match x with
  | JStr s => s
  | other => py_repr other
  end.

(** What the process observes outside its own state while handling one
    request: the clock when the handler calls [datetime.utcnow()], the clock
    when the document is built, and whether the database answers. *)
Record world : Type := World {
  utcnow : datetime;
  utcnow_at_insert : datetime;
  db_up : bool;
}.

(* ===================================================================== *)
(** ** Flask: requests, responses, [abort] *)
(* ===================================================================== *)

Module Flask.

(** [headers] and [args] are keyed by name; [data] is the raw body;
    [json_body] is what [request.get_json(force=True)] returns, [None] when
    it raises. *)
Record request : Type := Request {
  headers : gmap string string;
  args : gmap string string;
  data : list Byte.byte;
  json_body : option json;
}.

Inductive body : Type :=
| Json (j : json)
| Aborted (description : string)
| Unhandled (e : exc).

Record response : Type := Response {
  status : Z;
  content : body;
}.

(** [abort(code, description)] *)
Definition abort {A} (code : Z) (description : string) : result A :=
  Raise (HTTPException code description).

(** [return jsonify({"msg": m}), code] *)
Definition jsonify_msg (m : string) (code : Z) : response :=
  Response code (Json (JObj [("msg", JStr m)])).

(** The request with the header [name] set to [value]. *)
Definition with_header (name value : string) (r : request) : request :=
  Request (<[name := value]> (headers r)) (args r) (data r) (json_body r).

(** What the framework sends for a view that returned or raised. *)
Definition respond (r : result response) : response :=
  match r with
  | Ok resp => resp
  | Raise (HTTPException code d) => Response code (Aborted d)
  | Raise e => Response 500 (Unhandled e)
  end.

End Flask.

Import Flask.

(* ===================================================================== *)
(** ** The document collection *)
(* ===================================================================== *)

Module Mongo.

(** A 12-byte [ObjectId]. *)
Definition ObjectId : Type := Z.

(** [str(oid)]: 24 hexadecimal digits. *)
Definition oid_str (oid : ObjectId) : string := HMAC.hex (SHA256.be_bytes 12 oid).

Record collection (D : Type) : Type := Collection {
  documents : list (ObjectId * D);
  next_oid : ObjectId;
}.
Arguments Collection {D} documents next_oid.
Arguments documents {D} c.
Arguments next_oid {D} c.

(** [doc.save()] of a new, valid document: one insertion under a fresh id. *)
Definition insert {D} (d : D) (c : collection D) : collection D :=
  Collection (documents c ++ [(next_oid c, d)]) (next_oid c + 1).

(** [doc.save()]: validation, then the insertion. *)
Definition save {D} (w : world) (valid : D -> bool) (d : D) (c : collection D)
  : result (collection D) :=
  if negb (valid d) then Raise ValidationError
  else if negb (db_up w) then Raise ConnectionFailure
  else Ok (insert d c).

(** Dates compare as in the database: a missing date sorts lowest. *)
Definition date_leb (a b : option datetime) : bool :=
  match a, b with
  | None, _ => true
  | Some _, None => false
  | Some x, Some y => x <=? y
  end.

(** [later key x y]: [x] may precede [y] in the order [-key]. *)
Definition later {D} (key : D -> option datetime) (x y : ObjectId * D) : Prop :=
  date_leb (key (snd y)) (key (snd x)) = true.

#[export] Instance later_dec {D} (key : D -> option datetime) x y :
  Decision (later key x y).
Proof. unfold later. apply _. Defined.

(** [objects.order_by("-key")] *)
Definition order_by_desc {D} (key : D -> option datetime) (c : collection D)
  : list (ObjectId * D) :=
  merge_sort (later key) (documents c).

(** [.limit(n)] and the iteration of the cursor: a limit that does not fit
    a signed 64-bit integer cannot be sent to the server. *)
Definition limit `{Runtime} {A} (n : Z) (l : list A) : result (list A) :=
  if (n <=? - 2 ^ 63) || (2 ^ 63 <=? n) then Raise OverflowError
  else if 0 <? n then Ok (List.firstn (Z.to_nat n) l)
  else match limit_nonpositive n with
       | Some k => Ok (List.firstn k l)
       | None => Ok l
       end.

End Mongo.

Import Mongo.

#[export] Instance result_fmap : FMap result :=
  fun A B f m => match m with Ok a => Ok (f a) | Raise e => Raise e end.

(** [datetime.fromisoformat(x.replace("Z", "+00:00"))] *)
Definition parse_timestamp `{Runtime} (x : json) : result datetime :=
  text ← replace x "Z" "+00:00" None;
  match fromisoformat text with
  | Some t => Ok t
  | None => Raise ValueError
  end.

(** [str(x)] for a variable holding a [str] or [None]. *)
Definition opt_str (x : option string) : string :=
  match x with
  | Some s => s
  | None => "None"
  end.

Definition json_of_opt_str (x : option string) : json :=
  match x with
  | Some s => JStr s
  | None => JNull
  end.

Definition is_dict (x : json) : bool :=
  match x with
  | JObj _ => true
  | _ => false
  end.

Definition is_str (x : json) : bool :=
  match x with
  | JStr _ => true
  | _ => false
  end.

(* ===================================================================== *)
(** ** The document classes *)
(* ===================================================================== *)

Module Models.

(** [Models.py], class [CommitEmbedded]. *)
Record CommitEmbedded : Type := {
  commit_id : json;
  message : json;
  timestamp : datetime;
  url : json;
  author_name : json;
  author_email : json;
}.

(** [Models.py], class [PushEvent]. *)
Record PushEvent : Type := {
  repo_name : json;
  pusher_name : json;
  pusher_email : json;
  pushed_at : datetime;
  commits : list CommitEmbedded;
  branch : string;
  raw_payload : string;
}.

(** [StringField(required=True)]: the value is a [str]. *)
Definition valid_commit `{Runtime} (c : CommitEmbedded) : bool :=
  is_str (commit_id c) && is_str (message c)
  && match url c with JStr u => url_ok u | _ => false end
  && is_str (author_name c) && is_str (author_email c).

Definition valid_push `{Runtime} (d : PushEvent) : bool :=
  is_str (repo_name d) && is_str (pusher_name d) && is_str (pusher_email d)
  && List.forallb valid_commit (commits d).

End Models.

Module GitHubEvent.

(** Modelled from the spec: the document class [GitHubEvent]. [run.py]
    imports it from [models], and [Models.py] defines only [PushEvent] and
    [CommitEmbedded]. The fields are the keyword arguments of the constructor
    call in [github_webhook]; [received_at] is, in the words of the data
    model, the server-assigned record-insertion time, independent of
    [timestamp]: the class fills it from the clock when the document is
    built. Which values the class accepts on [save] is left open: it is the
    parameter [validate] of the application. *)
Record t : Type := Make {
  event_type : option string;
  author : json;
  from_branch : json;
  to_branch : json;
  timestamp : option datetime;
  repo_full_name : json;
  raw_payload : string;
  received_at : datetime;
}.

End GitHubEvent.

(* ===================================================================== *)
(** ** [run.py] *)
(* ===================================================================== *)

Module Run.

(** The variables that [github_webhook] prepares for the new document. *)
Record locals : Type := Locals {
  event_type : option string;
  author : json;
  from_branch : json;
  to_branch : json;
  event_time : option datetime;
}.

Section Application.
Context `{Runtime}.
Variable GITHUB_SECRET : list Byte.byte.
Variable validate : GitHubEvent.t -> bool.

Definition verify_github_signature (request : request) : result unit :=
  match headers request !! "X-Hub-Signature-256" with
  | None => abort 400 "Missing X-Hub-Signature-256 header"
  | Some signature_header =>
      if String.eqb signature_header ""
      then abort 400 "Missing X-Hub-Signature-256 header"
      else
        '(sha_name, signature) ←
           except_ValueError (unpack2 (split1 "=" signature_header))
                             (abort 400 "Malformed X-Hub-Signature-256 header");
        if negb (String.eqb sha_name "sha256")
        then abort 400 "We only support sha256 signatures"
        else
          let expected_sig := HMAC.hexdigest GITHUB_SECRET (data request) in
          same ← compare_digest expected_sig signature;
          if negb same then abort 400 "Invalid signature" else Ok ()
  end.

(** [created_at] or [merged_at]: parsed when truthy, else the clock. *)
Definition pr_time (w : world) (stamp : json) : result datetime :=
  if truthy stamp then parse_timestamp stamp else Ok (utcnow w).

(** Lines 95-100: the timestamp of the head commit when the payload has
    one, else the clock. *)
Definition head_commit_time (w : world) (payload : json) : result datetime :=
  head ← get payload "head_commit" (JObj []);
  stamped ← (if truthy head then truthy <$> get head "timestamp" JNull
             else Ok false);
  if stamped : bool
  then iso_ts ← getitem head "timestamp"; parse_timestamp iso_ts
  else Ok (utcnow w).

(** Lines 87-132: the dispatch on the event header. [inl] is the early
    [return] of an ignored event, [inr] the prepared variables. *)
Definition dispatch (w : world) (event_header : string) (payload : json)
  : result (response + locals) :=
  if String.eqb event_header "push" then
    pusher ← getitem payload "pusher";
    author ← getitem pusher "name";
    ref ← get payload "ref" (JStr "");
    is_head ← startswith ref "refs/heads/";
    to_branch ← (if is_head : bool
                 then JStr <$> replace ref "refs/heads/" "" (Some 1%nat)
                 else Ok ref);
    event_time ← head_commit_time w payload;
    Ok (inr (Locals (Some "push") author JNull to_branch (Some event_time)))
  else if String.eqb event_header "pull_request" then
    pr_action ← get payload "action" (JStr "");
    pr_data ← get payload "pull_request" (JObj []);
    if eq_str pr_action "opened" then
      user ← getitem pr_data "user";
      author ← getitem user "login";
      head ← getitem pr_data "head";
      from_branch ← getitem head "ref";
      base ← getitem pr_data "base";
      to_branch ← getitem base "ref";
      created_at ← get pr_data "created_at" JNull;
      event_time ← pr_time w created_at;
      Ok (inr (Locals (Some "pull_request") author from_branch to_branch
                      (Some event_time)))
    else
      merged ← (if eq_str pr_action "closed"
                then eq_True <$> get pr_data "merged" JNull
                else Ok false);
      if merged : bool then
        merged_by ← getitem pr_data "merged_by";
        author ← getitem merged_by "login";
        head ← getitem pr_data "head";
        from_branch ← getitem head "ref";
        base ← getitem pr_data "base";
        to_branch ← getitem base "ref";
        merged_at ← get pr_data "merged_at" JNull;
        event_time ← pr_time w merged_at;
        Ok (inr (Locals (Some "merge") author from_branch to_branch
                        (Some event_time)))
      else
        Ok (inl (jsonify_msg ("Ignored pull_request action='"
                              +:+ py_str pr_action +:+ "'") 200))
  else
    Ok (inl (jsonify_msg ("Ignored event type='" +:+ event_header +:+ "'") 200)).

(** Line 135: [event_type and author and to_branch and event_time]. *)
Definition required_present (v : locals) : bool :=
  match event_type v with Some s => negb (String.eqb s "") | None => false end
  && truthy (author v) && truthy (to_branch v)
  && match event_time v with Some _ => true | None => false end.

(** Lines 140-148: the constructor call. *)
Definition document (w : world) (v : locals) (repo_full payload : json)
  : GitHubEvent.t :=
  GitHubEvent.Make (event_type v) (author v) (from_branch v) (to_branch v)
                   (event_time v) repo_full
                   (take (Z.to_nat 16000) (json_dumps payload))
                   (utcnow_at_insert w).

(** Lines 68-69 *)
Definition signature_gate (request : request) : result unit :=
  match GITHUB_SECRET with
  | [] => Ok ()
  | _ => verify_github_signature request
  end.

(** Lines 72-75 *)
Definition parsed_payload (request : request) : result json :=
  match json_body request with
  | Some p => Ok p
  | None => abort 400 "Invalid JSON"
  end.

(** Line 78 *)
Definition repo_full (payload : json) : result json :=
  repository ← get payload "repository" (JObj []);
  get repository "full_name" (JStr "unknown/unknown").

(** Lines 135-154: validation, [save], the 201 response. *)
Definition store (w : world) (db : collection GitHubEvent.t) (v : locals)
           (repo payload : json)
  : result (response * collection GitHubEvent.t) :=
  if negb (required_present v)
  then abort 400 "Missing required fields from payload"
  else
    db' ← except_Exception
            (save w validate (document w v repo payload) db)
            (abort 500 "Database error");
    Ok (jsonify_msg ("Recorded " +:+ opt_str (event_type v) +:+ " event") 201,
        db').

Definition github_webhook_view (w : world) (db : collection GitHubEvent.t)
           (request : request)
  : result (response * collection GitHubEvent.t) :=
  _ ← signature_gate request;
  payload ← parsed_payload request;
  let event_header := default "" (headers request !! "X-GitHub-Event") in
  repo ← repo_full payload;
  outcome ← dispatch w event_header payload;
  match outcome with
  | inl ignored => Ok (ignored, db)
  | inr v => store w db v repo payload
  end.

(** [POST /github-webhook] *)
Definition github_webhook (w : world) (db : collection GitHubEvent.t)
           (request : request) : response * collection GitHubEvent.t :=
  match github_webhook_view w db request with
  | Ok out => out
  | Raise e => (respond (Raise e), db)
  end.

(** The collection after a sequence of deliveries, each in its world. *)
Definition serve (deliveries : list (world * request))
           (db : collection GitHubEvent.t) : collection GitHubEvent.t :=
  List.fold_left (fun db d => snd (github_webhook (fst d) db (snd d)))
                 deliveries db.

Definition event_json (ev : ObjectId * GitHubEvent.t) : result json :=
  let d := snd ev in
  stamp ← (match GitHubEvent.timestamp d with
           | Some t => Ok (isoformat t)
           | None => Raise AttributeError
           end);
  Ok (JObj [ ("id", JStr (oid_str (fst ev)));
             ("event_type", json_of_opt_str (GitHubEvent.event_type d));
             ("author", GitHubEvent.author d);
             ("from_branch", GitHubEvent.from_branch d);
             ("to_branch", GitHubEvent.to_branch d);
             ("timestamp", JStr stamp);
             ("repo_full_name", GitHubEvent.repo_full_name d) ]).

(** Lines 163-166 *)
Definition requested_limit (request : request) : result Z :=
  except_ValueError
    (match args request !! "limit" with
     | None => Ok 20
     | Some text => match py_int text with
                    | Some n => Ok n
                    | None => Raise ValueError
                    end
     end)
    (Ok 20).

Definition selected_events (db : collection GitHubEvent.t) (n : Z)
  : result (list (ObjectId * GitHubEvent.t)) :=
  Mongo.limit n (order_by_desc GitHubEvent.timestamp db).

(** [GET /events] *)
Definition list_events (db : collection GitHubEvent.t) (request : request)
  : response :=
  respond (
    n ← requested_limit request;
    events ← selected_events db n;
    out ← mapM event_json events;
    Ok (Response 200 (Json (JArr out)))).

End Application.

End Run.

(* ===================================================================== *)
(** ** [app/app.py] *)
(* ===================================================================== *)

Module App.

Section Application.
Context `{Runtime}.
Variable GITHUB_SECRET : list Byte.byte.

Definition verify_github_signature (request : request) : result unit :=
  match headers request !! "X-Hub-Signature-256" with
  | None => abort 400 "Missing signature header"
  | Some signature_header =>
      '(sha_name, signature) ← unpack2 (split1 "=" signature_header);
      if negb (String.eqb sha_name "sha256")
      then abort 400 "Unsupported signature type"
      else
        let payload_bytes := data request in
        let expected_sig := HMAC.hexdigest GITHUB_SECRET payload_bytes in
        same ← compare_digest expected_sig signature;
        if negb same then abort 400 "Invalid signature" else Ok ()
  end.

(** Lines 89-96: one [CommitEmbedded] per item of [commits]. *)
Definition commit_doc (c : json) : result Models.CommitEmbedded :=
  commit_id ← getitem c "id";
  message ← getitem c "message";
  stamp ← getitem c "timestamp";
  timestamp ← parse_timestamp stamp;
  url ← getitem c "url";
  author ← getitem c "author";
  author_name ← getitem author "name";
  author' ← getitem c "author";
  author_email ← getitem author' "email";
  Ok (Models.Build_CommitEmbedded commit_id message timestamp url
                                  author_name author_email).

(** Lines 79-109: the body of the [try]. *)
Definition record_push (w : world) (db : collection Models.PushEvent)
           (payload : json) : result (collection Models.PushEvent) :=
  repository ← getitem payload "repository";
  repo_full_name ← getitem repository "full_name";
  pusher ← getitem payload "pusher";
  pusher_name ← getitem pusher "name";
  pusher' ← getitem payload "pusher";
  pusher_email ← getitem pusher' "email";
  ref ← getitem payload "ref";
  branch ← replace ref "refs/heads/" "" (Some 1%nat);
  raw_commits ← get payload "commits" (JArr []);
  items ← iter raw_commits;
  commit_docs ← mapM commit_doc items;
  save w Models.valid_push
       (Models.Build_PushEvent repo_full_name pusher_name pusher_email
                               (utcnow w) commit_docs branch
                               (json_dumps payload))
       db.

(** Lines 62-63 *)
Definition signature_gate (request : request) : result unit :=
  match GITHUB_SECRET with
  | [] => Ok ()
  | _ => verify_github_signature request
  end.

(** Lines 66-69 *)
Definition parsed_payload (request : request) : result json :=
  match json_body request with
  | Some p => Ok p
  | None => abort 400 "Invalid JSON payload"
  end.

Definition handle_github_webhook_view (w : world)
           (db : collection Models.PushEvent) (request : request)
  : result (response * collection Models.PushEvent) :=
  _ ← signature_gate request;
  payload ← parsed_payload request;
  let github_event := default "" (headers request !! "X-GitHub-Event") in
  if negb (String.eqb github_event "push")
  then Ok (jsonify_msg "Ignored: not a push event" 200, db)
  else
    db' ← except_KeyError
            (record_push w db payload)
            (fun key => abort 400 ("Missing expected field: '" +:+ key +:+ "'"));
    Ok (jsonify_msg "Push event recorded" 201, db').

(** [POST /github-webhook] *)
Definition handle_github_webhook (w : world)
           (db : collection Models.PushEvent) (request : request)
  : response * collection Models.PushEvent :=
  match handle_github_webhook_view w db request with
  | Ok out => out
  | Raise e => (respond (Raise e), db)
  end.

Definition commit_json (c : Models.CommitEmbedded) : json :=
  JObj [ ("commit_id", Models.commit_id c);
         ("message", Models.message c);
         ("timestamp", JStr (isoformat (Models.timestamp c)));
         ("url", Models.url c);
         ("author_name", Models.author_name c);
         ("author_email", Models.author_email c) ].

Definition event_json (ev : ObjectId * Models.PushEvent) : json :=
  let d := snd ev in
  JObj [ ("id", JStr (oid_str (fst ev)));
         ("repo_name", Models.repo_name d);
         ("pusher_name", Models.pusher_name d);
         ("pusher_email", Models.pusher_email d);
         ("pushed_at", JStr (isoformat (Models.pushed_at d)));
         ("branch", JStr (Models.branch d));
         ("commits", JArr (List.map commit_json (Models.commits d))) ].

(** Line 124 *)
Definition requested_limit (request : request) : result Z :=
  match args request !! "limit" with
  | None => Ok 20
  | Some text => match py_int text with
                 | Some n => Ok n
                 | None => Raise ValueError
                 end
  end.

(** [GET /events] *)
Definition list_events (db : collection Models.PushEvent) (request : request)
  : response :=
  respond (
    n ← requested_limit request;
    events ← Mongo.limit n (order_by_desc (fun d => Some (Models.pushed_at d)) db);
    Ok (Response 200 (Json (JArr (List.map event_json events))))).

End Application.

End App.

(* ===================================================================== *)
(** ** A reference runtime *)
(* ===================================================================== *)

(** One executable instance of [Runtime], used to run the handlers on
    concrete deliveries. It accepts the timestamps GitHub sends
    ([YYYY-MM-DDTHH:MM:SS] with an optional [+HH:MM] or [-HH:MM] offset) and
    decimal limits; it prints floats exactly rather than in their shortest
    form. *)
Module Reference.

Definition decimal (n : Z) : string := NilZero.string_of_int (Z.to_int n).

(** Decimal digits of [n], left-padded with zeros to [width] characters. *)
Fixpoint padded (width : nat) (n : Z) : string :=
  match width with
  | O => EmptyString
  | S k => padded k (n / 10) +:+ String (ascii_of_nat (Z.to_nat (48 + n mod 10))) EmptyString
  end.

Definition digit (c : ascii) : option Z :=
  let n := Z.of_nat (nat_of_ascii c) in
  if (48 <=? n) && (n <=? 57) then Some (n - 48) else None.

(** The number written by a string of decimal digits. *)
Fixpoint number (acc : Z) (s : string) : option Z :=
  match s with
  | EmptyString => Some acc
  | String c rest => d ← digit c; number (10 * acc + d) rest
  end.

Definition digits (s : string) : option Z :=
  match s with
  | EmptyString => None
  | _ => number 0 s
  end.

Definition leap (y : Z) : bool :=
  ((y mod 4 =? 0) && negb (y mod 100 =? 0)) || (y mod 400 =? 0).

Definition days_in_month (y m : Z) : Z :=
  if m =? 2 then (if leap y then 29 else 28)
  else if (m =? 4) || (m =? 6) || (m =? 9) || (m =? 11) then 30
  else 31.

(** Days from 1970-01-01 to the civil date [y-m-d]. *)
Definition days_from_civil (y m d : Z) : Z :=
  let y' := if m <=? 2 then y - 1 else y in
  let era := y' / 400 in
  let yoe := y' - era * 400 in
  let doy := (153 * ((m + 9) mod 12) + 2) / 5 + d - 1 in
  era * 146097 + (yoe * 365 + yoe / 4 - yoe / 100 + doy) - 719468.

(** The civil date of day number [z]. *)
Definition civil_from_days (z : Z) : Z * Z * Z :=
  let z' := z + 719468 in
  let era := z' / 146097 in
  let doe := z' - era * 146097 in
  let yoe := (doe - doe / 1460 + doe / 36524 - doe / 146096) / 365 in
  let doy := doe - (365 * yoe + yoe / 4 - yoe / 100) in
  let mp := (5 * doy + 2) / 153 in
  let d := doy - (153 * mp + 2) / 5 + 1 in
  let m := if mp <? 10 then mp + 3 else mp - 9 in
  (yoe + era * 400 + (if m <=? 2 then 1 else 0), m, d).

Definition sub (start len : nat) (s : string) : string := String.substring start len s.

(** [+HH:MM] or [-HH:MM], in seconds; the empty suffix is offset zero. *)
Definition offset (s : string) : option Z :=
  match s with
  | EmptyString => Some 0
  | String sign rest =>
      if (String.length rest =? 5)%nat && String.eqb (sub 2 1 rest) ":" then
        hh ← digits (sub 0 2 rest);
        mm ← digits (sub 3 2 rest);
        if (hh <? 24) && (mm <? 60) then
          if Ascii.eqb sign "+" then Some (hh * 3600 + mm * 60)
          else if Ascii.eqb sign "-" then Some (- (hh * 3600 + mm * 60))
          else None
        else None
      else None
  end.

Definition fromisoformat (s : string) : option datetime :=
  if (19 <=? String.length s)%nat
     && String.eqb (sub 4 1 s) "-" && String.eqb (sub 7 1 s) "-"
     && String.eqb (sub 10 1 s) "T"
     && String.eqb (sub 13 1 s) ":" && String.eqb (sub 16 1 s) ":"
  then
    y ← digits (sub 0 4 s);
    m ← digits (sub 5 2 s);
    d ← digits (sub 8 2 s);
    hh ← digits (sub 11 2 s);
    mm ← digits (sub 14 2 s);
    ss ← digits (sub 17 2 s);
    off ← offset (sub 19 (String.length s - 19) s);
    if (1 <=? y) && (1 <=? m) && (m <=? 12) && (1 <=? d) && (d <=? days_in_month y m)
       && (hh <? 24) && (mm <? 60) && (ss <? 60)
    then Some (((days_from_civil y m d * 86400) + hh * 3600 + mm * 60 + ss - off)
               * 1000000)
    else None
  else None.

Definition isoformat (t : datetime) : string :=
  let secs := t / 1000000 in
  let micros := t mod 1000000 in
  let '(y, m, d) := civil_from_days (secs / 86400) in
  let sod := secs mod 86400 in
  padded 4 y +:+ "-" +:+ padded 2 m +:+ "-" +:+ padded 2 d +:+ "T"
  +:+ padded 2 (sod / 3600) +:+ ":" +:+ padded 2 (sod / 60 mod 60) +:+ ":"
  +:+ padded 2 (sod mod 60)
  +:+ (if micros =? 0 then "" else "." +:+ padded 6 micros).

(** A float, written exactly. *)
Definition float_text (f : spec_float) : string :=
  match f with
  | S754_zero s => if s then "-0.0" else "0.0"
  | S754_infinity s => if s then "-inf" else "inf"
  | S754_nan => "nan"
  | S754_finite s m e =>
      let sign := if s then "-" else "" in
      if 0 <=? e then sign +:+ decimal (Z.pos m * 2 ^ e) +:+ ".0"
      else
        let k := Z.to_nat (- e) in
        let scaled := Z.pos m * 5 ^ (- e) in
        sign +:+ decimal (scaled / 10 ^ (- e)) +:+ "." +:+ padded k (scaled mod 10 ^ (- e))
  end.

Fixpoint escape (quote : ascii) (s : string) : string :=
  match s with
  | EmptyString => EmptyString
  | String c rest =>
      if Ascii.eqb c quote || Ascii.eqb c "\"
      then String "\" (String c (escape quote rest))
      else String c (escape quote rest)
  end.

Definition quoted (quote : ascii) (s : string) : string :=
  String quote (escape quote s) +:+ String quote EmptyString.

Definition double_quote : ascii := ascii_of_nat 34.
Definition single_quote : ascii := ascii_of_nat 39.

(** [json.dumps] when [python] is [false], [repr] when it is [true]. *)
Fixpoint render (python : bool) (x : json) : string :=
  match x with
  | JNull => if python then "None" else "null"
  | JBool true => if python then "True" else "true"
  | JBool false => if python then "False" else "false"
  | JInt n => decimal n
  | JFloat f => float_text f
  | JStr s => quoted (if python then single_quote else double_quote) s
  | JArr items =>
      "[" +:+ (fix go (l : list json) : string :=
                 match l with
                 | [] => ""
                 | [v] => render python v
                 | v :: rest => render python v +:+ ", " +:+ go rest
                 end) items +:+ "]"
  | JObj members =>
      "{" +:+ (fix go (l : list (string * json)) : string :=
                 match l with
                 | [] => ""
                 | [(k, v)] =>
                     quoted (if python then single_quote else double_quote) k
                     +:+ ": " +:+ render python v
                 | (k, v) :: rest =>
                     quoted (if python then single_quote else double_quote) k
                     +:+ ": " +:+ render python v +:+ ", " +:+ go rest
                 end) members +:+ "}"
  end.

Definition is_space (c : ascii) : bool :=
  let n := nat_of_ascii c in ((n =? 32) || ((9 <=? n) && (n <=? 13)))%nat.

Fixpoint lstrip (s : string) : string :=
  match s with
  | String c rest => if is_space c then lstrip rest else s
  | EmptyString => EmptyString
  end.

Definition reverse (s : string) : string :=
  string_of_list_ascii (List.rev (list_ascii_of_string s)).

Definition strip (s : string) : string := reverse (lstrip (reverse (lstrip s))).

(** [int(s)]: blanks around an optionally signed run of decimal digits. *)
Definition py_int (s : string) : option Z :=
  match strip s with
  | String "-" rest => Z.opp <$> digits rest
  | String "+" rest => digits rest
  | text => digits text
  end.

Definition url_ok (s : string) : bool :=
  String.prefix "http://" s || String.prefix "https://" s.

(** A limit of zero is no limit; a negative limit is its absolute value. *)
Definition limit_nonpositive (n : Z) : option nat :=
  if n =? 0 then None else Some (Z.to_nat (- n)).

Definition runtime : Runtime :=
  Build_Runtime fromisoformat isoformat (render false) (render true)
                py_int url_ok limit_nonpositive.

(** A schema for [GitHubEvent]: string fields, [from_branch] optional. *)
Definition validate (d : GitHubEvent.t) : bool :=
  is_str (GitHubEvent.author d) && is_str (GitHubEvent.to_branch d)
  && match GitHubEvent.from_branch d with JNull | JStr _ => true | _ => false end
  && is_str (GitHubEvent.repo_full_name d).

End Reference.


(* ===================================================================== *)
(** ** The specification's reading of the signature gate *)
(* ===================================================================== *)

Module Spec.

Inductive verdict : Type :=
| Pass
| BadSignatureFormat
| SignatureMismatch.

(** Section 4.1, in the specification's words: no check without a secret;
    a header that is missing, has no ["="] or whose prefix is not
    ["sha256"] is badly formatted; otherwise the digest after the ["="]
    must equal the hexadecimal HMAC-SHA256 of the raw body. *)
Definition signature_verdict (secret : list Byte.byte) (header : option string)
           (body : list Byte.byte) : verdict :=
  match secret with
  | [] => Pass
  | _ =>
      match header with
      | None => BadSignatureFormat
      | Some h =>
          if negb (contains "=" h) || negb (String.eqb (before "=" h) "sha256")
          then BadSignatureFormat
          else if String.eqb (after "=" h) (HMAC.hexdigest secret body)
               then Pass
               else SignatureMismatch
      end
  end.

(** How a verdict shows as the result of the gate: both failures are an
    [abort(400, ...)], told apart by the reason. *)
Definition shown_as (v : verdict) (r : result unit) : Prop :=
  match v with
  | Pass => r = Ok ()
  | BadSignatureFormat =>
      exists reason, r = abort 400 reason /\ reason <> "Invalid signature"
  | SignatureMismatch => r = abort 400 "Invalid signature"
  end.

(** [s] without its first [n] characters. *)
Fixpoint skip (n : nat) (s : string) : string :=
  match n, s with
  | S k, String _ rest => skip k rest
  | _, _ => s
  end.

(** Section 8: [ref] with a literal prefix stripped if present, unchanged
    otherwise. *)
Definition strip_prefix (p ref : string) : string :=
  if String.prefix p ref then skip (String.length p) ref else ref.

(** The value at a path of keys, as in [pull_request.merged_by.login]. *)
Fixpoint path (x : json) (keys : list string) : result json :=
  match keys with
  | [] => Ok x
  | k :: rest => v ← getitem x k; path v rest
  end.

(** Section 3: the fields every persisted record must carry: neither
    null nor, for the string fields, empty. *)
Definition record_ok (d : GitHubEvent.t) : Prop :=
  GitHubEvent.event_type d <> None /\ GitHubEvent.event_type d <> Some ""
  /\ GitHubEvent.author d <> JNull /\ GitHubEvent.author d <> JStr ""
  /\ GitHubEvent.to_branch d <> JNull /\ GitHubEvent.to_branch d <> JStr ""
  /\ GitHubEvent.timestamp d <> None.

(** Every identifier of the collection was issued before [next_oid]. *)
Definition fresh_ids {D} (c : collection D) : Prop :=
  Forall (fun p => fst p < next_oid c) (documents c).

(** The ignore rule for event types, as section 8 states it: whatever
    else holds of the delivery, a header other than [push] and
    [pull_request] is answered 200 with the reason, and nothing is stored. *)
Definition ignores_event_type {D}
           (handle : collection D -> request -> response * collection D)
           (db : collection D) (request : request) : Prop :=
  let header := default "" (headers request !! "X-GitHub-Event") in
  header <> "push" -> header <> "pull_request" ->
  handle db request
  = (jsonify_msg ("Ignored event type='" +:+ header +:+ "'") 200, db).

(** The rule for malformed timestamps, as section 4.2 states it: a push
    whose head commit carries a timestamp that the parser rejects is
    answered 400. *)
Definition rejects_malformed_timestamp `{Runtime} {D}
           (handle : collection D -> request -> response * collection D)
           (db : collection D) (ref stamp : string) : Prop :=
  fromisoformat (str_replace stamp "Z" "+00:00" None) = None ->
  status (fst (handle db (Request {[ "X-GitHub-Event" := "push" ]} ∅ (utf8 "{}")
                                  (Some (JObj [ ("ref", JStr ref);
                                                ("pusher", JObj [("name", JStr "alice")]);
                                                ("head_commit",
                                                 JObj [("timestamp", JStr stamp)]) ])))))
  = 400.

(** A delivery without the event header is answered 200 with the reason
    of the empty event type, and nothing is stored. *)
Definition ignores_absent_header {D}
           (handle : collection D -> request -> response * collection D)
           (db : collection D) (request : request) : Prop :=
  headers request !! "X-GitHub-Event" = None ->
  handle db request = (jsonify_msg "Ignored event type=''" 200, db).

(** [pull_request.merged == true], the condition of the table of
    section 4.2; a payload without that member is not merged. *)
Definition merged_true (payload : json) : bool :=
  match path payload ["pull_request"; "merged"] with
  | Ok merged => eq_True merged
  | Raise _ => false
  end.

(** The ignore rule for pull-request actions, as section 8 states it: a
    [pull_request] delivery whose action is neither [opened] nor [closed]
    with [merged == true] is answered 200 with the reason, and nothing is
    stored. *)
Definition ignores_pull_request_action `{Runtime} {D}
           (handle : collection D -> request -> response * collection D)
           (db : collection D) (request : request) : Prop :=
  headers request !! "X-GitHub-Event" = Some "pull_request" ->
  forall payload action,
    json_body request = Some payload ->
    getitem payload "action" = Ok action ->
    eq_str action "opened" = false ->
    eq_str action "closed" && merged_true payload = false ->
    handle db request
    = (jsonify_msg ("Ignored pull_request action='" +:+ py_str action +:+ "'") 200,
       db).

(** The last words of the rule for malformed timestamps: the record of a
    push whose head commit carries a timestamp that the parser rejects
    never has the ingestion time [now] in its place. *)
Definition never_defaults_timestamp `{Runtime}
           (handle : collection GitHubEvent.t -> request
                     -> response * collection GitHubEvent.t)
           (now : datetime) (ref stamp : string) : Prop :=
  fromisoformat (str_replace stamp "Z" "+00:00" None) = None ->
  Forall (fun d => GitHubEvent.timestamp (snd d) <> Some now)
         (documents
            (snd (handle (Collection [] 0)
                         (Request {[ "X-GitHub-Event" := "push" ]} ∅ (utf8 "{}")
                                  (Some (JObj [ ("ref", JStr ref);
                                                ("pusher", JObj [("name", JStr "alice")]);
                                                ("head_commit",
                                                 JObj [("timestamp", JStr stamp)]) ])))))).

End Spec.

(* ===================================================================== *)
(** ** Sample deliveries *)
(* ===================================================================== *)

Module Sample.

Definition world : world := World 1748961000000000 1748961000250000 true.

Definition no_events : collection GitHubEvent.t := Collection [] 0.
Definition no_pushes : collection Models.PushEvent := Collection [] 0.

(** A push of [ref] by alice, whose head commit carries [stamp]. *)
Definition push (ref stamp : string) : json :=
  JObj [ ("ref", JStr ref);
         ("pusher", JObj [("name", JStr "alice");
                          ("email", JStr "alice@example.com")]);
         ("head_commit", JObj [("timestamp", JStr stamp)]);
         ("commits", JArr []);
         ("repository", JObj [("full_name", JStr "o/r")]) ].

(** A pull request from [feature] to [main], merged by bob. *)
Definition merged_pull_request : json :=
  JObj [ ("action", JStr "closed");
         ("pull_request",
          JObj [ ("merged", JBool true);
                 ("merged_by", JObj [("login", JStr "bob")]);
                 ("head", JObj [("ref", JStr "feature")]);
                 ("base", JObj [("ref", JStr "main")]);
                 ("merged_at", JStr "2025-06-03T14:30:00Z") ]);
         ("repository", JObj [("full_name", JStr "o/r")]) ].

(** A pull request from [feature] to [main], opened by carol. *)
Definition opened_pull_request : json :=
  JObj [ ("action", JStr "opened");
         ("pull_request",
          JObj [ ("user", JObj [("login", JStr "carol")]);
                 ("head", JObj [("ref", JStr "feature")]);
                 ("base", JObj [("ref", JStr "main")]);
                 ("created_at", JNull) ]);
         ("repository", JObj [("full_name", JStr "o/r")]) ].

Definition closed_unmerged_pull_request : json :=
  JObj [ ("action", JStr "closed");
         ("pull_request", JObj [("merged", JBool false)]);
         ("repository", JObj [("full_name", JStr "o/r")]) ].

(** A pull request closed, with [null] for its [pull_request] member. *)
Definition closed_null_pull_request : json :=
  JObj [ ("action", JStr "closed"); ("pull_request", JNull) ].

(** A pull request from [feature] to [main], opened by carol at [stamp]. *)
Definition opened_at (stamp : string) : json :=
  JObj [ ("action", JStr "opened");
         ("pull_request",
          JObj [ ("user", JObj [("login", JStr "carol")]);
                 ("head", JObj [("ref", JStr "feature")]);
                 ("base", JObj [("ref", JStr "main")]);
                 ("created_at", JStr stamp) ]);
         ("repository", JObj [("full_name", JStr "o/r")]) ].

(** A pull request from [feature] to [main], merged by bob at [stamp]. *)
Definition merged_at (stamp : string) : json :=
  JObj [ ("action", JStr "closed");
         ("pull_request",
          JObj [ ("merged", JBool true);
                 ("merged_by", JObj [("login", JStr "bob")]);
                 ("head", JObj [("ref", JStr "feature")]);
                 ("base", JObj [("ref", JStr "main")]);
                 ("merged_at", JStr stamp) ]);
         ("repository", JObj [("full_name", JStr "o/r")]) ].

(** A delivery of [payload] under the event header [event], unsigned. *)
Definition delivery (event : string) (payload : json) : request :=
  Request {[ "X-GitHub-Event" := event ]} ∅ (utf8 "{}") (Some payload).

(** The same without the event header. *)
Definition headerless (payload : json) : request :=
  Request ∅ ∅ (utf8 "{}") (Some payload).

(** A delivery carrying [signature] in the signature header. *)
Definition signed (signature : string) (event : string) (payload : json) : request :=
  Request {[ "X-Hub-Signature-256" := signature; "X-GitHub-Event" := event ]} ∅
          (utf8 "{}") (Some payload).

(** A push of one commit to [main], the commit carrying [stamp]. *)
Definition push_of_commit (stamp : string) : json :=
  JObj [ ("ref", JStr "refs/heads/main");
         ("pusher", JObj [("name", JStr "alice");
                          ("email", JStr "alice@example.com")]);
         ("commits",
          JArr [ JObj [ ("id", JStr "1f0c");
                        ("message", JStr "fix");
                        ("timestamp", JStr stamp);
                        ("url", JStr "https://example.com/c/1f0c");
                        ("author", JObj [("name", JStr "alice");
                                         ("email", JStr "alice@example.com")]) ] ]);
         ("repository", JObj [("full_name", JStr "o/r")]) ].

(** A push that names no ref. *)
Definition push_without_ref : json :=
  JObj [ ("pusher", JObj [("name", JStr "alice")]) ].

(** A delivery without event header whose body is not JSON. *)
Definition garbled : request := Request ∅ ∅ (utf8 "{") None.

(** [GET /events?limit=text] *)
Definition listing (text : string) : request :=
  Request ∅ {[ "limit" := text ]} [] None.

End Sample.

(** A computation none of whose exceptions is an [abort]. *)
Definition plain {A} (m : result A) : Prop :=
  forall e, m = Raise e -> is_abort e = false.

Create HintDb plain.

(* ===================================================================== *)
(** ** Properties *)
(* ===================================================================== *)

(** *** The Python fragment *)

Lemma split1_spec c s :
  split1 c s = if contains c s then [before c s; after c s] else [s].
Proof.
  unfold contains.
  induction s as [|a rest IH]; cbn [split1 before after list_ascii_of_string List.existsb].
  - reflexivity.
  - destruct (Ascii.eqb a c); cbn [orb]; [reflexivity|].
    rewrite IH. destruct (List.existsb _ _); reflexivity.
Qed.

Lemma unpack2_split1 c s :
  unpack2 (split1 c s)
  = if contains c s then Ok (before c s, after c s) else Raise ValueError.
Proof. rewrite split1_spec. destruct (contains c s); reflexivity. Qed.

Lemma be_bytes_range n x : Forall (fun b => 0 <= b < 256) (SHA256.be_bytes n x).
Proof.
  induction n as [|n IH]; cbn [SHA256.be_bytes]; constructor; [|exact IH].
  apply Z.mod_pos_bound. lia.
Qed.

Lemma digest_range msg : Forall (fun b => 0 <= b < 256) (SHA256.digest msg).
Proof.
  unfold SHA256.digest.
  induction (SHA256.digest_words msg) as [|wd wds IH]; cbn [List.map List.concat].
  - constructor.
  - apply Forall_app. split; [apply be_bytes_range | exact IH].
Qed.

Lemma hex_digit_ascii n :
  0 <= n < 16 -> (nat_of_ascii (HMAC.hex_digit n) <? 128)%nat = true.
Proof.
  intros Hn. rewrite <- (Z2Nat.id n) by lia.
  assert (Hk : (Z.to_nat n < 16)%nat) by lia.
  revert Hk. generalize (Z.to_nat n). intros k Hk.
  do 16 (destruct k as [|k]; [reflexivity|]). lia.
Qed.

Lemma hex_ascii bs :
  Forall (fun b => 0 <= b < 256) bs -> is_ascii (HMAC.hex bs) = true.
Proof.
  unfold is_ascii.
  induction 1 as [|b bs Hb _ IH]; cbn [HMAC.hex list_ascii_of_string List.forallb].
  - reflexivity.
  - rewrite !hex_digit_ascii, IH; [reflexivity| |].
    + apply Z.mod_pos_bound. lia.
    + split; [apply Z.div_pos; lia | apply Z.div_lt_upper_bound; lia].
Qed.

Lemma hexdigest_ascii key msg : is_ascii (HMAC.hexdigest key msg) = true.
Proof. apply hex_ascii, digest_range. Qed.

Lemma compare_digest_hexdigest key msg presented :
  compare_digest (HMAC.hexdigest key msg) presented
  = if is_ascii presented
    then Ok (String.eqb (HMAC.hexdigest key msg) presented)
    else Raise TypeError.
Proof. unfold compare_digest. rewrite hexdigest_ascii. reflexivity. Qed.

(** *** The signature gate *)

Section SignatureGate.
Context `{Runtime}.
Variable secret : list Byte.byte.

(** [run.py] implements the gate of section 4.1 on every header whose
    digest part is ASCII. *)
Lemma run_signature_gate_refines (request : request) :
  match headers request !! "X-Hub-Signature-256" with
  | Some h => is_ascii (after "=" h) = true
  | None => True
  end ->
  Spec.shown_as
    (Spec.signature_verdict secret (headers request !! "X-Hub-Signature-256")
                            (data request))
    (Run.signature_gate secret request).
Proof.
  unfold Run.signature_gate, Spec.signature_verdict, Run.verify_github_signature.
  destruct secret as [|b bs]; [reflexivity|].
  destruct (headers request !! "X-Hub-Signature-256") as [h|]; cbn [Spec.shown_as].
  2:{ intros _. eexists. split; [reflexivity | discriminate]. }
  intros Hascii.
  destruct (String.eqb_spec h "") as [-> | Hne].
  { cbn. eexists. split; [reflexivity | discriminate]. }
  rewrite unpack2_split1.
  destruct (contains "=" h); cbn.
  2:{ eexists. split; [reflexivity | discriminate]. }
  destruct (String.eqb (before "=" h) "sha256"); cbn.
  2:{ eexists. split; [reflexivity | discriminate]. }
  rewrite compare_digest_hexdigest, Hascii. cbn.
  rewrite String.eqb_sym.
  destruct (String.eqb _ _); reflexivity.
Qed.

(** A digest part that is not ASCII makes [hmac.compare_digest] raise. *)
Lemma run_signature_gate_non_ascii (request : request) h :
  secret <> [] ->
  headers request !! "X-Hub-Signature-256" = Some h ->
  contains "=" h = true ->
  before "=" h = "sha256" ->
  is_ascii (after "=" h) = false ->
  Run.signature_gate secret request = Raise TypeError.
Proof.
  intros Hs Hh Hc Hb Ha.
  unfold Run.signature_gate, Run.verify_github_signature.
  destruct secret as [|b bs]; [congruence|].
  rewrite Hh.
  destruct (String.eqb_spec h "") as [-> | _]; [discriminate Hc|].
  rewrite unpack2_split1, Hc. cbn. rewrite Hb. cbn.
  rewrite compare_digest_hexdigest, Ha. reflexivity.
Qed.

Lemma app_verify_without_separator (request : request) h :
  headers request !! "X-Hub-Signature-256" = Some h ->
  contains "=" h = false ->
  App.verify_github_signature secret request = Raise ValueError.
Proof.
  intros Hh Hc. unfold App.verify_github_signature.
  rewrite Hh, unpack2_split1, Hc. reflexivity.
Qed.

End SignatureGate.

(** C1. The signature gate of section 4.1 answers [BadSignatureFormat], an
    HTTP 400, to a header that lacks the ["="] separator. [run.py] does so;
    [app/app.py] unpacks the result of [split] outside any [try], so that
    under a configured secret such a header raises an uncaught [ValueError]:
    the delivery is answered with HTTP 500 (and nothing is stored). *)
Theorem C1_app_header_without_separator `{Runtime}
        (secret : list Byte.byte) (w : world)
        (db : collection Models.PushEvent) (request : request) (h : string) :
  secret <> [] ->
  headers request !! "X-Hub-Signature-256" = Some h ->
  contains "=" h = false ->
  Spec.signature_verdict secret (Some h) (data request) = Spec.BadSignatureFormat
  /\ App.handle_github_webhook secret w db request
     = (Response 500 (Unhandled ValueError), db)
  /\ exists reason,
       Run.signature_gate secret request = abort 400 reason.
Proof.
  intros Hs Hh Hc. split; [|split].
  - unfold Spec.signature_verdict. destruct secret; [congruence|].
    rewrite Hc. reflexivity.
  - unfold App.handle_github_webhook, App.handle_github_webhook_view,
      App.signature_gate.
    destruct secret; [congruence|].
    rewrite (app_verify_without_separator _ _ h Hh Hc). reflexivity.
  - pose proof (run_signature_gate_refines secret request) as Href.
    rewrite Hh in Href. unfold Spec.signature_verdict in Href.
    destruct secret; [congruence|]. rewrite Hc in Href. cbn in Href.
    assert (Ha : is_ascii (after "=" h) = true).
    { clear -Hc. unfold contains, is_ascii in *.
      induction h as [|a rest IH]; [reflexivity|].
      cbn in Hc |- *. destruct (Ascii.eqb a "="); [discriminate|].
      apply IH, Hc. }
    destruct (Href Ha) as [reason [Hr _]]. eauto.
Qed.

(** *** Exceptions of the Python fragment are not aborts *)

Lemma plain_Ok {A} (a : A) : plain (Ok a).
Proof. intros e; discriminate. Qed.

Lemma plain_bind {A B} (m : result A) (k : A -> result B) :
  plain m -> (forall a, plain (k a)) -> plain (m ≫= k).
Proof.
  intros Hm Hk e. destruct m as [a|e']; cbn.
  - apply Hk.
  - intros [= <-]. apply Hm. reflexivity.
Qed.

Lemma plain_fmap {A B} (f : A -> B) (m : result A) : plain m -> plain (f <$> m).
Proof. intros Hm e. destruct m; cbn; [discriminate|]. intros [= <-]. eauto. Qed.

Lemma plain_getitem x k : plain (getitem x k).
Proof.
  intros e. destruct x; cbn; try (intros [= <-]; reflexivity).
  destruct (assoc k members); [discriminate|]. intros [= <-]. reflexivity.
Qed.

Lemma plain_get x k d : plain (get x k d).
Proof.
  intros e. destruct x; cbn; try (intros [= <-]; reflexivity).
  destruct (assoc k members); discriminate.
Qed.

Lemma plain_replace x old new count : plain (replace x old new count).
Proof. intros e. destruct x; cbn; intros [= <-]; reflexivity. Qed.

Lemma plain_startswith x p : plain (startswith x p).
Proof. intros e. destruct x; cbn; intros [= <-]; reflexivity. Qed.

Lemma plain_iter x : plain (iter x).
Proof. intros e. destruct x; cbn; intros [= <-]; reflexivity. Qed.

Lemma plain_parse_timestamp `{Runtime} x : plain (parse_timestamp x).
Proof.
  unfold parse_timestamp. apply plain_bind; [apply plain_replace|].
  intros text e. destruct (fromisoformat text); [discriminate|].
  intros [= <-]. reflexivity.
Qed.

Lemma plain_save {D} w (valid : D -> bool) d (c : collection D) : plain (save w valid d c).
Proof.
  intros e. unfold save.
  destruct (valid d), (db_up w); cbn; try discriminate; intros [= <-]; reflexivity.
Qed.

Lemma plain_mapM {A B} (f : A -> result B) (l : list A) :
  (forall a, plain (f a)) -> plain (mapM f l).
Proof.
  intros Hf. induction l as [|a l IH]; cbn.
  - apply plain_Ok.
  - apply plain_bind; [apply Hf|]. intros b.
    apply plain_bind; [exact IH|]. intros bs. apply plain_Ok.
Qed.

#[local] Hint Resolve plain_Ok plain_getitem plain_get plain_replace
  plain_startswith plain_iter plain_save : plain.

Ltac plain_steps :=
  repeat first
    [ solve [ auto with plain ]
    | apply plain_parse_timestamp
    | apply plain_fmap
    | apply plain_bind; [| intros ? ]
    | match goal with
      | |- plain (if ?b then _ else _) => destruct b
      | |- plain (match ?x with inl _ => _ | inr _ => _ end) => destruct x
      end ].

(** An exception that is not an abort is answered with HTTP 500. *)
Lemma respond_plain (e : exc) :
  is_abort e = false -> respond (Raise e) = Response 500 (Unhandled e).
Proof. destruct e; cbn; (discriminate || reflexivity). Qed.

(** *** [run.py]: the webhook *)

Section RunWebhook.
Context `{Runtime}.
Variable secret : list Byte.byte.
Variable validate : GitHubEvent.t -> bool.

Lemma run_pr_time_plain w stamp : plain (Run.pr_time w stamp).
Proof. unfold Run.pr_time. plain_steps. Qed.

Lemma run_head_commit_time_plain w payload : plain (Run.head_commit_time w payload).
Proof. unfold Run.head_commit_time. plain_steps. Qed.

Lemma run_dispatch_plain w header payload : plain (Run.dispatch w header payload).
Proof.
  unfold Run.dispatch.
  destruct (String.eqb header "push");
    [plain_steps; apply run_head_commit_time_plain|].
  destruct (String.eqb header "pull_request"); [|plain_steps].
  apply plain_bind; [auto with plain|]. intros action.
  apply plain_bind; [auto with plain|]. intros pr.
  destruct (eq_str action "opened").
  - plain_steps. apply run_pr_time_plain.
  - apply plain_bind; [plain_steps|]. intros [|]; [|plain_steps].
    plain_steps. apply run_pr_time_plain.
Qed.

Lemma run_repo_full_plain payload : plain (Run.repo_full payload).
Proof. unfold Run.repo_full. plain_steps. Qed.

(** The clock at insertion and the state of the database play no part in
    the dispatch. *)
Lemma run_dispatch_clock w t up header payload :
  Run.dispatch (World (utcnow w) t up) header payload = Run.dispatch w header payload.
Proof. reflexivity. Qed.

(** Once the gates are passed, the answer is decided by the dispatch and
    the store. *)
Lemma run_webhook_after_gates w db request payload repo :
  Run.signature_gate secret request = Ok () ->
  json_body request = Some payload ->
  Run.repo_full payload = Ok repo ->
  Run.github_webhook secret validate w db request
  = match Run.dispatch w (default "" (headers request !! "X-GitHub-Event")) payload with
    | Ok (inl ignored) => (ignored, db)
    | Ok (inr v) =>
        match Run.store validate w db v repo payload with
        | Ok out => out
        | Raise e => (respond (Raise e), db)
        end
    | Raise e => (Response 500 (Unhandled e), db)
    end.
Proof.
  intros Hgate Hbody Hrepo.
  unfold Run.github_webhook, Run.github_webhook_view, Run.parsed_payload.
  rewrite Hgate, Hbody. cbn. rewrite Hrepo. cbn.
  destruct (Run.dispatch w _ payload) as [[ignored|v]|e] eqn:Hd; cbn; try reflexivity.
  apply run_dispatch_plain in Hd. destruct e; (discriminate || reflexivity).
Qed.

End RunWebhook.

(** *** [app/app.py]: the webhook *)

Section AppWebhook.
Context `{Runtime}.
Variable secret : list Byte.byte.

Lemma app_commit_doc_plain c : plain (App.commit_doc c).
Proof. unfold App.commit_doc. plain_steps. Qed.

Lemma app_record_push_plain w db payload : plain (App.record_push w db payload).
Proof.
  unfold App.record_push. plain_steps.
  apply plain_mapM, app_commit_doc_plain.
Qed.

(** A delivery that passes the gate of [run.py] passes that of [app.py]. *)
Lemma app_gate_of_run_gate request :
  Run.signature_gate secret request = Ok () ->
  App.signature_gate secret request = Ok ().
Proof.
  unfold Run.signature_gate, App.signature_gate,
    Run.verify_github_signature, App.verify_github_signature.
  destruct secret as [|b bs]; [reflexivity|].
  destruct (headers request !! "X-Hub-Signature-256") as [h|]; [|discriminate].
  destruct (String.eqb h ""); [discriminate|].
  rewrite unpack2_split1. destruct (contains "=" h); [|discriminate].
  cbn. destruct (String.eqb (before "=" h) "sha256"); [|discriminate].
  cbn. intros Hrun. exact Hrun.
Qed.

Lemma app_webhook_after_gates w db request payload :
  App.signature_gate secret request = Ok () ->
  json_body request = Some payload ->
  App.handle_github_webhook secret w db request
  = if negb (String.eqb (default "" (headers request !! "X-GitHub-Event")) "push")
    then (jsonify_msg "Ignored: not a push event" 200, db)
    else match App.record_push w db payload with
         | Ok db' => (jsonify_msg "Push event recorded" 201, db')
         | Raise (KeyError key) =>
             (Response 400 (Aborted ("Missing expected field: '" +:+ key +:+ "'")), db)
         | Raise e => (Response 500 (Unhandled e), db)
         end.
Proof.
  intros Hgate Hbody.
  unfold App.handle_github_webhook, App.handle_github_webhook_view,
    App.parsed_payload.
  rewrite Hgate, Hbody. cbn.
  destruct (negb _); [reflexivity|].
  destruct (App.record_push w db payload) as [db'|e] eqn:Hr; [reflexivity|].
  apply app_record_push_plain in Hr.
  destruct e; (discriminate || reflexivity).
Qed.

End AppWebhook.

(** C2. A push without [pusher] is a delivery with a required field
    missing, to be answered HTTP 400 with the field named. [app/app.py]
    does so. [run.py] subscripts the payload outside any [try]: the
    [KeyError] is uncaught and the delivery is answered HTTP 500. Neither
    stores anything. *)
Theorem C2_run_missing_field_is_500 `{Runtime}
        (secret : list Byte.byte) (validate : GitHubEvent.t -> bool) (w : world)
        (db : collection GitHubEvent.t) (pdb : collection Models.PushEvent)
        (request : request) (payload repo : json) :
  Run.signature_gate secret request = Ok () ->
  json_body request = Some payload ->
  headers request !! "X-GitHub-Event" = Some "push" ->
  Run.repo_full payload = Ok repo ->
  getitem payload "pusher" = Raise (KeyError "pusher") ->
  Run.github_webhook secret validate w db request
  = (Response 500 (Unhandled (KeyError "pusher")), db)
  /\ exists key,
       App.handle_github_webhook secret w pdb request
       = (Response 400 (Aborted ("Missing expected field: '" +:+ key +:+ "'")), pdb).
Proof.
  intros Hgate Hbody Hevent Hrepo Hpusher. split.
  - rewrite (run_webhook_after_gates secret validate w db request payload repo)
      by assumption.
    rewrite Hevent. cbn [default]. unfold Run.dispatch.
    cbn [String.eqb Ascii.eqb Bool.eqb]. rewrite Hpusher. reflexivity.
  - rewrite (app_webhook_after_gates secret w pdb request payload)
      by (auto using app_gate_of_run_gate).
    rewrite Hevent. cbn [default negb String.eqb Ascii.eqb Bool.eqb].
    unfold App.record_push.
    destruct payload as [| | | | |?|members]; try discriminate Hpusher.
    unfold Run.repo_full in Hrepo. cbn in Hrepo, Hpusher |- *.
    destruct (assoc "repository" members) as [r|]; cbn in Hrepo |- *.
    2:{ exists "repository". reflexivity. }
    destruct r as [| | | | |?|fields]; try discriminate Hrepo. cbn in Hrepo |- *.
    destruct (assoc "full_name" fields); cbn.
    2:{ exists "full_name". reflexivity. }
    destruct (assoc "pusher" members); [discriminate Hpusher|]. cbn.
    exists "pusher". reflexivity.
Qed.

Lemma C2_run_missing_field_is_500_witness :
  Run.github_webhook (H := Reference.runtime) [] Reference.validate Sample.world
                     Sample.no_events (Sample.delivery "push" (JObj []))
  = (Response 500 (Unhandled (KeyError "pusher")), Sample.no_events)
  /\ exists key,
       App.handle_github_webhook (H := Reference.runtime) [] Sample.world
                                 Sample.no_pushes (Sample.delivery "push" (JObj []))
       = (Response 400 (Aborted ("Missing expected field: '" +:+ key +:+ "'")),
          Sample.no_pushes).
Proof.
  apply (C2_run_missing_field_is_500 (H := Reference.runtime) [] Reference.validate
           Sample.world Sample.no_events Sample.no_pushes
           (Sample.delivery "push" (JObj [])) (JObj []) (JStr "unknown/unknown"));
    reflexivity.
Defined.

Lemma C1_app_header_without_separator_witness :
  Spec.signature_verdict (utf8 "s") (Some "sha256") (utf8 "{}")
  = Spec.BadSignatureFormat
  /\ App.handle_github_webhook (H := Reference.runtime) (utf8 "s") Sample.world
       Sample.no_pushes (Sample.signed "sha256" "push" (JObj []))
     = (Response 500 (Unhandled ValueError), Sample.no_pushes)
  /\ exists reason,
       Run.signature_gate (utf8 "s") (Sample.signed "sha256" "push" (JObj []))
       = abort 400 reason.
Proof.
  apply (C1_app_header_without_separator (H := Reference.runtime) (utf8 "s")
           Sample.world Sample.no_pushes (Sample.signed "sha256" "push" (JObj []))
           "sha256"); [discriminate | reflexivity | reflexivity].
Defined.

(** *** Branch names *)

Lemma replace_from_exhausted old new k s :
  replace_from old new (Some 0%nat) k s = Spec.skip k s.
Proof.
  revert k. induction s as [|c rest IH]; intros [|k]; cbn; try reflexivity.
  - rewrite IH. destruct rest; reflexivity.
  - apply IH.
Qed.

(** Where [s] starts with [p], replacing the first [p] by nothing strips
    the prefix. *)
Lemma str_replace_prefix p s :
  p <> "" -> String.prefix p s = true ->
  str_replace s p "" (Some 1%nat) = Spec.skip (String.length p) s.
Proof.
  intros Hp Hpre. unfold str_replace.
  destruct s as [|c rest].
  - destruct p; [congruence | discriminate Hpre].
  - cbn [replace_from]. rewrite Hpre. cbn [andb fmap option_fmap option_map Nat.pred].
    rewrite replace_from_exhausted.
    destruct p as [|a p']; [congruence|].
    cbn [String.length Spec.skip Nat.sub]. rewrite Nat.sub_0_r. reflexivity.
Qed.

(** [run.py] records the branch of a push as section 8 states: the prefix
    [refs/heads/] stripped if [ref] starts with it, [ref] unchanged
    otherwise; there is no source branch. *)
Lemma run_push_to_branch `{Runtime} w payload ref v :
  get payload "ref" (JStr "") = Ok (JStr ref) ->
  Run.dispatch w "push" payload = Ok (inr v) ->
  Run.to_branch v = JStr (Spec.strip_prefix "refs/heads/" ref)
  /\ Run.from_branch v = JNull.
Proof.
  intros Href. unfold Run.dispatch. cbn [String.eqb Ascii.eqb Bool.eqb].
  destruct (getitem payload "pusher") as [pusher|]; [|discriminate]. cbn.
  destruct (getitem pusher "name") as [name|]; [|discriminate]. cbn.
  rewrite Href. cbn -[String.prefix str_replace].
  unfold Spec.strip_prefix.
  destruct (String.prefix "refs/heads/" ref) eqn:Hpre; cbn -[String.prefix str_replace].
  - rewrite (str_replace_prefix "refs/heads/" ref) by (discriminate || exact Hpre).
    destruct (Run.head_commit_time w payload); [|discriminate]. cbn -[Spec.skip].
    intros [= <-]. split; reflexivity.
  - destruct (Run.head_commit_time w payload); [|discriminate]. cbn.
    intros [= <-]. split; reflexivity.
Qed.

(** C3. The recorded branch of a push is [ref] without a leading
    [refs/heads/], and [ref] itself when it does not start so. [run.py]
    guards the replacement with [startswith]; [app/app.py] does not, and
    removes the first [refs/heads/] wherever it stands: for the tag ref
    [refs/tags/refs/heads/main] it records [refs/tags/main], where [run.py]
    records the ref unchanged. *)
Theorem C3_app_strips_inner_prefix `{Runtime} (ref stamp : string) :
  List.map (fun p => Models.branch (snd p))
           (documents (snd (App.handle_github_webhook [] Sample.world Sample.no_pushes
                              (Sample.delivery "push" (Sample.push ref stamp)))))
  = [str_replace ref "refs/heads/" "" (Some 1%nat)]
  /\ str_replace "refs/tags/refs/heads/main" "refs/heads/" "" (Some 1%nat)
     = "refs/tags/main"
  /\ Spec.strip_prefix "refs/heads/" "refs/tags/refs/heads/main"
     = "refs/tags/refs/heads/main"
  /\ List.map (fun p => GitHubEvent.to_branch (snd p))
              (documents (snd (Run.github_webhook (H := Reference.runtime) []
                                 Reference.validate Sample.world Sample.no_events
                                 (Sample.delivery "push"
                                    (Sample.push "refs/tags/refs/heads/main"
                                                 "2025-06-03T14:30:00Z")))))
     = [JStr "refs/tags/refs/heads/main"].
Proof.
  split; [|split; [|split]]; vm_compute; reflexivity.
Qed.

(** *** Pull requests *)

(** C4. A [pull_request] delivery with action [closed] and
    [pull_request.merged == True] is normalised, whenever its fields are
    there, into the record of a merge: author [pull_request.merged_by.login],
    source branch [pull_request.head.ref], target branch
    [pull_request.base.ref], and as time [pull_request.merged_at] when that
    is present (a truthy value, parsed), else the clock of the ingestion.
    The dispatch yields nothing else for such a delivery. *)
Theorem C4_merge_record `{Runtime} (w : world) (payload pr merged : json)
        (out : response + Run.locals) :
  get payload "action" (JStr "") = Ok (JStr "closed") ->
  get payload "pull_request" (JObj []) = Ok pr ->
  get pr "merged" JNull = Ok merged ->
  eq_True merged = true ->
  Run.dispatch w "pull_request" payload = Ok out
  <-> exists author source target merged_at time,
        Spec.path pr ["merged_by"; "login"] = Ok author
        /\ Spec.path pr ["head"; "ref"] = Ok source
        /\ Spec.path pr ["base"; "ref"] = Ok target
        /\ get pr "merged_at" JNull = Ok merged_at
        /\ (if truthy merged_at then parse_timestamp merged_at = Ok time
            else time = utcnow w)
        /\ out = inr (Run.Locals (Some "merge") author source target (Some time)).
Proof.
  intros Haction Hpr Hmerged Htrue.
  unfold Run.dispatch. cbn [String.eqb Ascii.eqb Bool.eqb].
  rewrite Haction, Hpr. cbn. rewrite Hmerged. cbn. rewrite Htrue.
  unfold Run.pr_time.
  split.
  - destruct (getitem pr "merged_by") as [by_|] eqn:Hby; [|discriminate]. cbn.
    destruct (getitem by_ "login") as [author|] eqn:Hlogin; [|discriminate]. cbn.
    destruct (getitem pr "head") as [head|] eqn:Hhead; [|discriminate]. cbn.
    destruct (getitem head "ref") as [source|] eqn:Hsource; [|discriminate]. cbn.
    destruct (getitem pr "base") as [base|] eqn:Hbase; [|discriminate]. cbn.
    destruct (getitem base "ref") as [target|] eqn:Htarget; [|discriminate]. cbn.
    destruct (get pr "merged_at" JNull) as [merged_at|]; [|discriminate]. cbn.
    assert (Hpaths : Spec.path pr ["merged_by"; "login"] = Ok author
                     /\ Spec.path pr ["head"; "ref"] = Ok source
                     /\ Spec.path pr ["base"; "ref"] = Ok target).
    { cbn. rewrite Hby, Hhead, Hbase. cbn. rewrite Hlogin, Hsource, Htarget. auto. }
    destruct Hpaths as (Hp1 & Hp2 & Hp3).
    destruct (truthy merged_at) eqn:Htruthy.
    + destruct (parse_timestamp merged_at) as [time|] eqn:Hparse; [|discriminate].
      cbn. intros [= <-].
      exists author, source, target, merged_at, time.
      rewrite Htruthy. repeat split; assumption.
    + cbn. intros [= <-].
      exists author, source, target, merged_at, (utcnow w).
      rewrite Htruthy. repeat split; assumption.
  - intros (author & source & target & merged_at & time
            & Hauthor & Hsource & Htarget & Hat & Htime & ->).
    cbn in Hauthor, Hsource, Htarget.
    destruct (getitem pr "merged_by") as [by_|]; [|discriminate]. cbn in Hauthor |- *.
    destruct (getitem by_ "login") as [a|]; [|discriminate]. cbn in Hauthor |- *.
    destruct (getitem pr "head") as [head|]; [|discriminate]. cbn in Hsource |- *.
    destruct (getitem head "ref") as [s|]; [|discriminate]. cbn in Hsource |- *.
    destruct (getitem pr "base") as [base|]; [|discriminate]. cbn in Htarget |- *.
    destruct (getitem base "ref") as [t|]; [|discriminate]. cbn in Htarget |- *.
    rewrite Hat. cbn.
    destruct (truthy merged_at).
    + rewrite Htime. cbn. congruence.
    + cbn. congruence.
Qed.

Lemma C4_merge_record_witness :
  Run.dispatch (H := Reference.runtime) Sample.world "pull_request"
               Sample.merged_pull_request
  = Ok (inr (Run.Locals (Some "merge") (JStr "bob") (JStr "feature") (JStr "main")
                        (Some 1748961000000000))).
Proof.
  apply (C4_merge_record (H := Reference.runtime) Sample.world
           Sample.merged_pull_request
           (JObj [ ("merged", JBool true);
                   ("merged_by", JObj [("login", JStr "bob")]);
                   ("head", JObj [("ref", JStr "feature")]);
                   ("base", JObj [("ref", JStr "main")]);
                   ("merged_at", JStr "2025-06-03T14:30:00Z") ])
           (JBool true)); try reflexivity.
  exists (JStr "bob"), (JStr "feature"), (JStr "main"),
    (JStr "2025-06-03T14:30:00Z"), 1748961000000000.
  repeat split; reflexivity.
Defined.

(** *** Ignored deliveries *)

(** Where the [pull_request] member is absent or an object, the test of
    line 118 reads [pull_request.merged == True]. *)
Lemma merged_of_pull_request payload pr :
  get payload "pull_request" (JObj []) = Ok pr ->
  is_dict pr = true ->
  exists merged,
    get pr "merged" JNull = Ok merged /\ eq_True merged = Spec.merged_true payload.
Proof.
  intros Hpr Hdict. unfold Spec.merged_true.
  destruct payload as [| | | | | |members]; try discriminate Hpr.
  cbn in Hpr |- *.
  destruct (assoc "pull_request" members) as [v|].
  - injection Hpr as ->. cbn.
    destruct pr as [| | | | | |fields]; try discriminate Hdict. cbn.
    destruct (assoc "merged" fields) as [merged|]; cbn; eauto.
  - injection Hpr as <-. cbn. eauto.
Qed.

(** The ignore rules do not hold of every delivery. The push-only
    application answers with a reason of its own, for an event type it does
    not handle and for a pull request alike; and line 118 of [run.py] calls
    [get] on the [pull_request] member of a closed pull request, which
    raises when that member is [null]: the delivery is answered 500. *)
Lemma C5_ignore_rule_counterexample :
  ~ Spec.ignores_event_type
      (App.handle_github_webhook (H := Reference.runtime) [] Sample.world)
      Sample.no_pushes (Sample.delivery "issues" (JObj []))
  /\ ~ Spec.ignores_pull_request_action (H := Reference.runtime)
         (App.handle_github_webhook (H := Reference.runtime) [] Sample.world)
         Sample.no_pushes
         (Sample.delivery "pull_request" Sample.closed_unmerged_pull_request)
  /\ ~ Spec.ignores_pull_request_action (H := Reference.runtime)
         (Run.github_webhook (H := Reference.runtime) [] Reference.validate
                             Sample.world)
         Sample.no_events
         (Sample.delivery "pull_request" Sample.closed_null_pull_request).
Proof.
  split; [|split]; intros Hclaim.
  - unfold Spec.ignores_event_type in Hclaim. vm_compute in Hclaim.
    specialize (Hclaim ltac:(discriminate) ltac:(discriminate)).
    discriminate Hclaim.
  - specialize (Hclaim eq_refl Sample.closed_unmerged_pull_request (JStr "closed")
                       eq_refl eq_refl eq_refl eq_refl).
    vm_compute in Hclaim. discriminate Hclaim.
  - specialize (Hclaim eq_refl Sample.closed_null_pull_request (JStr "closed")
                       eq_refl eq_refl eq_refl eq_refl).
    vm_compute in Hclaim. discriminate Hclaim.
Qed.

(** C5, as the code has it. Of a delivery whose body is JSON:
    [app/app.py], once its signature gate is passed, answers 200 with
    [Ignored: not a push event] for every header but [push], so for
    [pull_request] too. [run.py], once its signature gate is passed and
    when the body is an object whose [repository] member is absent or an
    object, answers 200 with [Ignored event type='<header>'] when the
    header is neither [push] nor [pull_request], and 200 with
    [Ignored pull_request action='<action>'] when the header is
    [pull_request], the action (the empty string when absent) is not
    [opened] and, if the action is [closed], the [pull_request] member is
    absent or an object and [pull_request.merged == True] does not hold.
    Nothing is stored in any of these cases. *)
Theorem C5_ignored_after_gates `{Runtime}
        (secret : list Byte.byte) (validate : GitHubEvent.t -> bool) (w : world)
        (db : collection GitHubEvent.t) (pdb : collection Models.PushEvent)
        (request : request) (payload : json) :
  json_body request = Some payload ->
  let header := default "" (headers request !! "X-GitHub-Event") in
  (App.signature_gate secret request = Ok () ->
   header <> "push" ->
   App.handle_github_webhook secret w pdb request
   = (jsonify_msg "Ignored: not a push event" 200, pdb))
  /\ (Run.signature_gate secret request = Ok () ->
      forall repo, Run.repo_full payload = Ok repo ->
        (header <> "push" -> header <> "pull_request" ->
         Run.github_webhook secret validate w db request
         = (jsonify_msg ("Ignored event type='" +:+ header +:+ "'") 200, db))
        /\ (header = "pull_request" ->
            forall action pr,
              get payload "action" (JStr "") = Ok action ->
              get payload "pull_request" (JObj []) = Ok pr ->
              eq_str action "opened" = false ->
              (eq_str action "closed" = true ->
               is_dict pr = true /\ Spec.merged_true payload = false) ->
              Run.github_webhook secret validate w db request
              = (jsonify_msg ("Ignored pull_request action='" +:+ py_str action +:+ "'")
                             200,
                 db))).
Proof.
  intros Hbody header. split.
  - intros Hgate Hpush.
    rewrite (app_webhook_after_gates secret w pdb request payload) by assumption.
    fold header. apply String.eqb_neq in Hpush. rewrite Hpush. reflexivity.
  - intros Hgate repo Hrepo. split.
    + intros Hpush Hpr.
      rewrite (run_webhook_after_gates secret validate w db request payload repo)
        by assumption.
      fold header. unfold Run.dispatch.
      apply String.eqb_neq in Hpush, Hpr. rewrite Hpush, Hpr. reflexivity.
    + intros Hheader action pr Haction Hpr Hopened Hclosed.
      rewrite (run_webhook_after_gates secret validate w db request payload repo)
        by assumption.
      fold header. rewrite Hheader. unfold Run.dispatch.
      cbn [String.eqb Ascii.eqb Bool.eqb]. rewrite Haction, Hpr. cbn.
      rewrite Hopened.
      destruct (eq_str action "closed").
      * destruct Hclosed as [Hdict Hunmerged]; [reflexivity|].
        destruct (merged_of_pull_request payload pr Hpr Hdict)
          as (merged & Hmerged & Heq).
        rewrite Hmerged. cbn. rewrite Heq, Hunmerged. reflexivity.
      * reflexivity.
Qed.

Lemma C5_ignored_after_gates_witness :
  App.handle_github_webhook (H := Reference.runtime) [] Sample.world Sample.no_pushes
    (Sample.delivery "pull_request" Sample.closed_unmerged_pull_request)
  = (jsonify_msg "Ignored: not a push event" 200, Sample.no_pushes)
  /\ Run.github_webhook (H := Reference.runtime) [] Reference.validate Sample.world
       Sample.no_events
       (Sample.delivery "pull_request" Sample.closed_unmerged_pull_request)
     = (jsonify_msg "Ignored pull_request action='closed'" 200, Sample.no_events).
Proof.
  destruct (C5_ignored_after_gates (H := Reference.runtime) [] Reference.validate
              Sample.world Sample.no_events Sample.no_pushes
              (Sample.delivery "pull_request" Sample.closed_unmerged_pull_request)
              Sample.closed_unmerged_pull_request eq_refl) as (Happ & Hrun).
  split.
  - apply Happ; [reflexivity | discriminate].
  - destruct (Hrun eq_refl (JStr "o/r") eq_refl) as (_ & Hpr).
    apply (Hpr eq_refl (JStr "closed") (JObj [("merged", JBool false)]));
      try reflexivity.
    intros _. split; reflexivity.
Defined.

(** A delivery without event header is not always answered with the reason
    of the empty event type: the push-only application has a reason of its
    own, and [run.py] rejects a body that is not JSON first. *)
Lemma C10_absent_header_counterexample :
  ~ Spec.ignores_absent_header
      (App.handle_github_webhook (H := Reference.runtime) [] Sample.world)
      Sample.no_pushes (Sample.headerless (JObj []))
  /\ ~ Spec.ignores_absent_header
         (Run.github_webhook (H := Reference.runtime) [] Reference.validate Sample.world)
         Sample.no_events Sample.garbled.
Proof.
  split; intros Hclaim; unfold Spec.ignores_absent_header in Hclaim;
    vm_compute in Hclaim; specialize (Hclaim eq_refl); discriminate Hclaim.
Qed.

(** C10, as the code has it. A delivery without [X-GitHub-Event] that
    passes the signature gate and whose body is JSON is not rejected: the
    absent header reads as the empty string. [app/app.py] answers 200 with
    [Ignored: not a push event]; [run.py] answers 200 with
    [Ignored event type=''] when the body is an object with [repository]
    absent or an object. Neither stores anything. *)
Theorem C10_absent_header_ignored `{Runtime}
        (secret : list Byte.byte) (validate : GitHubEvent.t -> bool) (w : world)
        (db : collection GitHubEvent.t) (pdb : collection Models.PushEvent)
        (request : request) (payload : json) :
  headers request !! "X-GitHub-Event" = None ->
  Run.signature_gate secret request = Ok () ->
  json_body request = Some payload ->
  (forall repo, Run.repo_full payload = Ok repo ->
     Run.github_webhook secret validate w db request
     = (jsonify_msg "Ignored event type=''" 200, db))
  /\ App.handle_github_webhook secret w pdb request
     = (jsonify_msg "Ignored: not a push event" 200, pdb).
Proof.
  intros Hnone Hgate Hbody. split.
  - intros repo Hrepo.
    rewrite (run_webhook_after_gates secret validate w db request payload repo)
      by assumption.
    rewrite Hnone. reflexivity.
  - rewrite (app_webhook_after_gates secret w pdb request payload)
      by (auto using app_gate_of_run_gate).
    rewrite Hnone. reflexivity.
Qed.

Lemma C10_absent_header_ignored_witness :
  Run.github_webhook (H := Reference.runtime) [] Reference.validate Sample.world
                     Sample.no_events (Sample.headerless (JObj []))
  = (jsonify_msg "Ignored event type=''" 200, Sample.no_events)
  /\ App.handle_github_webhook (H := Reference.runtime) [] Sample.world
                               Sample.no_pushes (Sample.headerless (JObj []))
     = (jsonify_msg "Ignored: not a push event" 200, Sample.no_pushes).
Proof.
  destruct (C10_absent_header_ignored (H := Reference.runtime) [] Reference.validate
              Sample.world Sample.no_events Sample.no_pushes
              (Sample.headerless (JObj [])) (JObj []) eq_refl eq_refl eq_refl)
    as (Hrun & Happ).
  split; [apply (Hrun (JStr "unknown/unknown")); reflexivity | exact Happ].
Defined.

(** *** What a delivery does to the collection *)

Section RunStore.
Context `{Runtime}.
Variable secret : list Byte.byte.
Variable validate : GitHubEvent.t -> bool.

Lemma run_gate_refusal request e :
  Run.signature_gate secret request = Raise e ->
  status (respond (Raise e)) <> 201.
Proof.
  unfold Run.signature_gate, Run.verify_github_signature.
  destruct secret as [|b bs]; [discriminate|].
  destruct (headers request !! "X-Hub-Signature-256") as [h|].
  2:{ intros [= <-]. cbn. lia. }
  destruct (String.eqb h "").
  { intros [= <-]. cbn. lia. }
  rewrite unpack2_split1. destruct (contains "=" h); cbn.
  2:{ intros [= <-]. cbn. lia. }
  destruct (String.eqb (before "=" h) "sha256"); cbn.
  2:{ intros [= <-]. cbn. lia. }
  rewrite compare_digest_hexdigest.
  destruct (is_ascii (after "=" h)); cbn.
  2:{ intros [= <-]. cbn. lia. }
  destruct (String.eqb _ _); cbn; [discriminate|].
  intros [= <-]. cbn. lia.
Qed.

(** An ignored event is answered 200. *)
Lemma run_dispatch_ignored w header payload ignored :
  Run.dispatch w header payload = Ok (inl ignored) -> status ignored = 200.
Proof.
  unfold Run.dispatch.
  destruct (String.eqb header "push").
  { destruct (getitem payload "pusher") as [pusher|]; [|discriminate]. cbn.
    destruct (getitem pusher "name"); [|discriminate]. cbn.
    destruct (get payload "ref" (JStr "")) as [ref|]; [|discriminate]. cbn.
    destruct (startswith ref "refs/heads/") as [[|]|]; cbn; try discriminate.
    - destruct (replace ref _ _ _); cbn; [|discriminate].
      destruct (Run.head_commit_time w payload); discriminate.
    - destruct (Run.head_commit_time w payload); discriminate. }
  destruct (String.eqb header "pull_request").
  2:{ intros [= <-]. reflexivity. }
  destruct (get payload "action" (JStr "")) as [action|]; [|discriminate]. cbn.
  destruct (get payload "pull_request" (JObj [])) as [pr|]; [|discriminate]. cbn.
  destruct (eq_str action "opened").
  { destruct (getitem pr "user") as [user|]; [|discriminate]. cbn.
    destruct (getitem user "login"); [|discriminate]. cbn.
    destruct (getitem pr "head") as [head|]; [|discriminate]. cbn.
    destruct (getitem head "ref"); [|discriminate]. cbn.
    destruct (getitem pr "base") as [base|]; [|discriminate]. cbn.
    destruct (getitem base "ref"); [|discriminate]. cbn.
    destruct (get pr "created_at" JNull) as [stamp|]; [|discriminate]. cbn.
    destruct (Run.pr_time w stamp); discriminate. }
  destruct (if eq_str action "closed" then _ else _) as [[|]|]; cbn;
    try discriminate.
  - destruct (getitem pr "merged_by") as [user|]; [|discriminate]. cbn.
    destruct (getitem user "login"); [|discriminate]. cbn.
    destruct (getitem pr "head") as [head|]; [|discriminate]. cbn.
    destruct (getitem head "ref"); [|discriminate]. cbn.
    destruct (getitem pr "base") as [base|]; [|discriminate]. cbn.
    destruct (getitem base "ref"); [|discriminate]. cbn.
    destruct (get pr "merged_at" JNull) as [stamp|]; [|discriminate]. cbn.
    destruct (Run.pr_time w stamp); discriminate.
  - intros [= <-]. reflexivity.
Qed.

(** Either the delivery is not answered 201 and the collection is as
    before, or the dispatch prepared variables that pass the check of
    line 135 and exactly their document was inserted. *)
Lemma run_webhook_cases w db request :
  let out := Run.github_webhook secret validate w db request in
  (status (fst out) <> 201 /\ snd out = db)
  \/ exists v repo payload,
       json_body request = Some payload
       /\ Run.dispatch w (default "" (headers request !! "X-GitHub-Event")) payload
          = Ok (inr v)
       /\ Run.required_present v = true
       /\ out = (jsonify_msg ("Recorded " +:+ opt_str (Run.event_type v) +:+ " event") 201,
                 insert (Run.document w v repo payload) db).
Proof.
  unfold Run.github_webhook, Run.github_webhook_view.
  destruct (Run.signature_gate secret request) as [[]|e] eqn:Hgate.
  2:{ left. split; [|reflexivity]. eapply run_gate_refusal, Hgate. }
  cbn. unfold Run.parsed_payload.
  destruct (json_body request) as [payload|] eqn:Hbody.
  2:{ left. cbn. split; [lia | reflexivity]. }
  cbn. destruct (Run.repo_full payload) as [repo|e] eqn:Hrepo.
  2:{ left. cbn. apply run_repo_full_plain in Hrepo.
      destruct e; try discriminate; cbn; split; (lia || reflexivity). }
  cbn.
  destruct (Run.dispatch w _ payload) as [[ignored|v]|e] eqn:Hd; cbn.
  - left. split; [|reflexivity].
    rewrite (run_dispatch_ignored _ _ _ _ Hd). lia.
  - unfold Run.store.
    destruct (Run.required_present v) eqn:Hreq; cbn.
    2:{ left. split; [lia | reflexivity]. }
    unfold save.
    destruct (validate _); cbn; [|left; split; [lia | reflexivity]].
    destruct (db_up w); cbn; [|left; split; [lia | reflexivity]].
    right. exists v, repo, payload. auto.
  - left. apply run_dispatch_plain in Hd.
    destruct e; try discriminate; cbn; split; (lia || reflexivity).
Qed.

Lemma truthy_present x : truthy x = true -> x <> JNull /\ x <> JStr "".
Proof. intros Hx. split; intros ->; discriminate Hx. Qed.

Lemma run_document_ok w v repo payload :
  Run.required_present v = true -> Spec.record_ok (Run.document w v repo payload).
Proof.
  unfold Run.required_present, Spec.record_ok, Run.document. cbn.
  intros Hreq.
  apply andb_prop in Hreq as [Hreq Htime].
  apply andb_prop in Hreq as [Hreq Hto].
  apply andb_prop in Hreq as [Hkind Hauthor].
  apply truthy_present in Hauthor as [? ?], Hto as [? ?].
  destruct (Run.event_type v) as [kind|]; [|discriminate].
  destruct (Run.event_time v); [|discriminate].
  repeat split; try congruence.
  intros [= ->]. discriminate Hkind.
Qed.

End RunStore.

(** C6. Every persisted record carries an event type, an author, a target
    branch and a time, none of them null and none an empty string: the
    property holds of the collection after any sequence of deliveries when
    it held before. Variables that fail the check of line 135 are answered
    HTTP 400 with the collection untouched, whatever the document class
    would accept and whether or not the database answers: [save] is not
    reached. *)
Theorem C6_persisted_records_have_required_fields `{Runtime}
        (secret : list Byte.byte) (validate : GitHubEvent.t -> bool)
        (deliveries : list (world * request)) (db : collection GitHubEvent.t) :
  Forall (fun p => Spec.record_ok (snd p)) (documents db) ->
  Forall (fun p => Spec.record_ok (snd p))
         (documents (Run.serve secret validate deliveries db))
  /\ forall w request payload repo v,
       Run.signature_gate secret request = Ok () ->
       json_body request = Some payload ->
       Run.repo_full payload = Ok repo ->
       Run.dispatch w (default "" (headers request !! "X-GitHub-Event")) payload
       = Ok (inr v) ->
       Run.required_present v = false ->
       forall accepts t up,
         Run.github_webhook secret accepts (World (utcnow w) t up) db request
         = (Response 400 (Aborted "Missing required fields from payload"), db).
Proof.
  intros Hdb. split.
  - unfold Run.serve. revert db Hdb.
    induction deliveries as [|[w request] rest IH]; intros db Hdb; cbn [List.fold_left].
    + exact Hdb.
    + apply IH. cbn [fst snd].
      destruct (run_webhook_cases secret validate w db request)
        as [[_ ->] | (v & repo & payload & _ & _ & Hreq & ->)]; [exact Hdb|].
      cbn [snd insert documents]. apply Forall_app. split; [exact Hdb|].
      constructor; [|constructor]. cbn [snd]. apply run_document_ok, Hreq.
  - intros w request payload repo v Hgate Hbody Hrepo Hd Hreq accepts t up.
    rewrite (run_webhook_after_gates secret accepts _ db request payload repo)
      by assumption.
    rewrite run_dispatch_clock, Hd. unfold Run.store. rewrite Hreq. reflexivity.
Qed.

Lemma C6_persisted_records_have_required_fields_witness :
  Forall (fun p => Spec.record_ok (snd p))
         (documents
            (Run.serve (H := Reference.runtime) [] Reference.validate
               [ (Sample.world,
                  Sample.delivery "push"
                    (Sample.push "refs/heads/main" "2025-06-03T14:30:00Z"));
                 (Sample.world, Sample.delivery "push" Sample.push_without_ref) ]
               Sample.no_events))
  /\ Run.github_webhook (H := Reference.runtime) [] Reference.validate
       (World (utcnow Sample.world) 0 false) Sample.no_events
       (Sample.delivery "push" Sample.push_without_ref)
     = (Response 400 (Aborted "Missing required fields from payload"),
        Sample.no_events).
Proof.
  destruct (C6_persisted_records_have_required_fields (H := Reference.runtime) []
              Reference.validate
              [ (Sample.world,
                 Sample.delivery "push"
                   (Sample.push "refs/heads/main" "2025-06-03T14:30:00Z"));
                (Sample.world, Sample.delivery "push" Sample.push_without_ref) ]
              Sample.no_events (List.Forall_nil _)) as [Hkept Hrejected].
  split; [exact Hkept|].
  apply (Hrejected Sample.world (Sample.delivery "push" Sample.push_without_ref)
           Sample.push_without_ref (JStr "unknown/unknown")
           (Run.Locals (Some "push") (JStr "alice") JNull (JStr "")
                       (Some (utcnow Sample.world))));
    reflexivity.
Defined.

(** *** Saving *)

Section AppStore.
Context `{Runtime}.
Variable secret : list Byte.byte.

Lemma app_gate_refusal request e :
  App.signature_gate secret request = Raise e ->
  status (respond (Raise e)) <> 201.
Proof.
  unfold App.signature_gate, App.verify_github_signature.
  destruct secret as [|b bs]; [discriminate|].
  destruct (headers request !! "X-Hub-Signature-256") as [h|].
  2:{ intros [= <-]. cbn. lia. }
  rewrite unpack2_split1. destruct (contains "=" h); cbn.
  2:{ intros [= <-]. cbn. lia. }
  destruct (String.eqb (before "=" h) "sha256"); cbn.
  2:{ intros [= <-]. cbn. lia. }
  rewrite compare_digest_hexdigest.
  destruct (is_ascii (after "=" h)); cbn.
  2:{ intros [= <-]. cbn. lia. }
  destruct (String.eqb _ _); cbn; [discriminate|].
  intros [= <-]. cbn. lia.
Qed.

(** A recorded push is one insertion, stamped with the handler's clock. *)
Lemma app_record_push_inserts w db payload db' :
  App.record_push w db payload = Ok db' ->
  exists d, db' = insert d db /\ Models.pushed_at d = utcnow w.
Proof.
  unfold App.record_push.
  destruct (getitem payload "repository") as [repository|]; [|discriminate]. cbn.
  destruct (getitem repository "full_name"); [|discriminate]. cbn.
  destruct (getitem payload "pusher") as [pusher|]; [|discriminate]. cbn.
  destruct (getitem pusher "name"); [|discriminate]. cbn.
  destruct (getitem pusher "email"); [|discriminate]. cbn.
  destruct (getitem payload "ref") as [ref|]; [|discriminate]. cbn.
  destruct (replace ref _ _ _); [|discriminate]. cbn.
  destruct (get payload "commits" (JArr [])) as [raw|]; [|discriminate]. cbn.
  destruct (iter raw) as [items|]; [|discriminate]. cbn.
  destruct (mapM App.commit_doc items) as [docs|]; [|discriminate]. cbn.
  unfold save.
  destruct (Models.valid_push _); [|discriminate]. cbn.
  destruct (db_up w); [|discriminate]. cbn.
  intros [= <-]. eexists. split; reflexivity.
Qed.

Lemma app_webhook_cases w db request :
  let out := App.handle_github_webhook secret w db request in
  (status (fst out) <> 201 /\ snd out = db)
  \/ exists d, snd out = insert d db /\ Models.pushed_at d = utcnow w.
Proof.
  unfold App.handle_github_webhook, App.handle_github_webhook_view.
  destruct (App.signature_gate secret request) as [[]|e] eqn:Hgate.
  2:{ left. split; [|reflexivity]. eapply app_gate_refusal, Hgate. }
  cbn. unfold App.parsed_payload.
  destruct (json_body request) as [payload|].
  2:{ left. cbn. split; [lia | reflexivity]. }
  cbn. destruct (negb _).
  { left. cbn. split; [lia | reflexivity]. }
  destruct (App.record_push w db payload) as [db'|e] eqn:Hpush; cbn.
  - right. apply app_record_push_inserts in Hpush. exact Hpush.
  - left. apply app_record_push_plain in Hpush.
    destruct e; try discriminate; cbn; split; (lia || reflexivity).
Qed.

End AppStore.

Lemma insert_fresh {D} (d : D) (c : collection D) :
  Spec.fresh_ids c ->
  Forall (fun p => fst p <> next_oid c) (documents c) /\ Spec.fresh_ids (insert d c).
Proof.
  unfold Spec.fresh_ids. intros Hc. split.
  - eapply Forall_impl; [exact Hc|]. intros p Hp. cbn in *.
    unfold ObjectId in *. lia.
  - cbn. apply Forall_app. split.
    + eapply Forall_impl; [exact Hc|]. intros p Hp. cbn in *.
      unfold ObjectId in *. lia.
    + constructor; [cbn; unfold ObjectId; lia | constructor].
Qed.

(** C9. A delivery answered 201 persists exactly one record: the collection
    grows by one document, under an identifier no earlier document has, and
    the document's [received_at] is the clock at insertion. The event time
    [timestamp] comes from the dispatch, which reads neither that clock nor
    the database. A delivery answered otherwise leaves the collection as it
    was. The same holds of [PushEvent] in [app/app.py], whose record time
    [pushed_at] is the handler's clock. *)
Theorem C9_save_persists_one_record `{Runtime}
        (secret : list Byte.byte) (validate : GitHubEvent.t -> bool) (w : world)
        (db : collection GitHubEvent.t) (pdb : collection Models.PushEvent)
        (request : request) :
  Spec.fresh_ids db ->
  Spec.fresh_ids pdb ->
  let out := Run.github_webhook secret validate w db request in
  let pout := App.handle_github_webhook secret w pdb request in
  (status (fst out) = 201 ->
   exists d v payload,
     snd out = insert d db
     /\ documents (snd out) = (documents db ++ [(next_oid db, d)])%list
     /\ Forall (fun p => fst p <> next_oid db) (documents db)
     /\ Spec.fresh_ids (snd out)
     /\ GitHubEvent.received_at d = utcnow_at_insert w
     /\ GitHubEvent.timestamp d = Run.event_time v
     /\ json_body request = Some payload
     /\ forall t up,
          Run.dispatch (World (utcnow w) t up)
                       (default "" (headers request !! "X-GitHub-Event")) payload
          = Ok (inr v))
  /\ (status (fst out) <> 201 -> snd out = db)
  /\ (status (fst pout) = 201 ->
      exists d,
        snd pout = insert d pdb
        /\ documents (snd pout) = (documents pdb ++ [(next_oid pdb, d)])%list
        /\ Forall (fun p => fst p <> next_oid pdb) (documents pdb)
        /\ Spec.fresh_ids (snd pout)
        /\ Models.pushed_at d = utcnow w)
  /\ (status (fst pout) <> 201 -> snd pout = pdb).
Proof.
  intros Hdb Hpdb out pout.
  pose proof (run_webhook_cases secret validate w db request) as Hrun.
  pose proof (app_webhook_cases secret w pdb request) as Happ.
  fold out in Hrun. fold pout in Happ. cbv zeta in Hrun, Happ.
  split; [|split; [|split]].
  - intros Hstatus.
    destruct Hrun as [[Hno _] | (v & repo & payload & Hbody & Hd & _ & Hout)];
      [congruence|].
    exists (Run.document w v repo payload), v, payload.
    rewrite Hout. cbn [snd].
    destruct (insert_fresh (Run.document w v repo payload) db Hdb) as [Hnew Hall].
    repeat split; try assumption; try reflexivity.
    intros t up. rewrite run_dispatch_clock. exact Hd.
  - intros Hstatus.
    destruct Hrun as [[_ Hsame] | (v & repo & payload & _ & _ & _ & Hout)];
      [exact Hsame|].
    rewrite Hout in Hstatus. cbn in Hstatus. congruence.
  - intros Hstatus.
    destruct Happ as [[Hno _] | (d & Hout & Hat)]; [congruence|].
    exists d. rewrite Hout.
    destruct (insert_fresh d pdb Hpdb) as [Hnew Hall].
    repeat split; try assumption; reflexivity.
  - intros Hstatus.
    destruct Happ as [[_ Hsame] | (d & Hout & Hat)]; [exact Hsame|].
    exfalso. apply Hstatus. clear -Hout.
    revert Hout. unfold pout, App.handle_github_webhook, App.handle_github_webhook_view.
    clear pout.
    destruct (App.signature_gate secret request) as [[]|e]; cbn.
    2:{ intros Hins. apply (f_equal next_oid) in Hins. cbn in Hins.
        unfold ObjectId in *. lia. }
    unfold App.parsed_payload. destruct (json_body request) as [payload|]; cbn.
    2:{ intros Hins. apply (f_equal next_oid) in Hins. cbn in Hins.
        unfold ObjectId in *. lia. }
    destruct (negb _); cbn.
    { intros Hins. apply (f_equal next_oid) in Hins. cbn in Hins.
      unfold ObjectId in *. lia. }
    destruct (App.record_push w pdb payload) as [db'|e]; cbn; [reflexivity|].
    intros Hins. apply (f_equal next_oid) in Hins.
    destruct e; cbn in Hins; unfold ObjectId in *; lia.
Qed.

Lemma C9_save_persists_one_record_witness :
  exists d,
    snd (Run.github_webhook (H := Reference.runtime) [] Reference.validate Sample.world
           Sample.no_events
           (Sample.delivery "push" (Sample.push "refs/heads/main" "2025-06-03T14:30:00Z")))
    = insert d Sample.no_events
    /\ GitHubEvent.received_at d = utcnow_at_insert Sample.world
    /\ GitHubEvent.timestamp d = Some 1748961000000000.
Proof.
  destruct (C9_save_persists_one_record (H := Reference.runtime) [] Reference.validate
              Sample.world Sample.no_events Sample.no_pushes
              (Sample.delivery "push"
                 (Sample.push "refs/heads/main" "2025-06-03T14:30:00Z"))
              (List.Forall_nil _) (List.Forall_nil _)) as (Haccepted & _).
  destruct (Haccepted eq_refl)
    as (d & v & payload & Hout & _ & _ & _ & Hat & Htime & Hbody & Hdispatch).
  exists d. split; [exact Hout|]. split; [exact Hat|].
  rewrite Htime. specialize (Hdispatch 0 true).
  injection Hbody as <-.
  vm_compute in Hdispatch. injection Hdispatch as <-. reflexivity.
Defined.

(** *** Timestamps *)

Lemma replace_char_step (c : ascii) (rest new : string) :
  replace_from "Z" new None O (String c rest)
  = if Ascii.eqb "Z" c
    then new +:+ replace_from "Z" new None O rest
    else String c (replace_from "Z" new None O rest).
Proof.
  cbn [replace_from andb String.prefix String.length Nat.sub fmap option_fmap option_map].
  destruct (Ascii.eqb_spec "Z"%char c) as [<-|Hne].
  - destruct (ascii_dec "Z" "Z") as [_|Hn]; [|congruence].
    destruct rest; reflexivity.
  - destruct (ascii_dec "Z" c) as [He|_]; [congruence|]. reflexivity.
Qed.

Lemma string_app_assoc (a b c : string) : (a +:+ b) +:+ c = a +:+ (b +:+ c).
Proof.
  induction a as [|x a IH]; [reflexivity|].
  change (String x ((a +:+ b) +:+ c) = String x (a +:+ (b +:+ c))).
  rewrite IH. reflexivity.
Qed.

(** A trailing [Z] becomes a trailing [+00:00]. *)
Lemma str_replace_trailing_Z (body : string) :
  str_replace (body +:+ "Z") "Z" "+00:00" None
  = str_replace body "Z" "+00:00" None +:+ "+00:00".
Proof.
  unfold str_replace. induction body as [|c body IH].
  - reflexivity.
  - change (String c body +:+ "Z") with (String c (body +:+ "Z")).
    rewrite !replace_char_step, IH.
    destruct (Ascii.eqb "Z" c); [|reflexivity].
    rewrite string_app_assoc. reflexivity.
Qed.

(** The rule for malformed timestamps does not hold of [run.py]: a push
    whose head commit carries [not-a-date] is answered 500, not 400; a push
    whose head commit carries the empty string, which the parser rejects as
    well, is answered 201, and its record has the ingestion time for
    timestamp. *)
Lemma C7_malformed_timestamp_counterexample :
  ~ Spec.rejects_malformed_timestamp (H := Reference.runtime)
      (Run.github_webhook (H := Reference.runtime) [] Reference.validate Sample.world)
      Sample.no_events "refs/heads/main" "not-a-date"
  /\ ~ Spec.rejects_malformed_timestamp (H := Reference.runtime)
         (Run.github_webhook (H := Reference.runtime) [] Reference.validate
                             Sample.world)
         Sample.no_events "refs/heads/main" ""
  /\ ~ Spec.never_defaults_timestamp (H := Reference.runtime)
         (Run.github_webhook (H := Reference.runtime) [] Reference.validate
                             Sample.world)
         (utcnow Sample.world) "refs/heads/main" "".
Proof.
  split; [|split]; intros Hclaim.
  - unfold Spec.rejects_malformed_timestamp in Hclaim.
    specialize (Hclaim eq_refl). vm_compute in Hclaim. discriminate Hclaim.
  - unfold Spec.rejects_malformed_timestamp in Hclaim.
    specialize (Hclaim eq_refl). vm_compute in Hclaim. discriminate Hclaim.
  - unfold Spec.never_defaults_timestamp in Hclaim.
    specialize (Hclaim eq_refl). vm_compute in Hclaim.
    inversion Hclaim as [|d ds Hd Hds]. apply Hd. reflexivity.
Qed.

Lemma contains_app c a b : contains c (a +:+ b) = contains c a || contains c b.
Proof.
  unfold contains. induction a as [|x a IH]; [reflexivity|].
  change (String x a +:+ b) with (String x (a +:+ b)).
  cbn [list_ascii_of_string List.existsb]. rewrite IH. apply orb_assoc.
Qed.

(** No [Z] survives the replacement. *)
Lemma str_replace_no_Z (s : string) :
  contains "Z" (str_replace s "Z" "+00:00" None) = false.
Proof.
  unfold str_replace. induction s as [|c s IH]; [reflexivity|].
  rewrite replace_char_step.
  destruct (Ascii.eqb "Z" c) eqn:Hc.
  - rewrite contains_app, IH. reflexivity.
  - unfold contains in *. cbn [list_ascii_of_string List.existsb].
    rewrite IH, Ascii.eqb_sym, Hc. reflexivity.
Qed.

Lemma get_of_getitem x k d v : getitem x k = Ok v -> get x k d = Ok v.
Proof.
  destruct x; try discriminate. cbn.
  destruct (assoc k members); [auto | discriminate].
Qed.

Lemma path_two x a b v :
  Spec.path x [a; b] = Ok v -> exists y, getitem x a = Ok y /\ getitem y b = Ok v.
Proof.
  cbn. destruct (getitem x a) as [y|]; [|discriminate]. cbn.
  destruct (getitem y b) as [v'|] eqn:Hb; [|discriminate]. cbn.
  intros [= <-]. exists y. auto.
Qed.

Lemma path_three x a b c v :
  Spec.path x [a; b; c] = Ok v ->
  exists y z, getitem x a = Ok y /\ getitem y b = Ok z /\ getitem z c = Ok v.
Proof.
  cbn. destruct (getitem x a) as [y|]; [|discriminate]. cbn.
  destruct (getitem y b) as [z|] eqn:Hb; [|discriminate]. cbn.
  destruct (getitem z c) as [v'|] eqn:Hc; [|discriminate]. cbn.
  intros [= <-]. exists y, z. auto.
Qed.

Section Timestamps.
Context `{Runtime}.

(** The text handed to the parser is the string with its [Z]s replaced. *)
Lemma parse_timestamp_str stamp :
  parse_timestamp (JStr stamp)
  = match fromisoformat (str_replace stamp "Z" "+00:00" None) with
    | Some t => Ok t
    | None => Raise ValueError
    end.
Proof. reflexivity. Qed.

(** [created_at] and [merged_at]: an empty string is falsy. *)
Lemma run_pr_time_str w stamp :
  Run.pr_time w (JStr stamp)
  = if String.eqb stamp "" then Ok (utcnow w) else parse_timestamp (JStr stamp).
Proof.
  unfold Run.pr_time. cbn [truthy]. destruct (String.eqb stamp ""); reflexivity.
Qed.

(** [head_commit.timestamp] is read the same way. *)
Lemma run_head_commit_time_str w payload stamp :
  Spec.path payload ["head_commit"; "timestamp"] = Ok (JStr stamp) ->
  Run.head_commit_time w payload = Run.pr_time w (JStr stamp).
Proof.
  intros Hpath. apply path_two in Hpath as (head & Hhead & Hstamp).
  unfold Run.head_commit_time, Run.pr_time.
  rewrite (get_of_getitem _ _ (JObj []) _ Hhead). cbn [mbind result_bind Py.bind].
  destruct head as [| | | | | |members]; try discriminate Hstamp.
  assert (truthy (JObj members) = true) as ->.
  { destruct members; [discriminate Hstamp | reflexivity]. }
  rewrite (get_of_getitem _ _ JNull _ Hstamp). unfold fmap, result_fmap.
  cbn [mbind result_bind Py.bind].
  destruct (truthy (JStr stamp)); [|reflexivity].
  rewrite Hstamp. reflexivity.
Qed.

(** Where a delivery carries [stamp] in the field that its branch of the
    dispatch reads for the time, the dispatch ignores nothing, and the time
    it prepares is the one computed from [stamp]. *)
Lemma run_dispatch_stamped w header payload stamp :
  (header = "push"
   /\ Spec.path payload ["head_commit"; "timestamp"] = Ok (JStr stamp))
  \/ (header = "pull_request"
      /\ getitem payload "action" = Ok (JStr "opened")
      /\ Spec.path payload ["pull_request"; "created_at"] = Ok (JStr stamp))
  \/ (header = "pull_request"
      /\ getitem payload "action" = Ok (JStr "closed")
      /\ Spec.merged_true payload = true
      /\ Spec.path payload ["pull_request"; "merged_at"] = Ok (JStr stamp)) ->
  match Run.dispatch w header payload with
  | Ok (inr v) =>
      exists t, Run.pr_time w (JStr stamp) = Ok t /\ Run.event_time v = Some t
  | Ok (inl _) => False
  | Raise _ => True
  end.
Proof.
  intros [(-> & Hstamp) | [(-> & Haction & Hstamp) | (-> & Haction & Hmerged & Hstamp)]];
    unfold Run.dispatch; cbn [String.eqb Ascii.eqb Bool.eqb].
  - rewrite (run_head_commit_time_str w payload stamp Hstamp).
    destruct (getitem payload "pusher") as [pusher|]; [|exact I].
    cbn [mbind result_bind Py.bind].
    destruct (getitem pusher "name") as [name|]; [|exact I].
    cbn [mbind result_bind Py.bind].
    destruct (get payload "ref" (JStr "")) as [ref|]; [|exact I].
    cbn [mbind result_bind Py.bind].
    destruct (startswith ref "refs/heads/") as [[|]|]; [| |exact I];
      cbn [mbind result_bind Py.bind].
    + destruct (JStr <$> replace ref "refs/heads/" "" (Some 1%nat)) as [branch|];
        [|exact I].
      cbn [mbind result_bind Py.bind].
      destruct (Run.pr_time w (JStr stamp)) as [t|]; [|exact I].
      cbn [mbind result_bind Py.bind]. eauto.
    + destruct (Run.pr_time w (JStr stamp)) as [t|]; [|exact I].
      cbn [mbind result_bind Py.bind]. eauto.
  - apply path_two in Hstamp as (pr & Hpr & Hstamp).
    rewrite (get_of_getitem _ _ (JStr "") _ Haction),
      (get_of_getitem _ _ (JObj []) _ Hpr).
    cbn [mbind result_bind Py.bind eq_str String.eqb Ascii.eqb Bool.eqb].
    destruct (getitem pr "user") as [user|]; [|exact I].
    cbn [mbind result_bind Py.bind].
    destruct (getitem user "login") as [login|]; [|exact I].
    cbn [mbind result_bind Py.bind].
    destruct (getitem pr "head") as [head|]; [|exact I].
    cbn [mbind result_bind Py.bind].
    destruct (getitem head "ref") as [source|]; [|exact I].
    cbn [mbind result_bind Py.bind].
    destruct (getitem pr "base") as [base|]; [|exact I].
    cbn [mbind result_bind Py.bind].
    destruct (getitem base "ref") as [target|]; [|exact I].
    cbn [mbind result_bind Py.bind].
    rewrite (get_of_getitem _ _ JNull _ Hstamp). cbn [mbind result_bind Py.bind].
    destruct (Run.pr_time w (JStr stamp)) as [t|]; [|exact I].
    cbn [mbind result_bind Py.bind]. eauto.
  - apply path_two in Hstamp as (pr & Hpr & Hstamp).
    unfold Spec.merged_true in Hmerged.
    destruct (Spec.path payload ["pull_request"; "merged"]) as [merged|] eqn:Hpath;
      [|discriminate Hmerged].
    apply path_two in Hpath as (pr' & Hpr' & Hflag).
    rewrite Hpr in Hpr'. injection Hpr' as <-.
    rewrite (get_of_getitem _ _ (JStr "") _ Haction),
      (get_of_getitem _ _ (JObj []) _ Hpr).
    cbn [mbind result_bind Py.bind eq_str String.eqb Ascii.eqb Bool.eqb].
    rewrite (get_of_getitem _ _ JNull _ Hflag). unfold fmap, result_fmap.
    cbn [mbind result_bind Py.bind]. rewrite Hmerged.
    destruct (getitem pr "merged_by") as [user|]; [|exact I].
    cbn [mbind result_bind Py.bind].
    destruct (getitem user "login") as [login|]; [|exact I].
    cbn [mbind result_bind Py.bind].
    destruct (getitem pr "head") as [head|]; [|exact I].
    cbn [mbind result_bind Py.bind].
    destruct (getitem head "ref") as [source|]; [|exact I].
    cbn [mbind result_bind Py.bind].
    destruct (getitem pr "base") as [base|]; [|exact I].
    cbn [mbind result_bind Py.bind].
    destruct (getitem base "ref") as [target|]; [|exact I].
    cbn [mbind result_bind Py.bind].
    rewrite (get_of_getitem _ _ JNull _ Hstamp). cbn [mbind result_bind Py.bind].
    destruct (Run.pr_time w (JStr stamp)) as [t|]; [|exact I].
    cbn [mbind result_bind Py.bind]. eauto.
Qed.

(** With the fields read before it in place, the time of a push is that
    of [head_commit.timestamp], whatever the parser makes of it. *)
Lemma run_dispatch_push_time w payload name ref stamp e :
  Spec.path payload ["pusher"; "name"] = Ok name ->
  get payload "ref" (JStr "") = Ok (JStr ref) ->
  Spec.path payload ["head_commit"; "timestamp"] = Ok (JStr stamp) ->
  Run.pr_time w (JStr stamp) = Raise e ->
  Run.dispatch w "push" payload = Raise e.
Proof.
  intros Hname Href Hstamp Htime.
  apply path_two in Hname as (pusher & Hpusher & Hname).
  unfold Run.dispatch. cbn [String.eqb Ascii.eqb Bool.eqb].
  rewrite (run_head_commit_time_str w payload stamp Hstamp), Htime.
  rewrite Hpusher. cbn [mbind result_bind Py.bind].
  rewrite Hname. cbn [mbind result_bind Py.bind].
  rewrite Href. cbn [mbind result_bind Py.bind startswith].
  destruct (String.prefix "refs/heads/" ref); reflexivity.
Qed.

Lemma run_dispatch_opened_time w payload author source target stamp e :
  getitem payload "action" = Ok (JStr "opened") ->
  Spec.path payload ["pull_request"; "user"; "login"] = Ok author ->
  Spec.path payload ["pull_request"; "head"; "ref"] = Ok source ->
  Spec.path payload ["pull_request"; "base"; "ref"] = Ok target ->
  Spec.path payload ["pull_request"; "created_at"] = Ok (JStr stamp) ->
  Run.pr_time w (JStr stamp) = Raise e ->
  Run.dispatch w "pull_request" payload = Raise e.
Proof.
  intros Haction Hauthor Hsource Htarget Hstamp Htime.
  apply path_two in Hstamp as (pr & Hpr & Hstamp).
  apply path_three in Hauthor as (pr1 & user & Hpr1 & Huser & Hlogin).
  apply path_three in Hsource as (pr2 & head & Hpr2 & Hhead & Hsource).
  apply path_three in Htarget as (pr3 & base & Hpr3 & Hbase & Htarget).
  rewrite Hpr in Hpr1, Hpr2, Hpr3.
  injection Hpr1 as <-. injection Hpr2 as <-. injection Hpr3 as <-.
  unfold Run.dispatch. cbn [String.eqb Ascii.eqb Bool.eqb].
  rewrite (get_of_getitem _ _ (JStr "") _ Haction),
    (get_of_getitem _ _ (JObj []) _ Hpr).
  cbn [mbind result_bind Py.bind eq_str String.eqb Ascii.eqb Bool.eqb].
  rewrite Huser. cbn [mbind result_bind Py.bind].
  rewrite Hlogin. cbn [mbind result_bind Py.bind].
  rewrite Hhead. cbn [mbind result_bind Py.bind].
  rewrite Hsource. cbn [mbind result_bind Py.bind].
  rewrite Hbase. cbn [mbind result_bind Py.bind].
  rewrite Htarget. cbn [mbind result_bind Py.bind].
  rewrite (get_of_getitem _ _ JNull _ Hstamp). cbn [mbind result_bind Py.bind].
  rewrite Htime. reflexivity.
Qed.

Lemma run_dispatch_merged_time w payload author source target stamp e :
  getitem payload "action" = Ok (JStr "closed") ->
  Spec.merged_true payload = true ->
  Spec.path payload ["pull_request"; "merged_by"; "login"] = Ok author ->
  Spec.path payload ["pull_request"; "head"; "ref"] = Ok source ->
  Spec.path payload ["pull_request"; "base"; "ref"] = Ok target ->
  Spec.path payload ["pull_request"; "merged_at"] = Ok (JStr stamp) ->
  Run.pr_time w (JStr stamp) = Raise e ->
  Run.dispatch w "pull_request" payload = Raise e.
Proof.
  intros Haction Hmerged Hauthor Hsource Htarget Hstamp Htime.
  apply path_two in Hstamp as (pr & Hpr & Hstamp).
  apply path_three in Hauthor as (pr1 & user & Hpr1 & Huser & Hlogin).
  apply path_three in Hsource as (pr2 & head & Hpr2 & Hhead & Hsource).
  apply path_three in Htarget as (pr3 & base & Hpr3 & Hbase & Htarget).
  rewrite Hpr in Hpr1, Hpr2, Hpr3.
  injection Hpr1 as <-. injection Hpr2 as <-. injection Hpr3 as <-.
  unfold Spec.merged_true in Hmerged.
  destruct (Spec.path payload ["pull_request"; "merged"]) as [merged|] eqn:Hpath;
    [|discriminate Hmerged].
  apply path_two in Hpath as (pr' & Hpr' & Hflag).
  rewrite Hpr in Hpr'. injection Hpr' as <-.
  unfold Run.dispatch. cbn [String.eqb Ascii.eqb Bool.eqb].
  rewrite (get_of_getitem _ _ (JStr "") _ Haction),
    (get_of_getitem _ _ (JObj []) _ Hpr).
  cbn [mbind result_bind Py.bind eq_str String.eqb Ascii.eqb Bool.eqb].
  rewrite (get_of_getitem _ _ JNull _ Hflag). unfold fmap, result_fmap.
  cbn [mbind result_bind Py.bind]. rewrite Hmerged.
  rewrite Huser. cbn [mbind result_bind Py.bind].
  rewrite Hlogin. cbn [mbind result_bind Py.bind].
  rewrite Hhead. cbn [mbind result_bind Py.bind].
  rewrite Hsource. cbn [mbind result_bind Py.bind].
  rewrite Hbase. cbn [mbind result_bind Py.bind].
  rewrite Htarget. cbn [mbind result_bind Py.bind].
  rewrite (get_of_getitem _ _ JNull _ Hstamp). cbn [mbind result_bind Py.bind].
  rewrite Htime. reflexivity.
Qed.

(** Past the signature gate and the parse, an exception of the dispatch is
    answered 500, as is one of line 78 before it. *)
Lemma run_webhook_raise secret validate w db request payload e :
  Run.signature_gate secret request = Ok () ->
  json_body request = Some payload ->
  Run.dispatch w (default "" (headers request !! "X-GitHub-Event")) payload = Raise e ->
  exists e', Run.github_webhook secret validate w db request
             = (Response 500 (Unhandled e'), db).
Proof.
  intros Hgate Hbody Hd.
  destruct (Run.repo_full payload) as [repo|r] eqn:Hrepo.
  - exists e.
    rewrite (run_webhook_after_gates secret validate w db request payload repo)
      by assumption.
    rewrite Hd. reflexivity.
  - exists r.
    unfold Run.github_webhook, Run.github_webhook_view, Run.parsed_payload.
    rewrite Hgate, Hbody. cbn. rewrite Hrepo. cbn.
    apply run_repo_full_plain in Hrepo.
    destruct r; (discriminate || reflexivity).
Qed.

Lemma mapM_result_raise {A B} (f : A -> result B) good c rest ys e :
  mapM f good = Ok ys -> f c = Raise e -> mapM f (good ++ c :: rest) = Raise e.
Proof.
  intros Hgood Hc. revert ys Hgood.
  induction good as [|a good IH]; intros ys Hgood; cbn.
  - rewrite Hc. reflexivity.
  - cbn in Hgood. destruct (f a) as [b|]; [|discriminate Hgood]. cbn in Hgood |- *.
    destruct (mapM f good) as [bs|]; [|discriminate Hgood].
    rewrite (IH bs eq_refl). reflexivity.
Qed.

Lemma mapM_result_each {A B} (f : A -> result B) l ys c :
  mapM f l = Ok ys -> c ∈ l -> exists y, f c = Ok y.
Proof.
  intros Hl Hc. revert ys Hl.
  induction Hc as [c l|c a l Hc IH]; intros ys Hl; cbn in Hl.
  - destruct (f c) as [y|]; [eauto | discriminate Hl].
  - destruct (f a) as [b|]; [|discriminate Hl]. cbn in Hl.
    destruct (mapM f l) as [bs|]; [|discriminate Hl]. eauto.
Qed.

(** The commit whose timestamp the parser rejects raises [ValueError] once
    its [id] and [message] are found. *)
Lemma app_commit_doc_malformed c id message stamp :
  getitem c "id" = Ok id ->
  getitem c "message" = Ok message ->
  getitem c "timestamp" = Ok (JStr stamp) ->
  parse_timestamp (JStr stamp) = Raise ValueError ->
  App.commit_doc c = Raise ValueError.
Proof.
  intros Hid Hmessage Hstamp Hparse. unfold App.commit_doc.
  rewrite Hid. cbn [mbind result_bind Py.bind].
  rewrite Hmessage. cbn [mbind result_bind Py.bind].
  rewrite Hstamp. cbn [mbind result_bind Py.bind].
  rewrite Hparse. reflexivity.
Qed.

(** No commit with such a timestamp is turned into a document. *)
Lemma app_commit_doc_rejects c stamp :
  getitem c "timestamp" = Ok (JStr stamp) ->
  parse_timestamp (JStr stamp) = Raise ValueError ->
  forall doc, App.commit_doc c <> Ok doc.
Proof.
  intros Hstamp Hparse doc. unfold App.commit_doc.
  destruct (getitem c "id"); [|discriminate]. cbn [mbind result_bind Py.bind].
  destruct (getitem c "message"); [|discriminate]. cbn [mbind result_bind Py.bind].
  rewrite Hstamp. cbn [mbind result_bind Py.bind].
  rewrite Hparse. discriminate.
Qed.

Lemma app_record_push_rejects w pdb payload l c stamp :
  get payload "commits" (JArr []) = Ok (JArr l) ->
  c ∈ l ->
  getitem c "timestamp" = Ok (JStr stamp) ->
  parse_timestamp (JStr stamp) = Raise ValueError ->
  forall pdb', App.record_push w pdb payload <> Ok pdb'.
Proof.
  intros Hcommits Hc Hstamp Hparse pdb'. unfold App.record_push.
  destruct (getitem payload "repository") as [repository|]; [|discriminate].
  cbn [mbind result_bind Py.bind].
  destruct (getitem repository "full_name"); [|discriminate].
  cbn [mbind result_bind Py.bind].
  destruct (getitem payload "pusher") as [pusher|]; [|discriminate].
  cbn [mbind result_bind Py.bind].
  destruct (getitem pusher "name"); [|discriminate].
  cbn [mbind result_bind Py.bind].
  destruct (getitem pusher "email"); [|discriminate].
  cbn [mbind result_bind Py.bind].
  destruct (getitem payload "ref") as [ref|]; [|discriminate].
  cbn [mbind result_bind Py.bind].
  destruct (replace ref "refs/heads/" "" (Some 1%nat)); [|discriminate].
  cbn [mbind result_bind Py.bind].
  rewrite Hcommits. cbn [mbind result_bind Py.bind iter].
  destruct (mapM App.commit_doc l) as [docs|] eqn:Hdocs; [|discriminate].
  destruct (mapM_result_each _ _ _ _ Hdocs Hc) as (doc & Hdoc).
  exfalso. exact (app_commit_doc_rejects c stamp Hstamp Hparse doc Hdoc).
Qed.

End Timestamps.

(** C7, as the code has it. For every provider-supplied timestamp string,
    every [Z], so a trailing one in particular, is replaced by [+00:00],
    and the timestamp is what [datetime.fromisoformat] makes of the
    resulting text.

    [run.py]: of a delivery that passes the signature gate, whose body is
    JSON and which carries the string as the timestamp read for its event
    ([head_commit.timestamp] of a push, [pull_request.created_at] of an
    opened pull request, [pull_request.merged_at] of a closed pull request
    with [pull_request.merged == True]): when it is recorded (201), the
    record has the ingestion time for timestamp if the string is empty, an
    empty string being read as an absent one, and the parsed time
    otherwise; when the string is not empty and the parser rejects it, the
    delivery is answered HTTP 500 for an exception that nobody catches, and
    nothing is stored. That exception is the [ValueError] of the parser
    when line 78 and the fields read before the timestamp raise nothing.

    [app/app.py]: a push that passes the signature gate, whose body is JSON
    and one of whose commits carries a timestamp string that the parser
    rejects, the empty string included, is never recorded: it is answered
    400 or 500 and nothing is stored; it is answered 500 for the uncaught
    [ValueError] when everything read before that timestamp is in place,
    the [try] catching [KeyError] only. *)
Theorem C7_malformed_timestamp_is_500 `{Runtime}
        (secret : list Byte.byte) (validate : GitHubEvent.t -> bool) (w : world)
        (stamp : string) :
  let text := str_replace stamp "Z" "+00:00" None in
  (parse_timestamp (JStr stamp)
   = match fromisoformat text with Some t => Ok t | None => Raise ValueError end
   /\ contains "Z" text = false
   /\ str_replace (stamp +:+ "Z") "Z" "+00:00" None = text +:+ "+00:00")
  /\ (forall (db : collection GitHubEvent.t) (request : request) (payload : json),
        Run.signature_gate secret request = Ok () ->
        json_body request = Some payload ->
        let header := default "" (headers request !! "X-GitHub-Event") in
        let out := Run.github_webhook secret validate w db request in
        (header = "push"
         /\ Spec.path payload ["head_commit"; "timestamp"] = Ok (JStr stamp))
        \/ (header = "pull_request"
            /\ getitem payload "action" = Ok (JStr "opened")
            /\ Spec.path payload ["pull_request"; "created_at"] = Ok (JStr stamp))
        \/ (header = "pull_request"
            /\ getitem payload "action" = Ok (JStr "closed")
            /\ Spec.merged_true payload = true
            /\ Spec.path payload ["pull_request"; "merged_at"] = Ok (JStr stamp)) ->
        (status (fst out) = 201 ->
         exists d t,
           snd out = insert d db
           /\ GitHubEvent.timestamp d = Some t
           /\ if String.eqb stamp "" then t = utcnow w
              else fromisoformat text = Some t)
        /\ (stamp <> "" -> fromisoformat text = None ->
            exists e, out = (Response 500 (Unhandled e), db)))
  /\ (stamp <> "" -> fromisoformat text = None ->
      forall (db : collection GitHubEvent.t) (request : request) (payload repo : json),
        Run.signature_gate secret request = Ok () ->
        json_body request = Some payload ->
        Run.repo_full payload = Ok repo ->
        let header := default "" (headers request !! "X-GitHub-Event") in
        let out := Run.github_webhook secret validate w db request in
        (header = "push" ->
         forall name ref,
           Spec.path payload ["pusher"; "name"] = Ok name ->
           get payload "ref" (JStr "") = Ok (JStr ref) ->
           Spec.path payload ["head_commit"; "timestamp"] = Ok (JStr stamp) ->
           out = (Response 500 (Unhandled ValueError), db))
        /\ (header = "pull_request" ->
            forall author source target,
              getitem payload "action" = Ok (JStr "opened") ->
              Spec.path payload ["pull_request"; "user"; "login"] = Ok author ->
              Spec.path payload ["pull_request"; "head"; "ref"] = Ok source ->
              Spec.path payload ["pull_request"; "base"; "ref"] = Ok target ->
              Spec.path payload ["pull_request"; "created_at"] = Ok (JStr stamp) ->
              out = (Response 500 (Unhandled ValueError), db))
        /\ (header = "pull_request" ->
            forall author source target,
              getitem payload "action" = Ok (JStr "closed") ->
              Spec.merged_true payload = true ->
              Spec.path payload ["pull_request"; "merged_by"; "login"] = Ok author ->
              Spec.path payload ["pull_request"; "head"; "ref"] = Ok source ->
              Spec.path payload ["pull_request"; "base"; "ref"] = Ok target ->
              Spec.path payload ["pull_request"; "merged_at"] = Ok (JStr stamp) ->
              out = (Response 500 (Unhandled ValueError), db)))
  /\ (fromisoformat text = None ->
      forall (pdb : collection Models.PushEvent) (request : request) (payload : json),
        App.signature_gate secret request = Ok () ->
        json_body request = Some payload ->
        headers request !! "X-GitHub-Event" = Some "push" ->
        let out := App.handle_github_webhook secret w pdb request in
        (forall l c,
           get payload "commits" (JArr []) = Ok (JArr l) ->
           c ∈ l ->
           getitem c "timestamp" = Ok (JStr stamp) ->
           (status (fst out) = 400 \/ status (fst out) = 500) /\ snd out = pdb)
        /\ (forall full_name pusher_name pusher_email ref good docs c rest id message,
              Spec.path payload ["repository"; "full_name"] = Ok full_name ->
              Spec.path payload ["pusher"; "name"] = Ok pusher_name ->
              Spec.path payload ["pusher"; "email"] = Ok pusher_email ->
              getitem payload "ref" = Ok (JStr ref) ->
              get payload "commits" (JArr []) = Ok (JArr (good ++ c :: rest)) ->
              mapM App.commit_doc good = Ok docs ->
              getitem c "id" = Ok id ->
              getitem c "message" = Ok message ->
              getitem c "timestamp" = Ok (JStr stamp) ->
              out = (Response 500 (Unhandled ValueError), pdb))).
Proof.
  intros text.
  assert (Hparse : parse_timestamp (JStr stamp)
                   = match fromisoformat text with
                     | Some t => Ok t
                     | None => Raise ValueError
                     end) by reflexivity.
  assert (Htime : forall w', stamp <> "" -> fromisoformat text = None ->
                             Run.pr_time w' (JStr stamp) = Raise ValueError).
  { intros w' Hne Hbad. rewrite run_pr_time_str.
    destruct (String.eqb_spec stamp ""); [contradiction|].
    rewrite Hparse, Hbad. reflexivity. }
  split; [|split; [|split]].
  - split; [exact Hparse|].
    split; [apply str_replace_no_Z | apply str_replace_trailing_Z].
  - intros db request payload Hgate Hbody header out Hcase.
    pose proof (run_dispatch_stamped w header payload stamp Hcase) as Hstamped.
    split.
    + intros Hstatus.
      destruct (run_webhook_cases secret validate w db request)
        as [[Hother _] | (v & repo & payload' & Hbody' & Hd & _ & Hout)].
      { contradiction. }
      rewrite Hbody in Hbody'. injection Hbody' as <-.
      fold header in Hd. rewrite Hd in Hstamped.
      destruct Hstamped as (t & Ht & Hevent).
      exists (Run.document w v repo payload), t.
      split; [unfold out; rewrite Hout; reflexivity|].
      split; [exact Hevent|].
      rewrite run_pr_time_str in Ht.
      destruct (String.eqb stamp ""); [congruence|].
      rewrite Hparse in Ht. destruct (fromisoformat text); congruence.
    + intros Hne Hbad.
      destruct (Run.dispatch w header payload) as [[ignored|v]|e] eqn:Hd.
      * contradiction.
      * destruct Hstamped as (t & Ht & _). rewrite Htime in Ht by assumption.
        discriminate Ht.
      * apply (run_webhook_raise secret validate w db request payload e);
          assumption.
  - intros Hne Hbad db request payload repo Hgate Hbody Hrepo header out.
    assert (Hout : forall e, Run.dispatch w header payload = Raise e ->
                             out = (Response 500 (Unhandled e), db)).
    { intros e Hd. unfold out.
      rewrite (run_webhook_after_gates secret validate w db request payload repo)
        by assumption.
      fold header. rewrite Hd. reflexivity. }
    split; [|split].
    + intros Hheader name ref Hname Href Hstamp. apply Hout. rewrite Hheader.
      apply (run_dispatch_push_time w payload name ref stamp); auto.
    + intros Hheader author source target Haction Hauthor Hsource Htarget Hstamp.
      apply Hout. rewrite Hheader.
      apply (run_dispatch_opened_time w payload author source target stamp); auto.
    + intros Hheader author source target Haction Hmerged Hauthor Hsource Htarget
             Hstamp.
      apply Hout. rewrite Hheader.
      apply (run_dispatch_merged_time w payload author source target stamp); auto.
  - intros Hbad pdb request payload Hgate Hbody Hevent out.
    assert (Hrejected : parse_timestamp (JStr stamp) = Raise ValueError)
      by (rewrite Hparse, Hbad; reflexivity).
    assert (Hout : out = match App.record_push w pdb payload with
                         | Ok db' => (jsonify_msg "Push event recorded" 201, db')
                         | Raise (KeyError key) =>
                             (Response 400
                                (Aborted ("Missing expected field: '" +:+ key +:+ "'")),
                              pdb)
                         | Raise e => (Response 500 (Unhandled e), pdb)
                         end).
    { unfold out.
      rewrite (app_webhook_after_gates secret w pdb request payload) by assumption.
      rewrite Hevent. reflexivity. }
    split.
    + intros l c Hcommits Hc Hstamp.
      pose proof (app_record_push_rejects w pdb payload l c stamp
                    Hcommits Hc Hstamp Hrejected) as Hnever.
      rewrite Hout.
      destruct (App.record_push w pdb payload) as [pdb'|e];
        [exfalso; exact (Hnever pdb' eq_refl)|].
      destruct e; cbn; auto.
    + intros full_name pusher_name pusher_email ref good docs c rest id message
             Hfull Hpname Hpemail Href Hcommits Hgood Hid Hmessage Hstamp.
      apply path_two in Hfull as (repository & Hrepository & Hfull).
      apply path_two in Hpname as (pusher & Hpusher & Hpname).
      apply path_two in Hpemail as (pusher' & Hpusher' & Hpemail).
      rewrite Hpusher in Hpusher'. injection Hpusher' as <-.
      rewrite Hout. unfold App.record_push.
      rewrite Hrepository. cbn [mbind result_bind Py.bind].
      rewrite Hfull. cbn [mbind result_bind Py.bind].
      rewrite Hpusher. cbn [mbind result_bind Py.bind].
      rewrite Hpname. cbn [mbind result_bind Py.bind].
      rewrite Hpemail. cbn [mbind result_bind Py.bind].
      rewrite Href. cbn [mbind result_bind Py.bind replace].
      rewrite Hcommits. cbn [mbind result_bind Py.bind iter].
      rewrite (mapM_result_raise App.commit_doc good c rest docs ValueError Hgood
                 (app_commit_doc_malformed c id message stamp
                    Hid Hmessage Hstamp Hrejected)).
      reflexivity.
Qed.

Lemma C7_malformed_timestamp_is_500_witness :
  Run.github_webhook (H := Reference.runtime) [] Reference.validate Sample.world
    Sample.no_events
    (Sample.delivery "push" (Sample.push "refs/heads/main" "2025-13-03T14:30:00Z"))
  = (Response 500 (Unhandled ValueError), Sample.no_events)
  /\ Run.github_webhook (H := Reference.runtime) [] Reference.validate Sample.world
       Sample.no_events
       (Sample.delivery "pull_request" (Sample.opened_at "2025-13-03T14:30:00Z"))
     = (Response 500 (Unhandled ValueError), Sample.no_events)
  /\ Run.github_webhook (H := Reference.runtime) [] Reference.validate Sample.world
       Sample.no_events
       (Sample.delivery "pull_request" (Sample.merged_at "2025-13-03T14:30:00Z"))
     = (Response 500 (Unhandled ValueError), Sample.no_events)
  /\ App.handle_github_webhook (H := Reference.runtime) [] Sample.world
       Sample.no_pushes
       (Sample.delivery "push" (Sample.push_of_commit "2025-13-03T14:30:00Z"))
     = (Response 500 (Unhandled ValueError), Sample.no_pushes).
Proof.
  pose proof (C7_malformed_timestamp_is_500 (H := Reference.runtime) []
                Reference.validate Sample.world "2025-13-03T14:30:00Z") as Hclaim.
  cbv zeta in Hclaim. destruct Hclaim as (_ & _ & Hrun & Happ).
  specialize (Hrun ltac:(discriminate) eq_refl).
  specialize (Happ eq_refl).
  split; [|split; [|split]].
  - destruct (Hrun Sample.no_events
                (Sample.delivery "push"
                   (Sample.push "refs/heads/main" "2025-13-03T14:30:00Z"))
                (Sample.push "refs/heads/main" "2025-13-03T14:30:00Z") (JStr "o/r")
                eq_refl eq_refl eq_refl) as (Hpush & _ & _).
    apply (Hpush eq_refl (JStr "alice") "refs/heads/main"); reflexivity.
  - destruct (Hrun Sample.no_events
                (Sample.delivery "pull_request"
                   (Sample.opened_at "2025-13-03T14:30:00Z"))
                (Sample.opened_at "2025-13-03T14:30:00Z") (JStr "o/r")
                eq_refl eq_refl eq_refl) as (_ & Hopened & _).
    apply (Hopened eq_refl (JStr "carol") (JStr "feature") (JStr "main"));
      reflexivity.
  - destruct (Hrun Sample.no_events
                (Sample.delivery "pull_request"
                   (Sample.merged_at "2025-13-03T14:30:00Z"))
                (Sample.merged_at "2025-13-03T14:30:00Z") (JStr "o/r")
                eq_refl eq_refl eq_refl) as (_ & _ & Hmerged).
    apply (Hmerged eq_refl (JStr "bob") (JStr "feature") (JStr "main"));
      reflexivity.
  - destruct (Happ Sample.no_pushes
                (Sample.delivery "push"
                   (Sample.push_of_commit "2025-13-03T14:30:00Z"))
                (Sample.push_of_commit "2025-13-03T14:30:00Z")
                eq_refl eq_refl eq_refl) as (_ & Hcommit).
    apply (Hcommit (JStr "o/r") (JStr "alice") (JStr "alice@example.com")
                   "refs/heads/main" [] []
                   (JObj [ ("id", JStr "1f0c");
                           ("message", JStr "fix");
                           ("timestamp", JStr "2025-13-03T14:30:00Z");
                           ("url", JStr "https://example.com/c/1f0c");
                           ("author", JObj [("name", JStr "alice");
                                            ("email", JStr "alice@example.com")]) ])
                   [] (JStr "1f0c") (JStr "fix"));
      reflexivity.
Defined.

(** *** Listing *)

Section Ordering.
Context {D : Type} (key : D -> option datetime).

Lemma date_leb_total a b : date_leb a b = true \/ date_leb b a = true.
Proof.
  destruct a as [x|], b as [y|]; cbn; auto.
  destruct (Z.leb_spec x y), (Z.leb_spec y x); auto. lia.
Qed.

Lemma date_leb_trans a b c :
  date_leb a b = true -> date_leb b c = true -> date_leb a c = true.
Proof.
  destruct a as [x|], b as [y|], c as [z|]; cbn; try congruence.
  rewrite !Z.leb_le. lia.
Qed.

Lemma later_total : Total (later key).
Proof. intros x y. unfold later. apply date_leb_total. Qed.

Lemma later_trans : Transitive (later key).
Proof. intros x y z Hxy Hyz. unfold later in *. eapply date_leb_trans; eauto. Qed.

#[local] Existing Instance later_total.
#[local] Existing Instance later_trans.

(** The query [order_by("-key")] returns the documents of the collection,
    each once, latest first. *)
Lemma order_by_desc_sorted (c : collection D) :
  order_by_desc key c ≡ₚ documents c
  /\ StronglySorted (later key) (order_by_desc key c).
Proof.
  unfold order_by_desc. split.
  - apply merge_sort_Permutation.
  - apply StronglySorted_merge_sort; apply _.
Qed.

(** The first [n] of them are the [n] most recent: none that is left out
    is later than one that is kept. *)
Lemma order_by_desc_most_recent (c : collection D) (n : nat) kept left_out :
  kept ∈ List.firstn n (order_by_desc key c) ->
  left_out ∈ List.skipn n (order_by_desc key c) ->
  later key kept left_out.
Proof.
  intros Hkept Hleft.
  destruct (order_by_desc_sorted c) as [_ Hsorted].
  rewrite <- (List.firstn_skipn n (order_by_desc key c)) in Hsorted.
  eapply StronglySorted_app_1_elem_of; eauto.
Qed.

End Ordering.

(** [run.py] lists the [n] most recent events, latest first, for every
    positive limit that a 64-bit integer holds; an absent limit and one that
    [int] rejects are 20. *)
Lemma run_list_events_most_recent `{Runtime} (db : collection GitHubEvent.t)
      (request : request) (n : Z) :
  Run.requested_limit request = Ok n ->
  0 < n < 2 ^ 63 ->
  let sorted := order_by_desc GitHubEvent.timestamp db in
  Run.selected_events db n = Ok (List.firstn (Z.to_nat n) sorted)
  /\ sorted ≡ₚ documents db
  /\ StronglySorted (later GitHubEvent.timestamp) sorted
  /\ forall kept left_out,
       kept ∈ List.firstn (Z.to_nat n) sorted ->
       left_out ∈ List.skipn (Z.to_nat n) sorted ->
       later GitHubEvent.timestamp kept left_out.
Proof.
  intros _ Hn sorted. split; [|split; [|split]].
  - unfold Run.selected_events, Mongo.limit. fold sorted.
    destruct (Z.leb_spec n (- 2 ^ 63)); [lia|].
    destruct (Z.leb_spec (2 ^ 63) n); [lia|].
    destruct (Z.ltb_spec 0 n); [reflexivity | lia].
  - apply order_by_desc_sorted.
  - apply order_by_desc_sorted.
  - intros kept left_out. apply order_by_desc_most_recent.
Qed.

Lemma run_requested_limit_default `{Runtime} (request : request) :
  match args request !! "limit" with
  | None => True
  | Some text => py_int text = None
  end ->
  Run.requested_limit request = Ok 20.
Proof.
  unfold Run.requested_limit.
  destruct (args request !! "limit") as [text|]; [|reflexivity].
  intros ->. reflexivity.
Qed.

(** A limit of zero or below is answered 200 by [run.py] when the
    collection satisfies the invariant of the stored records. *)
Lemma run_list_events_nonpositive `{Runtime} (db : collection GitHubEvent.t)
      (request : request) (n : Z) :
  Run.requested_limit request = Ok n ->
  - 2 ^ 63 < n <= 0 ->
  Forall (fun p => GitHubEvent.timestamp (snd p) <> None) (documents db) ->
  status (Run.list_events db request) = 200.
Proof.
  intros Hlimit Hn Hstamped. unfold Run.list_events. rewrite Hlimit. cbn.
  unfold Run.selected_events, Mongo.limit.
  destruct (Z.leb_spec n (- 2 ^ 63)); [lia|].
  destruct (Z.leb_spec (2 ^ 63) n); [lia|].
  destruct (Z.ltb_spec 0 n); [lia|]. cbn.
  assert (Hall : forall events : list (ObjectId * GitHubEvent.t),
             Forall (fun p => GitHubEvent.timestamp (snd p) <> None) events ->
             exists out, mapM Run.event_json events = Ok out).
  { induction 1 as [|ev events Hev _ [out IH]].
    - eexists. reflexivity.
    - change (mapM Run.event_json (ev :: events))
        with (y ← Run.event_json ev; k ← mapM Run.event_json events; mret (y :: k)).
      rewrite IH. unfold Run.event_json.
      destruct (GitHubEvent.timestamp (snd ev)); [|congruence].
      eexists. reflexivity. }
  assert (Hsorted : Forall (fun p => GitHubEvent.timestamp (snd p) <> None)
                           (order_by_desc GitHubEvent.timestamp db)).
  { unfold order_by_desc. rewrite merge_sort_Permutation. exact Hstamped. }
  destruct (limit_nonpositive n) as [k|]; cbn.
  - destruct (Hall (List.firstn k (order_by_desc GitHubEvent.timestamp db)))
      as [out Hout].
    { apply Forall_take. exact Hsorted. }
    rewrite Hout. reflexivity.
  - destruct (Hall _ Hsorted) as [out Hout]. rewrite Hout. reflexivity.
Qed.

(** C8. A limit that [int] rejects is to default to 20. [run.py] catches
    the [ValueError] and lists with 20; [app/app.py] converts the parameter
    outside any [try], so that the request is answered HTTP 500. *)
Theorem C8_app_non_numeric_limit_is_500 `{Runtime}
        (pdb : collection Models.PushEvent) (request : request) (text : string) :
  args request !! "limit" = Some text ->
  py_int text = None ->
  App.list_events pdb request = Response 500 (Unhandled ValueError)
  /\ Run.requested_limit request = Ok 20.
Proof.
  intros Harg Hint. split.
  - unfold App.list_events, App.requested_limit. rewrite Harg, Hint. reflexivity.
  - apply run_requested_limit_default. rewrite Harg. exact Hint.
Qed.

Lemma C8_app_non_numeric_limit_is_500_witness :
  App.list_events (H := Reference.runtime) Sample.no_pushes (Sample.listing "abc")
  = Response 500 (Unhandled ValueError)
  /\ Run.requested_limit (H := Reference.runtime) (Sample.listing "abc") = Ok 20.
Proof.
  apply (C8_app_non_numeric_limit_is_500 (H := Reference.runtime) Sample.no_pushes
           (Sample.listing "abc") "abc"); reflexivity.
Defined.

(** *** Test vectors *)

Example round_constants_ends :
  List.length SHA256.round_constants = 64%nat
  /\ List.nth 0 SHA256.round_constants 0 = 0x428a2f98
  /\ List.nth 63 SHA256.round_constants 0 = 0xc67178f2
  /\ List.nth 0 SHA256.initial_hash 0 = 0x6a09e667
  /\ List.nth 7 SHA256.initial_hash 0 = 0x5be0cd19.
Proof. vm_compute. repeat split; reflexivity. Qed.

Example sha256_abc :
  HMAC.hex (SHA256.digest (HMAC.bytes_of (utf8 "abc")))
  = "ba7816bf8f01cfea414140de5dae2223b00361a396177a9cb410ff61f20015ad".
Proof. vm_compute. reflexivity. Qed.

Example sha256_empty :
  HMAC.hex (SHA256.digest [])
  = "e3b0c44298fc1c149afbf4c8996fb92427ae41e4649b934ca495991b7852b855".
Proof. vm_compute. reflexivity. Qed.

Example hmac_rfc4231_case2 :
  HMAC.hexdigest (utf8 "Jefe") (utf8 "what do ya want for nothing?")
  = "5bdcc146bf60754e6a042426089575c75a003f089d2739839dec58b964ec3843".
Proof. vm_compute. reflexivity. Qed.

(** Section 8: with secret [s] and body [{}], the accepted header is
    [sha256=] followed by the digest; the same digest with its last bit
    flipped is refused. *)
Example signature_of_empty_object :
  Run.signature_gate (utf8 "s")
    (Sample.signed "sha256=143ca8d517ba1b181025d732b1cf275d90104fca57bb02a565542978aa18c4b6"
                   "push" (JObj []))
  = Ok ()
  /\ Run.signature_gate (utf8 "s")
       (Sample.signed "sha256=143ca8d517ba1b181025d732b1cf275d90104fca57bb02a565542978aa18c4b7"
                      "push" (JObj []))
     = abort 400 "Invalid signature".
Proof. split; vm_compute; reflexivity. Qed.

(** Section 8: the push of alice to [main]. *)
Example push_of_alice :
  Run.github_webhook (H := Reference.runtime) [] Reference.validate Sample.world
    Sample.no_events
    (Sample.delivery "push" (Sample.push "refs/heads/main" "2025-06-03T14:30:00Z"))
  = (jsonify_msg "Recorded push event" 201,
     Collection
       [ (0, GitHubEvent.Make (Some "push") (JStr "alice") JNull (JStr "main")
               (Some 1748961000000000) (JStr "o/r")
               (Reference.render false
                  (Sample.push "refs/heads/main" "2025-06-03T14:30:00Z"))
               1748961000250000) ]
       1).
Proof. vm_compute. reflexivity. Qed.

(** *** More on the signature gate *)

Lemma run_signature_gate_refines_witness :
  Spec.shown_as
    (Spec.signature_verdict (utf8 "s")
       (headers (Sample.signed "sha256=00" "push" (JObj [])) !! "X-Hub-Signature-256")
       (data (Sample.signed "sha256=00" "push" (JObj []))))
    (Run.signature_gate (utf8 "s") (Sample.signed "sha256=00" "push" (JObj []))).
Proof.
  exact (run_signature_gate_refines (utf8 "s")
           (Sample.signed "sha256=00" "push" (JObj [])) eq_refl).
Defined.

Lemma before_after c h :
  contains c h = true -> h = before c h +:+ String c (after c h).
Proof.
  unfold contains. induction h as [|a rest IH]; [discriminate|].
  cbn [list_ascii_of_string List.existsb before after].
  destruct (Ascii.eqb_spec a c) as [->|Hne]; [reflexivity|].
  cbn [orb]. intros Hin.
  change (String a rest = String a (before c rest +:+ String c (after c rest))).
  rewrite <- (IH Hin). reflexivity.
Qed.

(** Under a secret, [run.py] lets a delivery through exactly when its
    signature header is [sha256=] followed by the hexadecimal HMAC-SHA256 of
    the raw body under that secret. *)
Theorem run_signature_gate_accepts_iff (secret : list Byte.byte) (request : request) :
  secret <> [] ->
  Run.signature_gate secret request = Ok ()
  <-> headers request !! "X-Hub-Signature-256"
      = Some ("sha256=" +:+ HMAC.hexdigest secret (data request)).
Proof.
  intros Hsecret.
  unfold Run.signature_gate, Run.verify_github_signature.
  destruct secret as [|b bs]; [congruence|]. clear Hsecret.
  set (key := b :: bs).
  destruct (headers request !! "X-Hub-Signature-256") as [h|]; [|split; discriminate].
  split.
  - destruct (String.eqb h ""); [discriminate|].
    rewrite unpack2_split1.
    destruct (contains "=" h) eqn:Hsep; [|discriminate]. cbn.
    destruct (String.eqb_spec (before "=" h) "sha256") as [Hname|]; [|discriminate].
    cbn. rewrite compare_digest_hexdigest.
    destruct (is_ascii (after "=" h)); [|discriminate]. cbn.
    destruct (String.eqb_spec (HMAC.hexdigest key (data request)) (after "=" h))
      as [Hdigest|]; [|discriminate].
    intros _. rewrite (before_after "=" h Hsep), Hname, <- Hdigest. reflexivity.
  - intros [= ->].
    change (String.eqb ("sha256=" +:+ HMAC.hexdigest key (data request)) "")
      with false.
    rewrite unpack2_split1.
    change (contains "=" ("sha256=" +:+ HMAC.hexdigest key (data request)))
      with true.
    change (before "=" ("sha256=" +:+ HMAC.hexdigest key (data request)))
      with "sha256".
    change (after "=" ("sha256=" +:+ HMAC.hexdigest key (data request)))
      with (HMAC.hexdigest key (data request)).
    cbn. rewrite compare_digest_hexdigest, hexdigest_ascii. cbn.
    rewrite String.eqb_refl. reflexivity.
Qed.

Lemma run_signature_gate_accepts_iff_witness :
  Run.signature_gate (utf8 "s")
    (Sample.signed "sha256=143ca8d517ba1b181025d732b1cf275d90104fca57bb02a565542978aa18c4b6"
                   "push" (JObj []))
  = Ok ().
Proof.
  apply (run_signature_gate_accepts_iff (utf8 "s")
           (Sample.signed
              "sha256=143ca8d517ba1b181025d732b1cf275d90104fca57bb02a565542978aa18c4b6"
              "push" (JObj []))).
  - discriminate.
  - vm_compute. reflexivity.
Defined.

(** The two applications let the same deliveries through their signature
    gates: they differ only in how they refuse. *)
Theorem gates_accept_the_same (secret : list Byte.byte) (request : request) :
  Run.signature_gate secret request = Ok ()
  <-> App.signature_gate secret request = Ok ().
Proof.
  split; [apply app_gate_of_run_gate|].
  unfold Run.signature_gate, App.signature_gate,
    Run.verify_github_signature, App.verify_github_signature.
  destruct secret as [|b bs]; [reflexivity|].
  destruct (headers request !! "X-Hub-Signature-256") as [h|]; [|discriminate].
  rewrite unpack2_split1.
  destruct (contains "=" h) eqn:Hsep; [|discriminate].
  destruct (String.eqb_spec h "") as [->|_]; [discriminate Hsep|].
  cbn. destruct (String.eqb (before "=" h) "sha256"); [|discriminate].
  cbn. intros Happ. exact Happ.
Qed.

(** A digest part with a character outside ASCII is not refused with 400:
    [hmac.compare_digest] raises [TypeError], and both applications answer
    HTTP 500. Nothing is stored. *)
Theorem non_ascii_digest_is_500 `{Runtime}
        (secret : list Byte.byte) (validate : GitHubEvent.t -> bool) (w : world)
        (db : collection GitHubEvent.t) (pdb : collection Models.PushEvent)
        (request : request) (h : string) :
  secret <> [] ->
  headers request !! "X-Hub-Signature-256" = Some h ->
  contains "=" h = true ->
  before "=" h = "sha256" ->
  is_ascii (after "=" h) = false ->
  Run.github_webhook secret validate w db request
  = (Response 500 (Unhandled TypeError), db)
  /\ App.handle_github_webhook secret w pdb request
     = (Response 500 (Unhandled TypeError), pdb).
Proof.
  intros Hsecret Hh Hsep Hname Hascii. split.
  - unfold Run.github_webhook, Run.github_webhook_view.
    rewrite (run_signature_gate_non_ascii secret request h) by assumption.
    reflexivity.
  - unfold App.handle_github_webhook, App.handle_github_webhook_view,
      App.signature_gate, App.verify_github_signature.
    destruct secret as [|b bs]; [congruence|].
    rewrite Hh, unpack2_split1, Hsep. cbn. rewrite Hname. cbn.
    rewrite compare_digest_hexdigest, Hascii. reflexivity.
Qed.

Lemma non_ascii_digest_is_500_witness :
  Run.github_webhook (H := Reference.runtime) (utf8 "s") Reference.validate
    Sample.world Sample.no_events
    (Sample.signed ("sha256=" +:+ String (ascii_of_nat 233) "") "push" (JObj []))
  = (Response 500 (Unhandled TypeError), Sample.no_events)
  /\ App.handle_github_webhook (H := Reference.runtime) (utf8 "s") Sample.world
       Sample.no_pushes
       (Sample.signed ("sha256=" +:+ String (ascii_of_nat 233) "") "push" (JObj []))
     = (Response 500 (Unhandled TypeError), Sample.no_pushes).
Proof.
  apply (non_ascii_digest_is_500 (H := Reference.runtime) (utf8 "s")
           Reference.validate Sample.world Sample.no_events Sample.no_pushes
           (Sample.signed ("sha256=" +:+ String (ascii_of_nat 233) "") "push" (JObj []))
           ("sha256=" +:+ String (ascii_of_nat 233) ""));
    [discriminate | reflexivity | reflexivity | reflexivity | reflexivity].
Defined.

(** Without a secret the signature header plays no part: whatever it is set
    to, both applications answer a delivery as they answer it without. *)
Theorem unsigned_mode_ignores_signature `{Runtime}
        (validate : GitHubEvent.t -> bool) (w : world)
        (db : collection GitHubEvent.t) (pdb : collection Models.PushEvent)
        (request : request) (h : string) :
  Run.github_webhook [] validate w db (with_header "X-Hub-Signature-256" h request)
  = Run.github_webhook [] validate w db request
  /\ App.handle_github_webhook [] w pdb (with_header "X-Hub-Signature-256" h request)
     = App.handle_github_webhook [] w pdb request.
Proof.
  assert (Hevent : headers (with_header "X-Hub-Signature-256" h request)
                     !! "X-GitHub-Event"
                   = headers request !! "X-GitHub-Event").
  { unfold with_header. cbn [headers]. apply lookup_insert_ne. discriminate. }
  split.
  - unfold Run.github_webhook, Run.github_webhook_view, Run.signature_gate,
      Run.parsed_payload.
    rewrite Hevent. reflexivity.
  - unfold App.handle_github_webhook, App.handle_github_webhook_view,
      App.signature_gate, App.parsed_payload.
    rewrite Hevent. reflexivity.
Qed.

(** *** More on the dispatch of [run.py] *)

Ltac walk :=
  repeat match goal with
         | |- mbind _ ?m = _ -> _ =>
             destruct m as [?|?] eqn:?;
             cbn [mbind result_bind Py.bind]; [|discriminate]
         end.

(** The time of a push is the clock when the payload has no head commit, a
    null or empty one, or one without a truthy timestamp (as on the deletion
    of a branch); otherwise it is parsed from [head_commit.timestamp]. *)
Theorem run_head_commit_time_cases `{Runtime} (w : world) (payload head : json) :
  get payload "head_commit" (JObj []) = Ok head ->
  (truthy head = false -> Run.head_commit_time w payload = Ok (utcnow w))
  /\ (forall stamp,
        get head "timestamp" JNull = Ok stamp ->
        Run.head_commit_time w payload
        = if truthy stamp then parse_timestamp stamp else Ok (utcnow w)).
Proof.
  intros Hhead. unfold Run.head_commit_time. rewrite Hhead.
  cbn [mbind result_bind Py.bind]. split.
  - intros ->. reflexivity.
  - intros stamp Hstamp.
    destruct head as [| | | | | |members]; try discriminate Hstamp.
    cbn [get getitem] in Hstamp |- *.
    destruct (assoc "timestamp" members) as [found|] eqn:Hfound.
    + injection Hstamp as ->.
      destruct members as [|member members]; [discriminate Hfound|].
      cbn [truthy]. unfold fmap, result_fmap.
      cbn [mbind result_bind Py.bind].
      destruct (truthy stamp); reflexivity.
    + injection Hstamp as <-.
      destruct members as [|member members]; reflexivity.
Qed.

Lemma run_head_commit_time_cases_witness :
  Run.head_commit_time (H := Reference.runtime) Sample.world
    (JObj [("ref", JStr "refs/heads/old"); ("head_commit", JNull)])
  = Ok (utcnow Sample.world).
Proof.
  destruct (run_head_commit_time_cases (H := Reference.runtime) Sample.world
              (JObj [("ref", JStr "refs/heads/old"); ("head_commit", JNull)])
              JNull eq_refl) as [Hnull _].
  apply Hnull. reflexivity.
Defined.

(** A push is normalised exactly when [pusher.name] is there, [ref] is a
    string (or absent, read as empty) and the time of the head commit can
    be had; the record then has the pusher as author, no source branch, and
    as target branch the ref without a leading [refs/heads/]. *)
Theorem run_push_record `{Runtime} (w : world) (payload : json)
        (out : response + Run.locals) :
  Run.dispatch w "push" payload = Ok out
  <-> exists author ref time,
        Spec.path payload ["pusher"; "name"] = Ok author
        /\ get payload "ref" (JStr "") = Ok (JStr ref)
        /\ Run.head_commit_time w payload = Ok time
        /\ out = inr (Run.Locals (Some "push") author JNull
                                 (JStr (Spec.strip_prefix "refs/heads/" ref))
                                 (Some time)).
Proof.
  assert (Hbranch : forall ref,
             (is_head ← startswith (JStr ref) "refs/heads/";
              if is_head : bool
              then JStr <$> replace (JStr ref) "refs/heads/" "" (Some 1%nat)
              else Ok (JStr ref))
             = Ok (JStr (Spec.strip_prefix "refs/heads/" ref))).
  { intros ref. unfold Spec.strip_prefix.
    cbn [startswith mbind result_bind Py.bind].
    destruct (String.prefix "refs/heads/" ref) eqn:Hpre; [|reflexivity].
    cbn [replace]. unfold fmap, result_fmap.
    rewrite (str_replace_prefix "refs/heads/" ref) by (discriminate || exact Hpre).
    reflexivity. }
  unfold Run.dispatch. cbn [String.eqb Ascii.eqb Bool.eqb].
  split.
  - destruct (getitem payload "pusher") as [pusher|] eqn:Hpusher;
      cbn [mbind result_bind Py.bind]; [|discriminate].
    destruct (getitem pusher "name") as [author|] eqn:Hname;
      cbn [mbind result_bind Py.bind]; [|discriminate].
    destruct (get payload "ref" (JStr "")) as [refv|] eqn:Href;
      cbn [mbind result_bind Py.bind]; [|discriminate].
    destruct refv as [| | | |ref| |];
      try (cbn [startswith mbind result_bind Py.bind]; discriminate).
    specialize (Hbranch ref).
    destruct (startswith (JStr ref) "refs/heads/") as [is_head|];
      cbn [mbind result_bind Py.bind] in Hbranch |- *; [|discriminate].
    rewrite Hbranch. cbn [mbind result_bind Py.bind].
    destruct (Run.head_commit_time w payload) as [time|];
      cbn [mbind result_bind Py.bind]; [|discriminate].
    intros [= <-]. exists author, ref, time.
    split; [|auto].
    cbn [Spec.path]. rewrite Hpusher. cbn [mbind result_bind Py.bind].
    rewrite Hname. reflexivity.
  - intros (author & ref & time & Hauthor & Href & Htime & ->).
    cbn [Spec.path] in Hauthor.
    destruct (getitem payload "pusher") as [pusher|];
      cbn [mbind result_bind Py.bind] in Hauthor |- *; [|discriminate].
    destruct (getitem pusher "name") as [name|];
      cbn [mbind result_bind Py.bind] in Hauthor |- *; [|discriminate].
    injection Hauthor as ->.
    rewrite Href. cbn [mbind result_bind Py.bind].
    specialize (Hbranch ref).
    destruct (startswith (JStr ref) "refs/heads/") as [is_head|];
      cbn [mbind result_bind Py.bind] in Hbranch |- *; [|discriminate].
    rewrite Hbranch, Htime. reflexivity.
Qed.

Lemma run_push_record_witness :
  Run.dispatch (H := Reference.runtime) Sample.world "push"
               (Sample.push "refs/heads/main" "2025-06-03T14:30:00Z")
  = Ok (inr (Run.Locals (Some "push") (JStr "alice") JNull (JStr "main")
                        (Some 1748961000000000))).
Proof.
  apply (run_push_record (H := Reference.runtime) Sample.world
           (Sample.push "refs/heads/main" "2025-06-03T14:30:00Z")).
  exists (JStr "alice"), "refs/heads/main", 1748961000000000.
  repeat split; reflexivity.
Defined.

(** An opened pull request is normalised exactly when [user.login],
    [head.ref] and [base.ref] are there and [created_at] is falsy or can be
    parsed; the record is then a [pull_request] of that author between those
    branches, at [created_at] when it is truthy, else at the clock. *)
Theorem run_opened_record `{Runtime} (w : world) (payload pr : json)
        (out : response + Run.locals) :
  get payload "action" (JStr "") = Ok (JStr "opened") ->
  get payload "pull_request" (JObj []) = Ok pr ->
  Run.dispatch w "pull_request" payload = Ok out
  <-> exists author source target created_at time,
        Spec.path pr ["user"; "login"] = Ok author
        /\ Spec.path pr ["head"; "ref"] = Ok source
        /\ Spec.path pr ["base"; "ref"] = Ok target
        /\ get pr "created_at" JNull = Ok created_at
        /\ (if truthy created_at then parse_timestamp created_at = Ok time
            else time = utcnow w)
        /\ out = inr (Run.Locals (Some "pull_request") author source target
                                 (Some time)).
Proof.
  intros Haction Hpr.
  unfold Run.dispatch. cbn [String.eqb Ascii.eqb Bool.eqb].
  rewrite Haction, Hpr. cbn [mbind result_bind Py.bind].
  change (eq_str (JStr "opened") "opened") with true. cbv iota.
  unfold Run.pr_time. cbn [Spec.path].
  split.
  - destruct (getitem pr "user") as [user|] eqn:Huser;
      cbn [mbind result_bind Py.bind]; [|discriminate].
    destruct (getitem user "login") as [author|] eqn:Hlogin;
      cbn [mbind result_bind Py.bind]; [|discriminate].
    destruct (getitem pr "head") as [head|] eqn:Hhead;
      cbn [mbind result_bind Py.bind]; [|discriminate].
    destruct (getitem head "ref") as [source|] eqn:Hsource;
      cbn [mbind result_bind Py.bind]; [|discriminate].
    destruct (getitem pr "base") as [base|] eqn:Hbase;
      cbn [mbind result_bind Py.bind]; [|discriminate].
    destruct (getitem base "ref") as [target|] eqn:Htarget;
      cbn [mbind result_bind Py.bind]; [|discriminate].
    destruct (get pr "created_at" JNull) as [created_at|];
      cbn [mbind result_bind Py.bind]; [|discriminate].
    destruct (truthy created_at) eqn:Htruthy.
    + destruct (parse_timestamp created_at) as [time|] eqn:Hparse;
        cbn [mbind result_bind Py.bind]; [|discriminate].
      intros [= <-]. exists author, source, target, created_at, time.
      rewrite Htruthy. repeat split; reflexivity || assumption.
    + cbn [mbind result_bind Py.bind]. intros [= <-].
      exists author, source, target, created_at, (utcnow w).
      rewrite Htruthy. repeat split; reflexivity.
  - intros (author & source & target & created_at & time
            & Hauthor & Hsource & Htarget & Hat & Htime & ->).
    destruct (getitem pr "user") as [user|];
      cbn [mbind result_bind Py.bind] in Hauthor |- *; [|discriminate].
    destruct (getitem user "login") as [a|];
      cbn [mbind result_bind Py.bind] in Hauthor |- *; [|discriminate].
    destruct (getitem pr "head") as [head|];
      cbn [mbind result_bind Py.bind] in Hsource |- *; [|discriminate].
    destruct (getitem head "ref") as [s|];
      cbn [mbind result_bind Py.bind] in Hsource |- *; [|discriminate].
    destruct (getitem pr "base") as [base|];
      cbn [mbind result_bind Py.bind] in Htarget |- *; [|discriminate].
    destruct (getitem base "ref") as [t|];
      cbn [mbind result_bind Py.bind] in Htarget |- *; [|discriminate].
    rewrite Hat. cbn [mbind result_bind Py.bind].
    destruct (truthy created_at).
    + rewrite Htime. cbn [mbind result_bind Py.bind]. congruence.
    + cbn [mbind result_bind Py.bind]. congruence.
Qed.

Lemma run_opened_record_witness :
  Run.dispatch (H := Reference.runtime) Sample.world "pull_request"
               Sample.opened_pull_request
  = Ok (inr (Run.Locals (Some "pull_request") (JStr "carol") (JStr "feature")
                        (JStr "main") (Some (utcnow Sample.world)))).
Proof.
  apply (run_opened_record (H := Reference.runtime) Sample.world
           Sample.opened_pull_request
           (JObj [ ("user", JObj [("login", JStr "carol")]);
                   ("head", JObj [("ref", JStr "feature")]);
                   ("base", JObj [("ref", JStr "main")]);
                   ("created_at", JNull) ])
           _ eq_refl eq_refl).
  exists (JStr "carol"), (JStr "feature"), (JStr "main"), JNull, (utcnow Sample.world).
  repeat split; reflexivity.
Defined.

(** *** More on the webhook of [run.py] *)

(** Whatever the event, even one that would be ignored, [run.py] answers
    HTTP 500 to a delivery whose JSON body is not an object, or whose
    [repository] member is there and is not an object: line 78 calls [get]
    on it before the event header is looked at. Nothing is stored. *)
Theorem run_unreadable_repository_is_500 `{Runtime}
        (secret : list Byte.byte) (validate : GitHubEvent.t -> bool) (w : world)
        (db : collection GitHubEvent.t) (request : request) (payload : json) :
  Run.signature_gate secret request = Ok () ->
  json_body request = Some payload ->
  is_dict payload = false
  \/ (exists repository,
        get payload "repository" (JObj []) = Ok repository
        /\ is_dict repository = false) ->
  Run.github_webhook secret validate w db request
  = (Response 500 (Unhandled AttributeError), db).
Proof.
  intros Hgate Hbody Hshape.
  unfold Run.github_webhook, Run.github_webhook_view, Run.parsed_payload.
  rewrite Hgate, Hbody. cbn [mbind result_bind Py.bind].
  assert (Hrepo : Run.repo_full payload = Raise AttributeError).
  { unfold Run.repo_full. destruct Hshape as [Hbody' | (repository & Hget & Hnot)].
    - destruct payload; try reflexivity. discriminate Hbody'.
    - rewrite Hget. cbn [mbind result_bind Py.bind].
      destruct repository; try reflexivity. discriminate Hnot. }
  rewrite Hrepo. reflexivity.
Qed.

Lemma run_unreadable_repository_is_500_witness :
  Run.github_webhook (H := Reference.runtime) [] Reference.validate Sample.world
    Sample.no_events (Sample.delivery "ping" (JObj [("repository", JNull)]))
  = (Response 500 (Unhandled AttributeError), Sample.no_events)
  /\ Run.github_webhook (H := Reference.runtime) [] Reference.validate Sample.world
       Sample.no_events (Sample.delivery "ping" (JArr []))
     = (Response 500 (Unhandled AttributeError), Sample.no_events).
Proof.
  split.
  - apply (run_unreadable_repository_is_500 (H := Reference.runtime) []
             Reference.validate Sample.world Sample.no_events
             (Sample.delivery "ping" (JObj [("repository", JNull)]))
             (JObj [("repository", JNull)]) eq_refl eq_refl).
    right. exists JNull. split; reflexivity.
  - apply (run_unreadable_repository_is_500 (H := Reference.runtime) []
             Reference.validate Sample.world Sample.no_events
             (Sample.delivery "ping" (JArr [])) (JArr []) eq_refl eq_refl).
    left. reflexivity.
Defined.

(** What the dispatch prepares always has one of the three event types and
    a time: of the four variables tested at line 135, only the author and
    the target branch can fail. *)
Lemma run_dispatch_kinds `{Runtime} w header payload v :
  Run.dispatch w header payload = Ok (inr v) ->
  (Run.event_type v = Some "push" \/ Run.event_type v = Some "pull_request"
   \/ Run.event_type v = Some "merge")
  /\ exists time, Run.event_time v = Some time.
Proof.
  unfold Run.dispatch.
  destruct (String.eqb header "push").
  { walk. intros [= <-]. cbn. eauto. }
  destruct (String.eqb header "pull_request"); [|discriminate].
  walk.
  destruct (eq_str _ "opened").
  { walk. intros [= <-]. cbn. eauto. }
  walk.
  match goal with |- (if ?b then _ else _) = _ -> _ => destruct b end;
    [|discriminate].
  walk. intros [= <-]. cbn. eauto 6.
Qed.

Lemma run_required_present_iff `{Runtime} w header payload v :
  Run.dispatch w header payload = Ok (inr v) ->
  Run.required_present v = truthy (Run.author v) && truthy (Run.to_branch v).
Proof.
  intros Hd. destruct (run_dispatch_kinds _ _ _ _ Hd) as [Hkind [time Htime]].
  unfold Run.required_present. rewrite Htime, andb_true_r.
  destruct Hkind as [-> | [-> | ->]]; reflexivity.
Qed.

(** Of a delivery that the dispatch normalised, [run.py] answers 400
    [Missing required fields from payload] exactly when the author or the
    target branch is falsy: null, an empty string (as for a push whose
    [ref] is absent or is [refs/heads/] alone), zero, false or an empty
    container. *)
Theorem run_missing_required_fields_iff `{Runtime}
        (secret : list Byte.byte) (validate : GitHubEvent.t -> bool) (w : world)
        (db : collection GitHubEvent.t) (request : request)
        (payload repo : json) (v : Run.locals) :
  Run.signature_gate secret request = Ok () ->
  json_body request = Some payload ->
  Run.repo_full payload = Ok repo ->
  Run.dispatch w (default "" (headers request !! "X-GitHub-Event")) payload
  = Ok (inr v) ->
  Run.github_webhook secret validate w db request
  = (Response 400 (Aborted "Missing required fields from payload"), db)
  <-> truthy (Run.author v) = false \/ truthy (Run.to_branch v) = false.
Proof.
  intros Hgate Hbody Hrepo Hd.
  rewrite (run_webhook_after_gates secret validate w db request payload repo)
    by assumption.
  rewrite Hd. unfold Run.store.
  rewrite (run_required_present_iff _ _ _ _ Hd).
  destruct (truthy (Run.author v)), (truthy (Run.to_branch v)); cbn [andb negb];
    try (split; [intros _; auto | reflexivity]).
  split; [|intros [?|?]; discriminate].
  unfold save. destruct (validate _), (db_up w); cbn; discriminate.
Qed.

Lemma run_missing_required_fields_iff_witness :
  Run.github_webhook (H := Reference.runtime) [] Reference.validate Sample.world
    Sample.no_events
    (Sample.delivery "push" (Sample.push "refs/heads/" "2025-06-03T14:30:00Z"))
  = (Response 400 (Aborted "Missing required fields from payload"), Sample.no_events).
Proof.
  apply (run_missing_required_fields_iff (H := Reference.runtime) []
           Reference.validate Sample.world Sample.no_events
           (Sample.delivery "push" (Sample.push "refs/heads/" "2025-06-03T14:30:00Z"))
           (Sample.push "refs/heads/" "2025-06-03T14:30:00Z") (JStr "o/r")
           (Run.Locals (Some "push") (JStr "alice") JNull (JStr "")
                       (Some 1748961000000000))
           eq_refl eq_refl eq_refl eq_refl).
  right. reflexivity.
Defined.

(** When the variables pass the check of line 135 and [save] fails, because
    the document class rejects the document or the database does not
    answer, [run.py] answers 500 [Database error] and the collection is as
    before. *)
Theorem run_save_failure_is_500 `{Runtime}
        (secret : list Byte.byte) (validate : GitHubEvent.t -> bool) (w : world)
        (db : collection GitHubEvent.t) (request : request)
        (payload repo : json) (v : Run.locals) :
  Run.signature_gate secret request = Ok () ->
  json_body request = Some payload ->
  Run.repo_full payload = Ok repo ->
  Run.dispatch w (default "" (headers request !! "X-GitHub-Event")) payload
  = Ok (inr v) ->
  Run.required_present v = true ->
  validate (Run.document w v repo payload) = false \/ db_up w = false ->
  Run.github_webhook secret validate w db request
  = (Response 500 (Aborted "Database error"), db).
Proof.
  intros Hgate Hbody Hrepo Hd Hreq Hfail.
  rewrite (run_webhook_after_gates secret validate w db request payload repo)
    by assumption.
  rewrite Hd. unfold Run.store, save. rewrite Hreq. cbn [negb].
  destruct Hfail as [-> | Hdown]; [reflexivity|].
  rewrite Hdown. destruct (validate _); reflexivity.
Qed.

Lemma run_save_failure_is_500_witness :
  Run.github_webhook (H := Reference.runtime) [] Reference.validate
    (World (utcnow Sample.world) (utcnow_at_insert Sample.world) false)
    Sample.no_events
    (Sample.delivery "push" (Sample.push "refs/heads/main" "2025-06-03T14:30:00Z"))
  = (Response 500 (Aborted "Database error"), Sample.no_events).
Proof.
  apply (run_save_failure_is_500 (H := Reference.runtime) [] Reference.validate
           (World (utcnow Sample.world) (utcnow_at_insert Sample.world) false)
           Sample.no_events
           (Sample.delivery "push" (Sample.push "refs/heads/main" "2025-06-03T14:30:00Z"))
           (Sample.push "refs/heads/main" "2025-06-03T14:30:00Z") (JStr "o/r")
           (Run.Locals (Some "push") (JStr "alice") JNull (JStr "main")
                       (Some 1748961000000000))
           eq_refl eq_refl eq_refl eq_refl eq_refl).
  right. reflexivity.
Defined.

(** *** Status codes *)

Lemma run_gate_status secret request e :
  Run.signature_gate secret request = Raise e ->
  status (respond (Raise e)) = 400 \/ status (respond (Raise e)) = 500.
Proof.
  unfold Run.signature_gate, Run.verify_github_signature.
  destruct secret as [|b bs]; [discriminate|].
  destruct (headers request !! "X-Hub-Signature-256") as [h|].
  2:{ intros [= <-]. auto. }
  destruct (String.eqb h "").
  { intros [= <-]. auto. }
  rewrite unpack2_split1. destruct (contains "=" h); cbn.
  2:{ intros [= <-]. auto. }
  destruct (String.eqb (before "=" h) "sha256"); cbn.
  2:{ intros [= <-]. auto. }
  rewrite compare_digest_hexdigest.
  destruct (is_ascii (after "=" h)); cbn.
  2:{ intros [= <-]. auto. }
  destruct (String.eqb _ _); cbn; [discriminate|].
  intros [= <-]. auto.
Qed.

Lemma app_gate_status secret request e :
  App.signature_gate secret request = Raise e ->
  status (respond (Raise e)) = 400 \/ status (respond (Raise e)) = 500.
Proof.
  unfold App.signature_gate, App.verify_github_signature.
  destruct secret as [|b bs]; [discriminate|].
  destruct (headers request !! "X-Hub-Signature-256") as [h|].
  2:{ intros [= <-]. auto. }
  rewrite unpack2_split1. destruct (contains "=" h); cbn.
  2:{ intros [= <-]. auto. }
  destruct (String.eqb (before "=" h) "sha256"); cbn.
  2:{ intros [= <-]. auto. }
  rewrite compare_digest_hexdigest.
  destruct (is_ascii (after "=" h)); cbn.
  2:{ intros [= <-]. auto. }
  destruct (String.eqb _ _); cbn; [discriminate|].
  intros [= <-]. auto.
Qed.

Lemma plain_status {A} (m : result A) e :
  plain m -> m = Raise e -> respond (Raise e) = Response 500 (Unhandled e).
Proof. intros Hm He. apply respond_plain. apply Hm, He. Qed.

(** Both webhooks answer every request with one of 200, 201, 400 and 500. *)
Theorem webhook_status_codes `{Runtime}
        (secret : list Byte.byte) (validate : GitHubEvent.t -> bool) (w : world)
        (db : collection GitHubEvent.t) (pdb : collection Models.PushEvent)
        (request : request) :
  let code := status (fst (Run.github_webhook secret validate w db request)) in
  let pcode := status (fst (App.handle_github_webhook secret w pdb request)) in
  (code = 200 \/ code = 201 \/ code = 400 \/ code = 500)
  /\ (pcode = 200 \/ pcode = 201 \/ pcode = 400 \/ pcode = 500).
Proof.
  cbv zeta. split.
  - unfold Run.github_webhook, Run.github_webhook_view.
    destruct (Run.signature_gate secret request) as [[]|e] eqn:Hgate.
    2:{ cbn [mbind result_bind Py.bind fst].
        destruct (run_gate_status _ _ _ Hgate); auto. }
    cbn [mbind result_bind Py.bind]. unfold Run.parsed_payload.
    destruct (json_body request) as [payload|]; [|cbn; auto].
    cbn [mbind result_bind Py.bind].
    destruct (Run.repo_full payload) as [repo|e] eqn:Hrepo.
    2:{ cbn [mbind result_bind Py.bind fst].
        rewrite (plain_status _ _ (run_repo_full_plain payload) Hrepo). cbn. auto. }
    cbn [mbind result_bind Py.bind].
    destruct (Run.dispatch w _ payload) as [[ignored|v]|e] eqn:Hd;
      cbn [mbind result_bind Py.bind fst].
    + rewrite (run_dispatch_ignored _ _ _ _ Hd). auto.
    + unfold Run.store, save.
      destruct (Run.required_present v); cbn; auto.
      destruct (validate _); cbn; auto.
      destruct (db_up w); cbn; auto.
    + rewrite (plain_status _ _ (run_dispatch_plain w _ payload) Hd). cbn. auto.
  - unfold App.handle_github_webhook, App.handle_github_webhook_view.
    destruct (App.signature_gate secret request) as [[]|e] eqn:Hgate.
    2:{ cbn [mbind result_bind Py.bind fst].
        destruct (app_gate_status _ _ _ Hgate); auto. }
    cbn [mbind result_bind Py.bind]. unfold App.parsed_payload.
    destruct (json_body request) as [payload|]; [|cbn; auto].
    cbn [mbind result_bind Py.bind].
    destruct (negb _); [cbn; auto|].
    destruct (App.record_push w pdb payload) as [db'|e] eqn:Hpush; [cbn; auto|].
    pose proof (app_record_push_plain w pdb payload e Hpush) as Hplain.
    destruct e; try discriminate Hplain; cbn; auto.
Qed.

(** A 201 of [run.py] always carries one of three messages. *)
Theorem run_recorded_message `{Runtime}
        (secret : list Byte.byte) (validate : GitHubEvent.t -> bool) (w : world)
        (db : collection GitHubEvent.t) (request : request) :
  status (fst (Run.github_webhook secret validate w db request)) = 201 ->
  exists kind,
    (kind = "push" \/ kind = "pull_request" \/ kind = "merge")
    /\ fst (Run.github_webhook secret validate w db request)
       = jsonify_msg ("Recorded " +:+ kind +:+ " event") 201
    /\ exists d, snd (Run.github_webhook secret validate w db request) = insert d db
                 /\ GitHubEvent.event_type d = Some kind.
Proof.
  intros Hcode.
  destruct (run_webhook_cases secret validate w db request)
    as [[Hno _] | (v & repo & payload & _ & Hd & _ & Hout)]; [congruence|].
  rewrite Hout. cbn [fst snd].
  destruct (run_dispatch_kinds _ _ _ _ Hd) as [Hkind _].
  destruct Hkind as [Hk | [Hk | Hk]]; rewrite Hk; cbn [opt_str];
    eexists; (split; [|split; [reflexivity|]]);
    [ auto | eexists; split; [reflexivity | exact Hk]
    | auto | eexists; split; [reflexivity | exact Hk]
    | auto | eexists; split; [reflexivity | exact Hk] ].
Qed.

Lemma run_recorded_message_witness :
  exists kind,
    (kind = "push" \/ kind = "pull_request" \/ kind = "merge")
    /\ fst (Run.github_webhook (H := Reference.runtime) [] Reference.validate
              Sample.world Sample.no_events
              (Sample.delivery "pull_request" Sample.merged_pull_request))
       = jsonify_msg ("Recorded " +:+ kind +:+ " event") 201
    /\ exists d,
         snd (Run.github_webhook (H := Reference.runtime) [] Reference.validate
                Sample.world Sample.no_events
                (Sample.delivery "pull_request" Sample.merged_pull_request))
         = insert d Sample.no_events
         /\ GitHubEvent.event_type d = Some kind.
Proof.
  exact (run_recorded_message (H := Reference.runtime) [] Reference.validate
           Sample.world Sample.no_events
           (Sample.delivery "pull_request" Sample.merged_pull_request) eq_refl).
Defined.

(** *** The collection over a sequence of deliveries *)

Lemma substring_length (n : nat) (s : string) :
  (String.length (String.substring 0 n s) <= n)%nat.
Proof.
  revert s. induction n as [|n IH]; intros [|c s];
    cbn [String.substring String.length]; try lia.
  specialize (IH s). lia.
Qed.

(** One delivery leaves the collection as it is or appends one document,
    which has the required fields and a raw payload of at most 16000
    characters. *)
Lemma run_webhook_extends `{Runtime} secret validate w db request :
  snd (Run.github_webhook secret validate w db request) = db
  \/ exists d, snd (Run.github_webhook secret validate w db request) = insert d db
               /\ Spec.record_ok d
               /\ Z.of_nat (String.length (GitHubEvent.raw_payload d)) <= 16000.
Proof.
  destruct (run_webhook_cases secret validate w db request)
    as [[_ Hsame] | (v & repo & payload & _ & _ & Hreq & Hout)]; [auto|].
  right. exists (Run.document w v repo payload). rewrite Hout.
  split; [reflexivity|]. split; [apply run_document_ok, Hreq|].
  unfold Run.document, take. cbn [GitHubEvent.raw_payload].
  pose proof (substring_length (Z.to_nat 16000) (json_dumps payload)). lia.
Qed.

(** The collection is append-only: after any sequence of deliveries the
    documents that were there come first, unchanged, followed by at most
    one new document per delivery; identifiers stay distinct. *)
Theorem run_serve_append_only `{Runtime}
        (secret : list Byte.byte) (validate : GitHubEvent.t -> bool)
        (deliveries : list (world * request)) (db : collection GitHubEvent.t) :
  Spec.fresh_ids db ->
  NoDup (List.map fst (documents db)) ->
  let db' := Run.serve secret validate deliveries db in
  (exists added,
     documents db' = (documents db ++ added)%list
     /\ (List.length added <= List.length deliveries)%nat)
  /\ Spec.fresh_ids db'
  /\ NoDup (List.map fst (documents db')).
Proof.
  cbv zeta. unfold Run.serve. revert db.
  induction deliveries as [|[w request] rest IH]; intros db Hfresh Hdistinct;
    cbn [List.fold_left fst snd].
  - split; [|auto]. exists []. rewrite app_nil_r. split; [reflexivity | cbn; lia].
  - destruct (run_webhook_extends secret validate w db request)
      as [-> | (d & -> & _)].
    + destruct (IH db Hfresh Hdistinct) as ((added & -> & Hlen) & ? & ?).
      split; [|auto]. exists added. split; [reflexivity | cbn; lia].
    + destruct (insert_fresh d db Hfresh) as [Hnew Hfresh'].
      assert (Hdistinct' : NoDup (List.map fst (documents (insert d db)))).
      { cbn [insert documents]. rewrite map_app. cbn [List.map fst].
        apply NoDup_app. split; [exact Hdistinct|]. split.
        - intros oid Hin Hnext. apply list_elem_of_singleton in Hnext. subst oid.
          apply list_elem_of_fmap in Hin as ((oid' & d') & Heq & Hin).
          rewrite Forall_forall in Hnew. apply (Hnew _ Hin). exact (eq_sym Heq).
        - apply NoDup_singleton. }
      destruct (IH (insert d db) Hfresh' Hdistinct') as ((added & Hdocs & Hlen) & ? & ?).
      split; [|auto]. exists ((next_oid db, d) :: added).
      rewrite Hdocs. cbn [insert documents]. rewrite <- app_assoc.
      split; [reflexivity | cbn; lia].
Qed.

Lemma run_serve_append_only_witness :
  NoDup (List.map fst
           (documents
              (Run.serve (H := Reference.runtime) [] Reference.validate
                 [ (Sample.world,
                    Sample.delivery "push"
                      (Sample.push "refs/heads/main" "2025-06-03T14:30:00Z"));
                   (Sample.world,
                    Sample.delivery "push"
                      (Sample.push "refs/heads/main" "2025-06-03T14:30:00Z")) ]
                 Sample.no_events))).
Proof.
  apply (run_serve_append_only (H := Reference.runtime) [] Reference.validate
           [ (Sample.world,
              Sample.delivery "push"
                (Sample.push "refs/heads/main" "2025-06-03T14:30:00Z"));
             (Sample.world,
              Sample.delivery "push"
                (Sample.push "refs/heads/main" "2025-06-03T14:30:00Z")) ]
           Sample.no_events (List.Forall_nil _) NoDup_nil_2).
Defined.

(** No stored record holds more than 16000 characters of raw payload,
    however long the payload was. *)
Theorem run_raw_payload_bounded `{Runtime}
        (secret : list Byte.byte) (validate : GitHubEvent.t -> bool)
        (deliveries : list (world * request)) (db : collection GitHubEvent.t) :
  Forall (fun p => Z.of_nat (String.length (GitHubEvent.raw_payload (snd p))) <= 16000)
         (documents db) ->
  Forall (fun p => Z.of_nat (String.length (GitHubEvent.raw_payload (snd p))) <= 16000)
         (documents (Run.serve secret validate deliveries db)).
Proof.
  unfold Run.serve. revert db.
  induction deliveries as [|[w request] rest IH]; intros db Hdb;
    cbn [List.fold_left fst snd]; [exact Hdb|].
  apply IH.
  destruct (run_webhook_extends secret validate w db request)
    as [-> | (d & -> & _ & Hlen)]; [exact Hdb|].
  cbn [insert documents]. apply Forall_app. split; [exact Hdb|].
  constructor; [exact Hlen | constructor].
Qed.

Lemma run_raw_payload_bounded_witness :
  Forall (fun p => Z.of_nat (String.length (GitHubEvent.raw_payload (snd p))) <= 16000)
         (documents
            (Run.serve (H := Reference.runtime) [] Reference.validate
               [ (Sample.world,
                  Sample.delivery "push"
                    (Sample.push "refs/heads/main" "2025-06-03T14:30:00Z")) ]
               Sample.no_events)).
Proof.
  exact (run_raw_payload_bounded (H := Reference.runtime) [] Reference.validate
           [ (Sample.world,
              Sample.delivery "push"
                (Sample.push "refs/heads/main" "2025-06-03T14:30:00Z")) ]
           Sample.no_events (List.Forall_nil _)).
Defined.

(** *** More on the listings *)

Lemma mapM_result_length {A B} (f : A -> result B) (l : list A) (out : list B) :
  mapM f l = Ok out -> List.length out = List.length l.
Proof.
  revert out. induction l as [|a l IH]; intros out.
  - intros [= <-]. reflexivity.
  - change (mapM f (a :: l)) with (y ← f a; k ← mapM f l; mret (y :: k)).
    destruct (f a) as [y|]; cbn [mbind result_bind Py.bind]; [|discriminate].
    destruct (mapM f l) as [k|]; cbn [mbind result_bind Py.bind]; [|discriminate].
    intros [= <-]. cbn [List.length]. rewrite (IH k eq_refl). reflexivity.
Qed.

Lemma run_events_json `{Runtime} (events : list (ObjectId * GitHubEvent.t)) :
  Forall (fun p => GitHubEvent.timestamp (snd p) <> None) events ->
  exists out, mapM Run.event_json events = Ok out.
Proof.
  induction 1 as [|ev events Hev _ [out IH]].
  - eexists. reflexivity.
  - change (mapM Run.event_json (ev :: events))
      with (y ← Run.event_json ev; k ← mapM Run.event_json events; mret (y :: k)).
    rewrite IH. unfold Run.event_json.
    destruct (GitHubEvent.timestamp (snd ev)); [|congruence].
    eexists. reflexivity.
Qed.

(** For a positive limit [n] that a 64-bit integer holds, and a collection
    whose records all have a time, [GET /events] of [run.py] answers 200
    with one entry per selected record, in their order: as many as there are
    records, and no more than [n]. *)
Theorem run_list_events_answer `{Runtime} (db : collection GitHubEvent.t)
        (request : request) (n : Z) :
  Run.requested_limit request = Ok n ->
  0 < n < 2 ^ 63 ->
  Forall (fun p => GitHubEvent.timestamp (snd p) <> None) (documents db) ->
  exists out,
    Run.list_events db request = Response 200 (Json (JArr out))
    /\ mapM Run.event_json
            (List.firstn (Z.to_nat n) (order_by_desc GitHubEvent.timestamp db))
       = Ok out
    /\ List.length out = Nat.min (Z.to_nat n) (List.length (documents db)).
Proof.
  intros Hlimit Hn Hstamped.
  assert (Hsorted : Forall (fun p => GitHubEvent.timestamp (snd p) <> None)
                           (order_by_desc GitHubEvent.timestamp db)).
  { unfold order_by_desc. rewrite merge_sort_Permutation. exact Hstamped. }
  destruct (run_events_json
              (List.firstn (Z.to_nat n) (order_by_desc GitHubEvent.timestamp db)))
    as [out Hout].
  { apply Forall_take. exact Hsorted. }
  exists out. split; [|split; [exact Hout|]].
  - unfold Run.list_events. rewrite Hlimit. cbn [mbind result_bind Py.bind].
    unfold Run.selected_events, Mongo.limit.
    destruct (Z.leb_spec n (- 2 ^ 63)); [lia|].
    destruct (Z.leb_spec (2 ^ 63) n); [lia|].
    destruct (Z.ltb_spec 0 n); [|lia].
    cbn [orb mbind result_bind Py.bind]. rewrite Hout. reflexivity.
  - rewrite (mapM_result_length _ _ _ Hout), List.length_firstn.
    unfold order_by_desc.
    rewrite (Permutation_length (merge_sort_Permutation _ (documents db))).
    reflexivity.
Qed.

Lemma run_list_events_answer_witness :
  exists out,
    Run.list_events (H := Reference.runtime)
      (Run.serve (H := Reference.runtime) [] Reference.validate
         [ (Sample.world,
            Sample.delivery "push"
              (Sample.push "refs/heads/main" "2025-06-03T14:30:00Z")) ]
         Sample.no_events)
      (Sample.listing "5")
    = Response 200 (Json (JArr out))
    /\ List.length out = 1%nat.
Proof.
  destruct (run_list_events_answer (H := Reference.runtime)
              (Run.serve (H := Reference.runtime) [] Reference.validate
                 [ (Sample.world,
                    Sample.delivery "push"
                      (Sample.push "refs/heads/main" "2025-06-03T14:30:00Z")) ]
                 Sample.no_events)
              (Sample.listing "5") 5 eq_refl ltac:(lia))
    as (out & Hanswer & _ & Hlen).
  - vm_compute. constructor; [discriminate | constructor].
  - exists out. split; [exact Hanswer | exact Hlen].
Defined.

Lemma run_list_events_most_recent_witness :
  Run.selected_events (H := Reference.runtime) Sample.no_events 20
  = Ok (List.firstn (Z.to_nat 20) (order_by_desc GitHubEvent.timestamp Sample.no_events)).
Proof.
  destruct (run_list_events_most_recent (H := Reference.runtime) Sample.no_events
              (Sample.listing "abc") 20 eq_refl ltac:(lia)) as [Hselected _].
  exact Hselected.
Defined.

(** After any sequence of deliveries into a collection whose records have
    the required fields, [GET /events] of [run.py] answers 200 for every
    limit that a 64-bit integer holds, zero and negative ones included. *)
Theorem run_list_after_serve `{Runtime}
        (secret : list Byte.byte) (validate : GitHubEvent.t -> bool)
        (deliveries : list (world * request)) (db : collection GitHubEvent.t)
        (request : request) (n : Z) :
  Forall (fun p => Spec.record_ok (snd p)) (documents db) ->
  Run.requested_limit request = Ok n ->
  - 2 ^ 63 < n < 2 ^ 63 ->
  status (Run.list_events (Run.serve secret validate deliveries db) request) = 200.
Proof.
  intros Hdb Hlimit Hn.
  assert (Hkept : Forall (fun p => Spec.record_ok (snd p))
                         (documents (Run.serve secret validate deliveries db))).
  { unfold Run.serve. revert db Hdb.
    induction deliveries as [|[w r] rest IH]; intros db Hdb;
      cbn [List.fold_left fst snd]; [exact Hdb|].
    apply IH.
    destruct (run_webhook_extends secret validate w db r) as [-> | (d & -> & Hok & _)];
      [exact Hdb|].
    cbn [insert documents]. apply Forall_app. split; [exact Hdb|].
    constructor; [exact Hok | constructor]. }
  assert (Hstamped : Forall (fun p => GitHubEvent.timestamp (snd p) <> None)
                            (documents (Run.serve secret validate deliveries db))).
  { eapply Forall_impl; [exact Hkept|]. intros p Hp. apply Hp. }
  destruct (Z.ltb_spec 0 n) as [Hpos|Hneg].
  - destruct (run_list_events_answer _ request n Hlimit ltac:(lia) Hstamped)
      as (out & -> & _). reflexivity.
  - apply (run_list_events_nonpositive _ request n Hlimit); [lia | exact Hstamped].
Qed.

Lemma run_list_after_serve_witness :
  status (Run.list_events (H := Reference.runtime)
            (Run.serve (H := Reference.runtime) [] Reference.validate
               [ (Sample.world,
                  Sample.delivery "push"
                    (Sample.push "refs/heads/main" "2025-06-03T14:30:00Z")) ]
               Sample.no_events)
            (Sample.listing "0"))
  = 200.
Proof.
  apply (run_list_after_serve (H := Reference.runtime) [] Reference.validate
           [ (Sample.world,
              Sample.delivery "push"
                (Sample.push "refs/heads/main" "2025-06-03T14:30:00Z")) ]
           Sample.no_events (Sample.listing "0") 0 (List.Forall_nil _) eq_refl).
  lia.
Defined.

Lemma run_list_events_nonpositive_witness :
  status (Run.list_events (H := Reference.runtime) Sample.no_events
            (Sample.listing "-3"))
  = 200.
Proof.
  apply (run_list_events_nonpositive (H := Reference.runtime) Sample.no_events
           (Sample.listing "-3") (-3) eq_refl ltac:(lia) (List.Forall_nil _)).
Defined.

(** For a positive limit [n] that a 64-bit integer holds, [GET /events] of
    [app/app.py] answers 200 with the [n] pushes recorded last, latest
    first; without a limit parameter [n] is 20. *)
Theorem app_list_events_answer `{Runtime} (pdb : collection Models.PushEvent)
        (request : request) (n : Z) :
  match args request !! "limit" with
  | None => n = 20
  | Some text => py_int text = Some n
  end ->
  0 < n < 2 ^ 63 ->
  let key := fun d => Some (Models.pushed_at d) in
  let sorted := order_by_desc key pdb in
  App.list_events pdb request
  = Response 200 (Json (JArr (List.map App.event_json (List.firstn (Z.to_nat n) sorted))))
  /\ sorted ≡ₚ documents pdb
  /\ StronglySorted (later key) sorted
  /\ forall kept left_out,
       kept ∈ List.firstn (Z.to_nat n) sorted ->
       left_out ∈ List.skipn (Z.to_nat n) sorted ->
       Models.pushed_at (snd left_out) <= Models.pushed_at (snd kept).
Proof.
  intros Hlimit Hn key sorted. split; [|split; [|split]].
  - assert (Hrequested : App.requested_limit request = Ok n).
    { unfold App.requested_limit.
      destruct (args request !! "limit") as [text|]; [rewrite Hlimit | subst n];
        reflexivity. }
    unfold App.list_events. rewrite Hrequested. cbn [mbind result_bind Py.bind].
    unfold Mongo.limit.
    destruct (Z.leb_spec n (- 2 ^ 63)); [lia|].
    destruct (Z.leb_spec (2 ^ 63) n); [lia|].
    destruct (Z.ltb_spec 0 n); [reflexivity | lia].
  - apply order_by_desc_sorted.
  - apply order_by_desc_sorted.
  - intros kept left_out Hkept Hleft.
    pose proof (order_by_desc_most_recent key pdb _ _ _ Hkept Hleft) as Hlater.
    unfold later, key, date_leb in Hlater. apply Z.leb_le. exact Hlater.
Qed.

Lemma app_list_events_answer_witness :
  App.list_events (H := Reference.runtime) Sample.no_pushes (Sample.listing "7")
  = Response 200 (Json (JArr [])).
Proof.
  destruct (app_list_events_answer (H := Reference.runtime) Sample.no_pushes
              (Sample.listing "7") 7 eq_refl ltac:(lia)) as [Hanswer _].
  exact Hanswer.
Defined.

(** *** More on the webhook of [app/app.py] *)

(** A push that [app/app.py] records is stored as one document made of
    [repository.full_name], [pusher.name], [pusher.email], the ref with its
    first [refs/heads/] removed, the handler's clock, the whole payload as
    text, and one commit document per item of [commits], in their order.
    The document has passed the validation of [Models.py]: the three names
    are strings, and so are the fields of every commit. *)
Theorem app_push_record `{Runtime} (w : world) (db db' : collection Models.PushEvent)
        (payload : json) :
  App.record_push w db payload = Ok db' ->
  exists d ref items,
    db' = insert d db
    /\ Spec.path payload ["repository"; "full_name"] = Ok (Models.repo_name d)
    /\ Spec.path payload ["pusher"; "name"] = Ok (Models.pusher_name d)
    /\ Spec.path payload ["pusher"; "email"] = Ok (Models.pusher_email d)
    /\ getitem payload "ref" = Ok (JStr ref)
    /\ Models.branch d = str_replace ref "refs/heads/" "" (Some 1%nat)
    /\ Models.pushed_at d = utcnow w
    /\ Models.raw_payload d = json_dumps payload
    /\ (raw ← get payload "commits" (JArr []); iter raw) = Ok items
    /\ mapM App.commit_doc items = Ok (Models.commits d)
    /\ List.length (Models.commits d) = List.length items
    /\ Models.valid_push d = true
    /\ db_up w = true.
Proof.
  unfold App.record_push.
  destruct (getitem payload "repository") as [repository|] eqn:Hrepository;
    cbn [mbind result_bind Py.bind]; [|discriminate].
  destruct (getitem repository "full_name") as [full_name|] eqn:Hfull;
    cbn [mbind result_bind Py.bind]; [|discriminate].
  destruct (getitem payload "pusher") as [pusher|] eqn:Hpusher;
    cbn [mbind result_bind Py.bind]; [|discriminate].
  destruct (getitem pusher "name") as [name|] eqn:Hname;
    cbn [mbind result_bind Py.bind]; [|discriminate].
  destruct (getitem pusher "email") as [email|] eqn:Hemail;
    cbn [mbind result_bind Py.bind]; [|discriminate].
  destruct (getitem payload "ref") as [refv|] eqn:Href;
    cbn [mbind result_bind Py.bind]; [|discriminate].
  destruct refv as [| | | |ref| |];
    cbn [replace mbind result_bind Py.bind]; try discriminate.
  destruct (get payload "commits" (JArr [])) as [raw|] eqn:Hraw;
    cbn [mbind result_bind Py.bind]; [|discriminate].
  destruct (iter raw) as [items|] eqn:Hitems;
    cbn [mbind result_bind Py.bind]; [|discriminate].
  destruct (mapM App.commit_doc items) as [docs|] eqn:Hdocs;
    cbn [mbind result_bind Py.bind]; [|discriminate].
  unfold save.
  destruct (Models.valid_push _) eqn:Hvalid; cbn [negb]; [|discriminate].
  destruct (db_up w) eqn:Hup; cbn [negb]; [|discriminate].
  intros [= <-].
  eexists _, ref, items. split; [reflexivity|].
  cbn [Spec.path Models.repo_name Models.pusher_name Models.pusher_email
       Models.branch Models.pushed_at Models.raw_payload Models.commits].
  rewrite Hrepository, Hpusher. cbn [mbind result_bind Py.bind].
  rewrite Hfull, Hname, Hemail.
  repeat split; try reflexivity; try assumption.
  apply (mapM_result_length _ _ _ Hdocs).
Qed.

Lemma app_push_record_witness :
  exists d,
    App.record_push (H := Reference.runtime) Sample.world Sample.no_pushes
                    (Sample.push_of_commit "2025-06-03T14:30:00Z")
    = Ok (insert d Sample.no_pushes)
    /\ Models.branch d = "main"
    /\ List.length (Models.commits d) = 1%nat.
Proof.
  destruct (App.record_push (H := Reference.runtime) Sample.world Sample.no_pushes
              (Sample.push_of_commit "2025-06-03T14:30:00Z")) as [db'|e] eqn:Hpush.
  - destruct (app_push_record (H := Reference.runtime) Sample.world Sample.no_pushes
                db' (Sample.push_of_commit "2025-06-03T14:30:00Z") Hpush)
      as (d & ref & items & -> & _ & _ & _ & Href & Hbranch & _ & _ & Hitems & _
          & Hlen & _).
    exists d. split; [reflexivity|].
    injection Href as <-. injection Hitems as <-.
    split; [exact Hbranch | exact Hlen].
  - vm_compute in Hpush. discriminate Hpush.
Defined.
